(** * Request handling of the WhatsApp educational assistant

    A shallow embedding of the runtime logic of the repository:

    - [lambda_sns_handler.py]: the inbound adapter ([markAsRead],
      [get_user_persona_by_phone], [lambda_handler]);
    - [orchestrator_agentcore_runtime_gateway.py]: the orchestration
      entrypoint ([get_memory_id], [create_orchestrator_agent_runtime],
      [invoke]);
    - the persona guards of the domain tools ([answer_admin_questions],
      [answer_student_questions], [answer_teacher_questions]);
    - [mock_data_generator.py]: [generate_student_data],
      [generate_teacher_data], [generate_payment_data] and
      [generate_admin_data];
    - [lambda_function.py]: the WhatsApp send tool ([lambda_handler]).

    Python values are an inductive type, exceptions are a result type, and
    calls to external services (boto3 clients, the agent framework, the
    gateway) append an event to a log and take their outcome from an
    oracle that sees the log so far. *)

From Stdlib Require Import ZArith String Ascii List Lia Bool QArith DecimalString.
From stdpp Require Import base option list gmap strings.

Set Warnings "-register-all".
Local Open Scope string_scope.
Local Open Scope Z_scope.
Local Open Scope list_scope.

(** ** Python values, exceptions and effects *)

Module Py.

(** JSON-shaped Python values. A float is kept as its IEEE 754 binary64
    bit pattern; only its truth value is ever inspected. *)
Inductive pyval :=
  | PNone
  | PBool (b : bool)
  | PInt (n : Z)
  | PFloat (bits : Z)
  | PStr (s : string)
  | PList (l : list pyval)
  | PDict (d : gmap string pyval).

(** [bool(v)]: [None], [False], zero, the empty string and the empty
    containers are false. *)
Definition truthy (v : pyval) : bool :=
  match v with
  | PNone => false
  | PBool b => b
  | PInt n => negb (n =? 0)
  | PFloat bits => negb (Z.land bits 0x7FFFFFFFFFFFFFFF =? 0)
  | PStr s => negb (String.eqb s "")
  | PList l => match l with [] => false | _ => true end
  | PDict d => negb (bool_decide (d = ∅))
  end.

(** [v == s] for a string literal [s]. *)
Definition eq_str (v : pyval) (s : string) : bool :=
  match v with PStr s' => String.eqb s' s | _ => false end.

(** [a or b] *)
Definition py_or (a b : pyval) : pyval := if truthy a then a else b.

(** [d.get(k)] on a dict, [None] when the key is absent. *)
Definition dict_get (d : gmap string pyval) (k : string) : pyval :=
  default PNone (d !! k).

(** The exception classes the code can meet. All derive from
    [Exception], so [except Exception] catches each of them;
    [KeyboardInterrupt] and the like are not modelled. *)
Inductive exn :=
  | KeyError (key : string)
  | IndexError
  | TypeError
  | AttributeError
  | ValueError (msg : string)
  | JSONDecodeError
  | ClientError (msg : string)
  | ServiceError (msg : string)
  | PyException (msg : string).

Inductive result (A : Type) :=
  | Return (a : A)
  | Raise (e : exn).
Arguments Return {A} a.
Arguments Raise {A} e.

Definition is_raise {A} (r : result A) : bool :=
  match r with Raise _ => true | Return _ => false end.

(** Computations over a world [W]: the world survives an exception. *)
Definition M (W A : Type) : Type := W -> result A * W.

Definition ret {W A} (a : A) : M W A := fun w => (Return a, w).

Definition raise {W A} (e : exn) : M W A := fun w => (Raise e, w).

Definition bind {W A B} (c : M W A) (k : A -> M W B) : M W B :=
  fun w =>
    match c w with
    | (Return a, w') => k a w'
    | (Raise e, w') => (Raise e, w')
    end.

(** [try: body  except Exception as e: handler(e)] *)
Definition try_except {W A} (body : M W A) (handler : exn -> M W A) : M W A :=
  fun w =>
    match body w with
    | (Return a, w') => (Return a, w')
    | (Raise e, w') => handler e w'
    end.

(** Lift a pure outcome. *)
Definition lift {W A} (r : result A) : M W A := fun w => (r, w).

(** *** Operations on values *)

(** [v[k]] for a string key. *)
Definition getitem_key (v : pyval) (k : string) : result pyval :=
  match v with
  | PDict d =>
      match d !! k with
      | Some x => Return x
      | None => Raise (KeyError k)
      end
  | _ => Raise TypeError
  end.

(** [v.get(k, dflt)]: only dicts have the method. *)
Definition get (v : pyval) (k : string) (dflt : pyval) : result pyval :=
  match v with
  | PDict d => Return (default dflt (d !! k))
  | _ => Raise AttributeError
  end.

(** A [str] is kept as its UTF-8 bytes; its characters are the groups
    made of a leading byte and the continuation bytes after it. *)
Definition is_continuation (c : ascii) : bool :=
  let n := nat_of_ascii c in (128 <=? n)%nat && (n <? 192)%nat.

Fixpoint utf8_split (s : string) : string * list string :=
  match s with
  | EmptyString => (EmptyString, [])
  | String c s' =>
      let '(pending, chars) := utf8_split s' in
      if is_continuation c then (String c pending, chars)
      else (EmptyString, String c pending :: chars)
  end.

Definition chars (s : string) : list string := snd (utf8_split s).

(** [v[0]] *)
Definition getitem0 (v : pyval) : result pyval :=
  match v with
  | PList (x :: _) => Return x
  | PList [] => Raise IndexError
  | PStr s =>
      match chars s with
      | c :: _ => Return (PStr c)
      | [] => Raise IndexError
      end
  | PDict _ => Raise (KeyError "0")
  | _ => Raise TypeError
  end.

(** [needle in s] on strings. *)
Fixpoint is_infix (needle s : string) : bool :=
  String.prefix needle s ||
  match s with
  | EmptyString => false
  | String _ s' => is_infix needle s'
  end.

(** [k in v] for a string [k]: a key of a dict, an element of a list,
    a substring of a string. *)
Definition contains (k : string) (v : pyval) : result bool :=
  match v with
  | PDict d => Return (bool_decide (is_Some (d !! k)))
  | PList l => Return (existsb (fun x => eq_str x k) l)
  | PStr s => Return (is_infix k s)
  | _ => Raise TypeError
  end.

(** [len(v)] is defined: [v] is sized. *)
Definition len (v : pyval) : result Z :=
  match v with
  | PList l => Return (Z.of_nat (length l))
  | PDict d => Return (Z.of_nat (size d))
  | PStr s => Return (Z.of_nat (length (chars s)))
  | _ => Raise TypeError
  end.

(** The items of [for x in v]. *)
Definition iterate (v : pyval) : result (list pyval) :=
  match v with
  | PList l => Return l
  | PStr s => Return (map PStr (chars s))
  | PDict d => Return (map (fun kv => PStr (fst kv)) (map_to_list d))
  | _ => Raise TypeError
  end.

(** [s.replace(old, new)] for a one-character [old]. *)
Fixpoint replace (old : ascii) (new s : string) : string :=
  match s with
  | EmptyString => EmptyString
  | String c s' =>
      if Ascii.eqb c old then new +:+ replace old new s'
      else String c (replace old new s')
  end.

End Py.

Import Py.

Declare Scope py_scope.
Delimit Scope py_scope with py.
Notation "x <~ c ;; k" := (bind c (fun x => k))
  (at level 100, c at next level, right associativity) : py_scope.
Notation "c ;;; k" := (bind c (fun _ => k))
  (at level 100, right associativity) : py_scope.
Local Open Scope py_scope.

(** ** The orchestration entrypoint
    ([src/agents/orchestrator_agentcore_runtime_gateway.py]) *)

Module Orchestrator.

(** A callable tool: one of the locally registered functions, or one
    listed by the gateway. *)
Inductive Tool :=
  | LocalTool (name : string)
  | McpTool (name : string).

Record RetrievalConfig := {
  top_k : Z;
  relevance_score : Q
}.

Record AgentCoreMemoryConfig := {
  memory_id : pyval;
  session_id : pyval;
  actor_id : pyval;
  retrieval_config : list (string * RetrievalConfig)
}.

(** What an invoked agent hands back: [result.message] when the object
    has that attribute, and its [str()]. *)
Record AgentResult := {
  message : option pyval;
  as_str : string
}.

(** Calls that leave the process. *)
Inductive Event :=
  | EvSession
  | EvSsmClient
  | EvSsmGetParameter (name : string)
  | EvMemoryClient (region : pyval)
  | EvMemoryConfig (cfg : AgentCoreMemoryConfig)
  | EvSessionManager (cfg : AgentCoreMemoryConfig) (region : pyval)
  | EvMcpEnter
  | EvMcpListTools
  | EvAgent (tools : list Tool)
  | EvAgentCall (tools : list Tool) (prompt : string)
  | EvMcpExit.

(** The outside world: the process environment and, for every external
    call, its outcome given the calls made so far. *)
Record Env := {
  environ : gmap string string;
  session_region : list Event -> result pyval;
  ssm_client : list Event -> result unit;
  ssm_get_parameter : string -> list Event -> result string;
  memory_client : pyval -> list Event -> result unit;
  memory_config : AgentCoreMemoryConfig -> list Event -> result unit;
  session_manager : AgentCoreMemoryConfig -> pyval -> list Event -> result unit;
  mcp_enter : list Event -> result unit;
  mcp_list_tools : list Event -> result (list string);
  agent_new : list Tool -> list Event -> result unit;
  agent_call : list Tool -> string -> list Event -> result AgentResult
}.

(** Process state: the call log and the two module-level caches. The
    cached memory client is stood for by the region it was built for. *)
Record World := {
  log : list Event;
  memory_id_cache : option string;
  memory_client_cache : option pyval
}.

Definition emit (ev : Event) (w : World) : World :=
  {| log := log w ++ [ev];
     memory_id_cache := memory_id_cache w;
     memory_client_cache := memory_client_cache w |}.

Definition call {A} (ev : Event) (oracle : list Event -> result A) : M World A :=
  fun w => (oracle (log w), emit ev w).

Definition get_memory_id_cache : M World (option string) :=
  fun w => (Return (memory_id_cache w), w).

Definition set_memory_id_cache (v : string) : M World unit :=
  fun w => (Return tt,
            {| log := log w;
               memory_id_cache := Some v;
               memory_client_cache := memory_client_cache w |}).

Definition get_memory_client_cache : M World (option pyval) :=
  fun w => (Return (memory_client_cache w), w).

Definition set_memory_client_cache (region : pyval) : M World unit :=
  fun w => (Return tt,
            {| log := log w;
               memory_id_cache := memory_id_cache w;
               memory_client_cache := Some region |}).

Definition nl : string := String (ascii_of_nat 10) "".

Section WithEnv.

Variable env : Env.

(** [str(v)] of a value that is not a string, [None], a bool or an int
    (Python's [repr] of floats and containers). *)
Variable py_repr : pyval -> string.

Definition py_str (v : pyval) : string :=
  match v with
  | PStr s => s
  | PNone => "None"
  | PBool true => "True"
  | PBool false => "False"
  | PInt n => NilZero.string_of_int (Z.to_int n)
  | _ => py_repr v
  end.

Definition default_memory_param : string := "/app/octank_edu_multi_agent/memory_id".

Definition get_memory_id_from_ssm (param_name : string) : M World string :=
  call EvSsmClient (ssm_client env) ;;;
  fun w =>
    match call (EvSsmGetParameter param_name) (ssm_get_parameter env param_name) w with
    | (Raise (ClientError m), w') =>
        (Raise (PyException ("Could not retrieve memory_id from SSM: " +:+ m)), w')
    | other => other
    end.

Definition memory_id_missing : exn :=
  PyException
    ("memory_id is required but not found in payload, SSM, or environment. " +:+
     "Please provide 'memory_id' in the request payload or configure it in SSM.").

(** Truth value of an [Optional[str]]. *)
Definition str_truthy (o : option string) : bool :=
  match o with
  | Some s => negb (String.eqb s "")
  | None => false
  end.

Definition get_memory_id (payload : gmap string pyval) : M World pyval :=
  match payload !! "memory_id" with
  | Some memory_id => ret memory_id
  | None =>
      cache <~ get_memory_id_cache ;;
      if str_truthy cache then ret (PStr (default "" cache)) else
      from_ssm <~ try_except
                    (v <~ get_memory_id_from_ssm default_memory_param ;;
                     set_memory_id_cache v ;;;
                     ret (Some v))
                    (fun _ => ret None) ;;
      match from_ssm with
      | Some v => ret (PStr v)
      | None =>
          let memory_id := environ env !! "MEMORY_ID" in
          if str_truthy memory_id
          then set_memory_id_cache (default "" memory_id) ;;;
               ret (PStr (default "" memory_id))
          else raise memory_id_missing
      end
  end.

(** *** [create_orchestrator_agent_runtime] *)

Definition valid_personas : list string := ["student"; "teacher"; "administrator"].

Definition persona_valid (persona : pyval) : bool :=
  existsb (eq_str persona) valid_personas.

Definition base_tools : list Tool :=
  [ LocalTool "answer_student_questions";
    LocalTool "answer_teacher_questions";
    LocalTool "answer_payment_questions";
    LocalTool "answer_admin_questions";
    LocalTool "answer_general_questions";
    LocalTool "retrieve" ].

(** [query[:100]] is evaluated for a log line: it needs a sequence
    (a dict fails too, with [KeyError] on Python 3.12 and later). *)
Definition sliceable (v : pyval) : bool :=
  match v with
  | PStr _ | PList _ => true
  | _ => false
  end.

Definition contextualized_query (query persona persona_id whatsapp_phone_number : pyval)
  : string :=
  let whatsapp_context :=
    if truthy whatsapp_phone_number
    then ", WhatsApp Phone=" +:+ py_str whatsapp_phone_number
    else "" in
  "User Query: " +:+ py_str query +:+ nl +:+ nl +:+
  "[Context: Persona=" +:+ py_str persona +:+
  ", ID=" +:+ py_str (py_or persona_id (PStr "Not specified")) +:+
  whatsapp_context +:+ "]" +:+ nl.

(** One orchestrator over a tool set: build the agent, then call it. *)
Definition run_orchestrator (tools : list Tool) (prompt : string) : M World AgentResult :=
  call (EvAgent tools) (agent_new env tools) ;;;
  call (EvAgentCall tools prompt) (agent_call env tools prompt).

(** [with mcp_client: body]. [__exit__] runs on every way out of the
    body and does not swallow its exception. *)
Definition with_mcp_client {A} (body : M World A) : M World A :=
  call EvMcpEnter (mcp_enter env) ;;;
  fun w => let '(r, w') := body w in (r, emit EvMcpExit w').

(** The body of the [try]: list the gateway's tools, then run the
    orchestrator over the local and the remote tools together. *)
Definition orchestrate_with_gateway (prompt : string) : M World AgentResult :=
  mcp_tools <~ call EvMcpListTools (mcp_list_tools env) ;;
  let all_tools := (base_tools ++ map McpTool mcp_tools)%list in
  run_orchestrator all_tools prompt.

Definition invalid_persona (persona : pyval) : exn :=
  ValueError ("Invalid persona '" +:+ py_str persona +:+
              "'. Must be one of: student, teacher, administrator").

Definition create_orchestrator_agent_runtime
    (query persona persona_id whatsapp_phone_number : pyval) : M World AgentResult :=
  if negb (persona_valid persona) then raise (invalid_persona persona) else
  let prompt := contextualized_query query persona persona_id whatsapp_phone_number in
  if negb (sliceable query) then raise TypeError else
  with_mcp_client
    (try_except
       (orchestrate_with_gateway prompt)
       (fun _ => run_orchestrator base_tools prompt)).

(** *** The entrypoint [invoke] *)

Definition retrieval : RetrievalConfig :=
  {| top_k := 5; relevance_score := 7 # 10 |}.

Definition make_memory_config (memory_id session_id user_id : pyval)
  : AgentCoreMemoryConfig :=
  {| memory_id := memory_id;
     session_id := session_id;
     actor_id := user_id;
     retrieval_config :=
       [ ("/octank-edu/{actorId}/preferences", retrieval);
         ("/octank-edu/{actorId}/facts", retrieval);
         ("/octank-edu/{actorId}/{sessionId}", retrieval) ] |}.

Definition invoke (payload : gmap string pyval) (context_session_id : pyval)
  : M World (gmap string pyval) :=
  let user_message := py_or (dict_get payload "inputText") (dict_get payload "prompt") in
  if negb (truthy user_message)
  then raise (PyException "Payload must include 'inputText' or 'prompt' parameter") else
  let persona := dict_get payload "persona" in
  if negb (truthy persona)
  then raise (PyException
                "Payload must include 'persona' parameter (student/teacher/administrator)") else
  let user_id := dict_get payload "user_id" in
  if negb (truthy user_id)
  then raise (PyException "Payload must include 'user_id' parameter") else
  let persona_id := dict_get payload "persona_id" in
  let whatsapp_phone_number := dict_get payload "whatsapp_phone_number" in
  let session_id := context_session_id in
  if negb (truthy session_id)
  then raise (PyException "Context must include 'session_id'") else
  region <~ call EvSession (session_region env) ;;
  memory_id <~ get_memory_id payload ;;
  client <~ get_memory_client_cache ;;
  (match client with
   | None =>
       call (EvMemoryClient region) (memory_client env region) ;;;
       set_memory_client_cache region
   | Some _ => ret tt
   end) ;;;
  let memory_config := make_memory_config memory_id session_id user_id in
  call (EvMemoryConfig memory_config) (Orchestrator.memory_config env memory_config) ;;;
  call (EvSessionManager memory_config region)
       (session_manager env memory_config region) ;;;
  result <~ create_orchestrator_agent_runtime
              user_message persona persona_id whatsapp_phone_number ;;
  let response_message :=
    match message result with
    | Some m => m
    | None => PStr (as_str result)
    end in
  ret (<["result" := response_message]>
       (<["session_id" := session_id]>
        (<["persona" := persona]> ∅))).

End WithEnv.

(** *** Vocabulary of the properties *)

(** The events logged between two worlds. *)
Definition events_since (w w' : World) : list Event :=
  drop (length (log w)) (log w').

(** The tool sets of the orchestrators built in a stretch of the log;
    each one is an attempt to answer the query. *)
Definition attempts (l : list Event) : list (list Tool) :=
  omap (fun ev => match ev with EvAgent tools => Some tools | _ => None end) l.

(** The model invocations in a stretch of the log. *)
Definition model_calls (l : list Event) : list (list Tool * string) :=
  omap (fun ev => match ev with
                  | EvAgentCall tools prompt => Some (tools, prompt)
                  | _ => None
                  end) l.

(** The call an event stands for. *)
Definition event_name (ev : Event) : string :=
  match ev with
  | EvSession => "Session"
  | EvSsmClient => "boto3.client"
  | EvSsmGetParameter _ => "ssm.get_parameter"
  | EvMemoryClient _ => "MemoryClient"
  | EvMemoryConfig _ => "AgentCoreMemoryConfig"
  | EvSessionManager _ _ => "AgentCoreMemorySessionManager"
  | EvMcpEnter => "mcp_client.__enter__"
  | EvMcpListTools => "mcp_client.list_tools_sync"
  | EvAgent _ => "Agent"
  | EvAgentCall _ _ => "orchestrator"
  | EvMcpExit => "mcp_client.__exit__"
  end.

(** A payload lacks a key: it is absent, or its value is empty
    ([None], the empty string, or another false value). *)
Definition lacks (payload : gmap string pyval) (k : string) : Prop :=
  payload !! k = None \/ exists v, payload !! k = Some v /\ truthy v = false.

(** Reading the configuration: region and parameter store. *)
Definition is_lookup (ev : Event) : bool :=
  match ev with
  | EvSession | EvSsmClient | EvSsmGetParameter _ => true
  | _ => false
  end.

(** The value the parameter store yields when asked after log [l]. *)
Definition ssm_value (env : Env) (l : list Event) : option string :=
  match ssm_client env l with
  | Return _ =>
      match ssm_get_parameter env default_memory_param (l ++ [EvSsmClient]) with
      | Return v => Some v
      | Raise _ => None
      end
  | Raise _ => None
  end.

Definition nonempty (o : option string) : option string :=
  match o with
  | Some s => if String.eqb s "" then None else Some s
  | None => None
  end.

(** The four places a memory id can come from, in the order of the
    claim: payload, process cache, parameter store, environment. *)
Definition memory_id_sources (env : Env) (payload : gmap string pyval) (w : World)
  : list (option pyval) :=
  [ payload !! "memory_id";
    PStr <$> nonempty (memory_id_cache w);
    PStr <$> ssm_value env (log w);
    PStr <$> nonempty (environ env !! "MEMORY_ID") ].

Fixpoint first_found (sources : list (option pyval)) : option pyval :=
  match sources with
  | [] => None
  | Some v :: _ => Some v
  | None :: rest => first_found rest
  end.

End Orchestrator.

(** ** SHA-256 ([hashlib.sha256]), on 32-bit words kept in [Z] *)

Module Sha256.

Definition mask32 (x : Z) : Z := Z.land x 0xFFFFFFFF.
Definition add32 (x y : Z) : Z := mask32 (x + y).
Definition rotr (n x : Z) : Z :=
  Z.lor (Z.shiftr x n) (mask32 (Z.shiftl x (32 - n))).
Definition shr (n x : Z) : Z := Z.shiftr x n.
Definition not32 (x : Z) : Z := Z.lxor x 0xFFFFFFFF.

Definition Ch (x y z : Z) : Z := Z.lxor (Z.land x y) (Z.land (not32 x) z).
Definition Maj (x y z : Z) : Z :=
  Z.lxor (Z.lxor (Z.land x y) (Z.land x z)) (Z.land y z).
Definition Sigma0 (x : Z) : Z := Z.lxor (Z.lxor (rotr 2 x) (rotr 13 x)) (rotr 22 x).
Definition Sigma1 (x : Z) : Z := Z.lxor (Z.lxor (rotr 6 x) (rotr 11 x)) (rotr 25 x).
Definition sigma0 (x : Z) : Z := Z.lxor (Z.lxor (rotr 7 x) (rotr 18 x)) (shr 3 x).
Definition sigma1 (x : Z) : Z := Z.lxor (Z.lxor (rotr 17 x) (rotr 19 x)) (shr 10 x).

(** The round constants and the initial hash value are, as the
    standard defines them, the first 32 bits of the fractional parts of
    the cube roots of the first 64 primes and of the square roots of the
    first 8. *)
Definition is_prime (n : Z) : bool :=
  forallb (fun d => negb (n mod d =? 0)) (seqZ 2 (n - 2)).

Definition primes : list Z := filter (fun n => is_prime n = true) (seqZ 2 310).

(** The integer cube root of [n], found bit by bit from [2^bits] down. *)
Fixpoint cube_root (bits : nat) (n r : Z) : Z :=
  match bits with
  | O => r
  | S bits' =>
      let r' := r + Z.shiftl 1 (Z.of_nat bits') in
      cube_root bits' n (if r' * r' * r' <=? n then r' else r)
  end.

Definition K : list Z :=
  map (fun p => mask32 (cube_root 36 (Z.shiftl p 96) 0)) primes.

Definition H0 : list Z :=
  map (fun p => mask32 (Z.sqrt (Z.shiftl p 64))) (take 8 primes).

(** Message padding: 0x80, zeros up to 56 mod 64, the bit length on 8 bytes. *)
Definition be_bytes (n : nat) (x : Z) : list Z :=
  map (fun i => Z.land (Z.shiftr x (8 * Z.of_nat i)) 0xFF) (rev (seq 0 n)).

Definition pad (msg : list Z) : list Z :=
  let len := Z.of_nat (length msg) in
  let zeros := Z.to_nat ((55 - len) mod 64) in
  msg ++ [0x80] ++ repeat 0 zeros ++ be_bytes 8 (8 * len).

Fixpoint be_word (bs : list Z) : Z :=
  match bs with
  | [] => 0
  | b :: bs' => Z.lor (Z.shiftl b (8 * Z.of_nat (length bs'))) (be_word bs')
  end.

Fixpoint words (fuel : nat) (bs : list Z) : list Z :=
  match fuel with
  | O => []
  | S fuel' =>
      match bs with
      | [] => []
      | _ => be_word (take 4 bs) :: words fuel' (drop 4 bs)
      end
  end.

Definition nthz (l : list Z) (i : nat) : Z := nth i l 0.

(** The message schedule, built backwards: the head is W[t-1]. *)
Fixpoint schedule (n : nat) (w : list Z) : list Z :=
  match n with
  | O => w
  | S n' =>
      let x := add32 (add32 (sigma1 (nthz w 1)) (nthz w 6))
                     (add32 (sigma0 (nthz w 14)) (nthz w 15)) in
      schedule n' (x :: w)
  end.

Definition round (st : list Z) (kw : Z * Z) : list Z :=
  match st with
  | [a; b; c; d; e; f; g; h] =>
      let t1 := add32 (add32 (add32 h (Sigma1 e)) (add32 (Ch e f g) (fst kw))) (snd kw) in
      let t2 := add32 (Sigma0 a) (Maj a b c) in
      [add32 t1 t2; a; b; c; add32 d t1; e; f; g]
  | _ => st
  end.

Definition compress (h : list Z) (block : list Z) : list Z :=
  let w := rev (schedule 48 (rev block)) in
  let st := fold_left round (combine K w) h in
  map (fun p => add32 (fst p) (snd p)) (combine h st).

Fixpoint blocks (fuel : nat) (ws : list Z) : list (list Z) :=
  match fuel with
  | O => []
  | S fuel' =>
      match ws with
      | [] => []
      | _ => take 16 ws :: blocks fuel' (drop 16 ws)
      end
  end.

Definition digest (msg : list Z) : list Z :=
  let bs := pad msg in
  let ws := words (length bs) bs in
  let hs := fold_left compress (blocks (length ws) ws) H0 in
  concat (map (be_bytes 4) hs).

Definition hex_digit (n : Z) : ascii :=
  ascii_of_nat (Z.to_nat (if n <? 10 then 48 + n else 87 + n)).

Fixpoint hex (bs : list Z) : string :=
  match bs with
  | [] => ""
  | b :: bs' => String (hex_digit (Z.shiftr b 4)) (String (hex_digit (Z.land b 15)) (hex bs'))
  end.

Definition encode (s : string) : list Z :=
  map (fun c => Z.of_nat (nat_of_ascii c)) (list_ascii_of_string s).

Definition hexdigest (s : string) : string := hex (digest (encode s)).

End Sha256.

(** ** UTC calendar ([datetime]) *)

Module Calendar.

Record datetime := {
  year : Z; month : Z; day : Z; hour : Z; minute : Z; second : Z
}.

(** Proleptic Gregorian date of a day count since 1970-01-01. *)
Definition civil_from_days (days : Z) : Z * Z * Z :=
  let z := days + 719468 in
  let era := z / 146097 in
  let doe := z - era * 146097 in
  let yoe := (doe - doe / 1460 + doe / 36524 - doe / 146096) / 365 in
  let doy := doe - (365 * yoe + yoe / 4 - yoe / 100) in
  let mp := (5 * doy + 2) / 153 in
  let d := doy - (153 * mp + 2) / 5 + 1 in
  let m := if mp <? 10 then mp + 3 else mp - 9 in
  let y := yoe + era * 400 in
  (if m <=? 2 then y + 1 else y, m, d).

(** [datetime.utcfromtimestamp(t)] for whole seconds [t]. *)
Definition utcfromtimestamp (t : Z) : datetime :=
  let '(y, m, d) := civil_from_days (t / 86400) in
  let s := t mod 86400 in
  {| year := y; month := m; day := d;
     hour := s / 3600; minute := (s mod 3600) / 60; second := s mod 60 |}.

Definition digit (n : Z) : ascii := ascii_of_nat (Z.to_nat (48 + n mod 10)).

(** [%02d] of a number below 100. *)
Definition pad2 (n : Z) : string :=
  String (digit (n / 10)) (String (digit n) "").

(** [%04d] of a number below 10000. *)
Definition pad4 (n : Z) : string := pad2 (n / 100) +:+ pad2 (n mod 100).

(** [dt.strftime('%Y-%m-%d-%H')] *)
Definition strftime_hour (dt : datetime) : string :=
  pad4 (year dt) +:+ "-" +:+ pad2 (month dt) +:+ "-" +:+ pad2 (day dt) +:+ "-" +:+ pad2 (hour dt).

(** [d.isoformat()] of a date. *)
Definition isoformat (ymd : Z * Z * Z) : string :=
  let '(y, m, d) := ymd in pad4 y +:+ "-" +:+ pad2 m +:+ "-" +:+ pad2 d.
End Calendar.

(** ** The inbound adapter ([src/lambda_sns_eum/lambda_sns_handler.py]) *)

Module LambdaSns.

(** The shapes botocore gives to a [list_users] page. *)
Record Attribute := {
  Name : string;
  Value : string
}.

Record User := {
  Username : option string;
  Attributes : option (list Attribute)
}.

Record Page := {
  Users : option (list User)
}.

(** The reply of [invoke_agent_runtime]: its content type, and what
    reading and decoding its body yields (lines or chunks). *)
Record RuntimeResponse := {
  contentType : option string;
  body : result (list string)
}.

Inductive Event :=
  | EvSocialClient
  | EvSendWhatsappMessage (originationPhoneNumberId metaApiVersion : string)
                          (message : gmap string pyval)
  | EvListUsers (UserPoolId : string)
  | EvUtcnow
  | EvInvokeAgentRuntime (agentRuntimeArn runtimeSessionId : string)
                         (payload : gmap string pyval).

(** The handler keeps no state of its own: the world is the call log. *)
Definition World : Type := list Event.

Record Env := {
  AGENT_RUNTIME_ARN : string;
  USER_POOL_ID : string;
  WHATSAPP_PHONE_NUMBER_ID : string;
  json_loads : string -> result pyval;
  social_client : list Event -> result unit;
  send_whatsapp_message : gmap string pyval -> list Event -> result pyval;
  (** the pages [paginate] is going to yield, each a fetch that can fail *)
  list_users : list Event -> list (result Page);
  (** [datetime.utcnow()], in whole seconds since the epoch *)
  utcnow : list Event -> Z;
  invoke_agent_runtime :
    string -> gmap string pyval -> list Event -> result RuntimeResponse
}.

Definition call {A} (ev : Event) (oracle : list Event -> result A) : M World A :=
  fun w => (oracle w, (w ++ [ev])%list).

(** What [lambda_handler] returns: status 200, or 500 with the error. *)
Inductive HandlerResponse :=
  | Success
  | Failure (e : exn).

Definition statusCode (r : HandlerResponse) : Z :=
  match r with
  | Success => 200
  | Failure _ => 500
  end.

(** The persona remapping of the handler. *)
Definition remap_persona (user_persona : string) : string :=
  if String.eqb user_persona "professor" then "teacher" else user_persona.

(** The session id built from the sender's phone and the clock. *)
Definition derive_session_id (sender_phone : string) (now : Z) : string :=
  let clean_phone := replace " " "" (replace "-" "" (replace "+" "" sender_phone)) in
  let phone_hash := Sha256.hexdigest sender_phone in
  let hour_timestamp := Calendar.strftime_hour (Calendar.utcfromtimestamp now) in
  "whatsapp-" +:+ clean_phone +:+ "-" +:+ hour_timestamp +:+ "-" +:+
  String.substring 0 8 phone_hash.

(** The loop over a user's attributes: the last value of each name wins. *)
Definition read_attributes (attrs : list Attribute) : option string * option string :=
  fold_left
    (fun (acc : option string * option string) attr =>
       if String.eqb (Name attr) "phone_number" then (Some (Value attr), snd acc)
       else if String.eqb (Name attr) "custom:persona" then (fst acc, Some (Value attr))
       else acc)
    attrs (None, None).

Definition str_truthy (o : option string) : bool :=
  match o with
  | Some s => negb (String.eqb s "")
  | None => false
  end.

Definition user_matches (phone_number : string) (user : User) : bool :=
  let phone_attr := fst (read_attributes (default [] (Attributes user))) in
  str_truthy phone_attr && bool_decide (phone_attr = Some phone_number).

Definition user_persona_or_default (user : User) : string :=
  let persona_attr := snd (read_attributes (default [] (Attributes user))) in
  if str_truthy persona_attr then default "" persona_attr else "student".

(** The inner loop: the persona of the first user with that phone. *)
Fixpoint scan_users (phone_number : string) (users : list User) : option string :=
  match users with
  | [] => None
  | user :: rest =>
      if user_matches phone_number user then Some (user_persona_or_default user)
      else scan_users phone_number rest
  end.

(** The outer loop: pages are fetched one by one until a user matches. *)
Fixpoint scan_pages (pool : string) (phone_number : string) (pages : list (result Page))
  : M World (option string) :=
  match pages with
  | [] => ret None
  | fetch :: rest =>
      page <~ call (EvListUsers pool) (fun _ => fetch) ;;
      match Users page with
      | None => raise (KeyError "Users")
      | Some users =>
          match scan_users phone_number users with
          | Some persona => ret (Some persona)
          | None => scan_pages pool phone_number rest
          end
      end
  end.

(** [phone_number] with a leading [+]. *)
Definition with_plus (phone_number : string) : string :=
  if String.prefix "+" phone_number then phone_number else "+" +:+ phone_number.

Section WithEnv.

Variable env : Env.

(** [str(v)] of floats and containers. *)
Variable py_repr : pyval -> string.

Definition py_str (v : pyval) : string :=
  match v with
  | PStr s => s
  | PNone => "None"
  | PBool true => "True"
  | PBool false => "False"
  | PInt n => NilZero.string_of_int (Z.to_int n)
  | _ => py_repr v
  end.

Definition read_receipt (msg_id : pyval) : gmap string pyval :=
  <["messaging_product" := PStr "whatsapp"]>
  (<["message_id" := msg_id]>
   (<["status" := PStr "read"]> ∅)).

Definition markAsRead (msg_id : pyval) : M World (option pyval) :=
  try_except
    (call EvSocialClient (social_client env) ;;;
     let meta_message := read_receipt msg_id in
     response <~ call (EvSendWhatsappMessage (WHATSAPP_PHONE_NUMBER_ID env) "v20.0"
                                              meta_message)
                      (send_whatsapp_message env meta_message) ;;
     ret (Some response))
    (fun _ => ret None).

Definition get_user_persona_by_phone (phone_number : pyval) : M World string :=
  try_except
    (match phone_number with
     | PStr p =>
         let phone_number := with_plus p in
         fun w =>
           (found <~ scan_pages (USER_POOL_ID env) phone_number (list_users env w) ;;
            match found with
            | Some persona => ret persona
            | None => ret "student"
            end) w
     | _ => raise AttributeError
     end)
    (fun _ => ret "student").

(** [json.loads(v)] *)
Definition loads (v : pyval) : result pyval :=
  match v with
  | PStr s => json_loads env s
  | _ => Raise TypeError
  end.

(** Decoding of one record down to [changes[0]['value']]; [None] when
    the entry has no changes. *)
Definition envelope_value (record : pyval) : M World (option pyval) :=
  sns <~ lift (getitem_key record "Sns") ;;
  msg <~ lift (getitem_key sns "Message") ;;
  sns_message <~ lift (loads msg) ;;
  whatsapp_entry_str <~ lift (get sns_message "whatsAppWebhookEntry" (PStr "{}")) ;;
  whatsapp_entry <~ lift (loads whatsapp_entry_str) ;;
  changes <~ lift (get whatsapp_entry "changes" (PList [])) ;;
  if negb (truthy changes) then ret None else
  change <~ lift (getitem0 changes) ;;
  value <~ lift (get change "value" (PDict ∅)) ;;
  ret (Some value).

Definition message_text (message_type message : pyval) : M World pyval :=
  if eq_str message_type "text" then
    text <~ lift (get message "text" (PDict ∅)) ;;
    lift (get text "body" (PStr ""))
  else if eq_str message_type "image" then ret (PStr "[Usuário enviou uma imagem]")
  else if eq_str message_type "audio" then ret (PStr "[Usuário enviou um áudio]")
  else if eq_str message_type "video" then ret (PStr "[Usuário enviou um vídeo]")
  else if eq_str message_type "document" then ret (PStr "[Usuário enviou um documento]")
  else ret (PStr ("[Usuário enviou " +:+ py_str message_type +:+ "]")).

Definition contact_name (value : pyval) : M World pyval :=
  contacts <~ lift (get value "contacts" (PList [])) ;;
  if truthy contacts then
    contact <~ lift (getitem0 contacts) ;;
    profile <~ lift (get contact "profile" (PDict ∅)) ;;
    lift (get profile "name" (PStr "Usuário"))
  else ret (PStr "Usuário").

Definition orchestration_payload (user_message : pyval) (user_persona clean_phone : string)
    (sender_phone : pyval) : gmap string pyval :=
  <["inputText" := user_message]>
  (<["persona" := PStr user_persona]>
   (<["user_id" := PStr clean_phone]>
    (<["persona_id" := PStr clean_phone]>
     (<["whatsapp_phone_number" := sender_phone]> ∅)))).

(** The text of an event stream: the lines that start with [data: ],
    without that prefix, joined by newlines. *)
Definition stream_text (lines : list string) : string :=
  String.concat (String (ascii_of_nat 10) "")
    (map (fun line => String.substring 6 (String.length line - 6) line)
         (filter (fun line => String.prefix "data: " line = true) lines)).

Definition read_agent_response (response : RuntimeResponse) : M World unit :=
  if is_infix "text/event-stream" (default "" (contentType response)) then
    lines <~ lift (body response) ;;
    let agent_response := stream_text lines in
    ret tt
  else if bool_decide (contentType response = Some "application/json") then
    content <~ lift (body response) ;;
    agent_response <~ lift (json_loads env (String.concat "" content)) ;;
    ret tt
  else ret tt.

(** Everything after the read receipt: persona, session, invocation. *)
Definition relay_message (message_type sender_phone message value : pyval)
  : M World unit :=
  user_message <~ message_text message_type message ;;
  user_name <~ contact_name value ;;
  user_persona <~ get_user_persona_by_phone sender_phone ;;
  let user_persona := remap_persona user_persona in
  match sender_phone with
  | PStr phone =>
      let clean_phone := replace " " "" (replace "-" "" (replace "+" "" phone)) in
      now <~ call EvUtcnow (fun w => Return (utcnow env w)) ;;
      let session_id := derive_session_id phone now in
      let payload := orchestration_payload user_message user_persona clean_phone
                                           sender_phone in
      response <~ call (EvInvokeAgentRuntime (AGENT_RUNTIME_ARN env) session_id payload)
                       (invoke_agent_runtime env session_id payload) ;;
      read_agent_response response
  | _ => raise AttributeError
  end.

(** The first message of a record: receipt first, then the relay. *)
Definition handle_message (value messages : pyval) : M World unit :=
  message <~ lift (getitem0 messages) ;;
  message_type <~ lift (get message "type" (PStr "text")) ;;
  sender_phone <~ lift (get message "from" (PStr "")) ;;
  message_id <~ lift (get message "id" (PStr "")) ;;
  markAsRead message_id ;;;
  relay_message message_type sender_phone message value.

(** The body of the loop over [event['Records']]; returning is
    [continue] or the end of the body. *)
Definition process_record (record : pyval) : M World unit :=
  entry <~ envelope_value record ;;
  match entry with
  | None => ret tt
  | Some value =>
      is_status <~ lift (contains "statuses" value) ;;
      if is_status then ret tt else
      messages <~ lift (get value "messages" (PList [])) ;;
      if negb (truthy messages) then ret tt else
      handle_message value messages
  end.

Fixpoint process_records (records : list pyval) : M World unit :=
  match records with
  | [] => ret tt
  | record :: rest => process_record record ;;; process_records rest
  end.

Definition lambda_handler (event : pyval) : M World HandlerResponse :=
  shown <~ lift (get event "Records" (PList [])) ;;
  lift (len shown) ;;;
  try_except
    (records <~ lift (getitem_key event "Records") ;;
     items <~ lift (iterate records) ;;
     process_records items ;;;
     ret Success)
    (fun e => ret (Failure e)).

End WithEnv.

(** *** Vocabulary of the properties *)

(** The events logged after [w]. *)
Definition events_since (w w' : World) : list Event := drop (length w) w'.

Definition page_users (page : Page) : list User := default [] (Users page).

(** No user of these pages carries the phone number. *)
Definition no_match (phone_number : string) (pages : list Page) : Prop :=
  Forall (fun page => Forall (fun user => user_matches phone_number user = false)
                             (page_users page)) pages.

(** The user has no [custom:persona] attribute. *)
Definition has_no_persona (user : User) : Prop :=
  Forall (fun attr => Name attr <> "custom:persona") (default [] (Attributes user)).

(** The three ways a lookup ends without a persona: a page fetch fails
    before any user matched; all pages are read and no user matches;
    the first user that matches has no persona attribute. *)
Inductive lookup_defaults (phone_number : string) : list (result Page) -> Prop :=
  | service_error (fetched : list Page) (e : exn) (rest : list (result Page)) :
      no_match phone_number fetched ->
      lookup_defaults phone_number (map Return fetched ++ Raise e :: rest)%list
  | matches_no_user (fetched : list Page) :
      no_match phone_number fetched ->
      lookup_defaults phone_number (map Return fetched)
  | missing_attribute (fetched : list Page) (before : list User) (user : User)
                      (after : list User) (rest : list (result Page)) :
      no_match phone_number fetched ->
      Forall (fun u => user_matches phone_number u = false) before ->
      user_matches phone_number user = true ->
      has_no_persona user ->
      lookup_defaults phone_number
        (map Return fetched ++
           Return {| Users := Some (before ++ user :: after)%list |} :: rest)%list.

(** The claim's normalized phone: the sender's number without its
    [+], [-] and space characters. *)
Fixpoint normalized_phone (raw : string) : string :=
  match raw with
  | EmptyString => EmptyString
  | String c rest =>
      if Ascii.eqb c "+" || Ascii.eqb c "-" || Ascii.eqb c " "
      then normalized_phone rest
      else String c (normalized_phone rest)
  end.

(** The claim's hour bucket: [YYYY-MM-DD-HH] of the UTC hour that
    contains the instant. *)
Definition hour_bucket (now : Z) : string :=
  let hours := now / 3600 in
  let '(y, m, d) := Calendar.civil_from_days (hours / 24) in
  Calendar.pad4 y +:+ "-" +:+ Calendar.pad2 m +:+ "-" +:+ Calendar.pad2 d +:+ "-" +:+
  Calendar.pad2 (hours mod 24).

Definition first_8_hex (hexdigest : string) : string := String.substring 0 8 hexdigest.

(** The personas the orchestrator accepts. *)
Definition persona_types : list string := ["student"; "teacher"; "administrator"].

(** The persona an invocation carries in its payload. *)
Definition forwarded_persona (ev : Event) : option pyval :=
  match ev with
  | EvInvokeAgentRuntime _ _ payload => payload !! "persona"
  | _ => None
  end.

(** An event that is not an invocation, or an invocation whose persona
    is one of the three. *)
Definition forwards_persona_type (ev : Event) : Prop :=
  match ev with
  | EvInvokeAgentRuntime _ _ payload =>
      exists persona, payload !! "persona" = Some (PStr persona) /\
                      In persona persona_types
  | _ => True
  end.

(** Every persona attribute the directory serves is one of the values
    the deployment writes or the orchestrator accepts (or is empty). *)
Definition directory_personas_known (env : Env) : Prop :=
  forall (w : list Event) (page : Page) (user : User) (attr : Attribute),
    In (Return page) (list_users env w) ->
    In user (page_users page) ->
    In attr (default [] (Attributes user)) ->
    Name attr = "custom:persona" ->
    In (Value attr) ["student"; "professor"; "teacher"; "administrator"; ""].

(** Run from [w], a computation logs only events that satisfy [P],
    and what it returns satisfies [Q]. *)
Definition sat_at {A} (P : Event -> Prop) (Q : A -> Prop) (c : M World A) (w : World)
  : Prop :=
  exists new,
    snd (c w) = w ++ new /\ Forall P new /\
    forall a, fst (c w) = Return a -> Q a.

(** The events of the read receipt and of the relay. *)
Definition is_receipt (ev : Event) : bool :=
  match ev with
  | EvSocialClient | EvSendWhatsappMessage _ _ _ => true
  | _ => false
  end.

Definition is_invocation (ev : Event) : bool :=
  match ev with
  | EvInvokeAgentRuntime _ _ _ => true
  | _ => false
  end.

End LambdaSns.

(** ** Persona guards of the domain tools
    ([virtual_secretary_agent.py], [educational_assistant_agent.py],
    [teacher_assistant_agent.py]) *)

Module Tools.

Inductive Generator :=
  | GenStudent
  | GenTeacher
  | GenAdmin.

(** What a tool does besides computing: draw mock data, build its
    agent, call the model. *)
Inductive Event :=
  | EvMockData (generator : Generator) (persona_id : option string)
  | EvAgent (tools : list string)
  | EvAgentCall (context : string).

Definition World : Type := list Event.

Record Env := {
  (** the generated record, rendered with the query into the context
      string the tool hands to its agent *)
  mock_context : Generator -> option string -> string -> string -> list Event -> string;
  agent_new : list string -> list Event -> result unit;
  (** [str(response)] of the agent's answer *)
  agent_call : string -> list Event -> result string
}.

Definition call {A} (ev : Event) (oracle : list Event -> result A) : M World A :=
  fun w => (oracle w, (w ++ [ev])%list).

Section WithEnv.

Variable env : Env.

(** The common tail of the three tools once the persona is accepted. *)
Definition answer_with_agent (generator : Generator) (persona_id : option string)
    (tools : list string) (persona query : string) : M World string :=
  context <~ call (EvMockData generator persona_id)
                  (fun w => Return (mock_context env generator persona_id persona query w)) ;;
  call (EvAgent tools) (agent_new env tools) ;;;
  call (EvAgentCall context) (agent_call env context).

Definition answer_admin_questions (query persona : string) : M World string :=
  if negb (String.eqb persona "administrator") then
    ret ("Access denied: This tool is only available for administrator personas. "
         +:+ "Current persona: " +:+ persona)
  else answer_with_agent GenAdmin None [] persona query.

Definition answer_student_questions (query : string) (student_id : option string)
    (persona : string) : M World string :=
  if negb (existsb (String.eqb persona) ["student"; "administrator"]) then
    ret ("Access denied: This tool is only available for student and administrator "
         +:+ "personas. Current persona: " +:+ persona)
  else answer_with_agent GenStudent student_id ["retrieve"] persona query.

Definition answer_teacher_questions (query : string) (teacher_id : option string)
    (persona : string) : M World string :=
  if negb (existsb (String.eqb persona) ["teacher"; "administrator"]) then
    ret ("Access denied: This tool is only available for teacher and administrator "
         +:+ "personas. Current persona: " +:+ persona)
  else answer_with_agent GenTeacher teacher_id [] persona query.

End WithEnv.

End Tools.

(** ** Mock student records ([src/agents/mock_data_generator.py]) *)

Module MockData.

Record PendingTask := {
  task_id : string;
  task_course_name : string;
  task_course_id : string;
  due_date : string
}.

Record Course := {
  course_id : string;
  course_name : string;
  teacher_name : string
}.

(** A grade is a float rounded to one decimal, the one nearest to
    [tenths / 10]; it is kept as [tenths]. Comparing two such floats, or
    one with 3.0, 5.0 or 10.0, is comparing their tenths. *)
Record Grade := {
  grade_course_id : string;
  grade_course_name : string;
  grade : Z
}.

Record StudentData := {
  student_id : string;
  student_name : string;
  enrolled_courses : list Course;
  pending_tasks : list PendingTask;
  grades : list Grade;
  focus_areas : list string
}.

Definition STUDENT_NAMES : list string :=
  [ "João Silva"; "Maria Santos"; "Pedro Oliveira"; "Ana Costa";
    "Carlos Souza"; "Juliana Lima"; "Rafael Alves"; "Beatriz Rocha" ].

Definition TEACHER_NAMES : list string :=
  [ "Prof. Silva"; "Prof. Santos"; "Prof. Oliveira"; "Prof. Costa";
    "Prof. Souza"; "Prof. Lima"; "Prof. Alves"; "Prof. Rocha" ].

Definition COURSE_NAMES : list string :=
  [ "Mathematics"; "Physics"; "Chemistry"; "Biology";
    "History"; "Geography"; "Literature"; "English";
    "Physical Education"; "Arts"; "Music"; "Computer Science" ].

(** The system's randomness and clock. Each draw is numbered; the
    [n]-th draw of a kind is a function of [n]. *)
Record Entropy := {
  randbelow : Z -> nat -> Z;
  sample : list string -> Z -> nat -> list string;
  uniform : Q -> Q -> nat -> Q;
  today : nat -> Z
}.

(** What the [secrets] and [random] modules promise. *)
Record entropy_ok (e : Entropy) : Prop := {
  randbelow_range : forall bound n, 0 < bound -> 0 <= randbelow e bound n < bound;
  uniform_range : forall a b n, (a <= b)%Q ->
                                (a <= uniform e a b n)%Q /\ (uniform e a b n <= b)%Q
}.

(** Generators thread the number of draws made so far. *)
Definition Gen (A : Type) : Type := nat -> A * nat.

Definition gret {A} (a : A) : Gen A := fun n => (a, n).

Definition gbind {A B} (c : Gen A) (k : A -> Gen B) : Gen B :=
  fun n => let '(a, n') := c n in k a n'.

Notation "x <- c ;; k" := (gbind c (fun x => k))
  (at level 100, c at next level, right associativity).

Definition decimal (n : Z) : string := NilZero.string_of_int (Z.to_int n).

(** [f"{n:03d}"] for [0 <= n]. *)
Definition zfill3 (n : Z) : string :=
  if n <? 10 then "00" +:+ decimal n
  else if n <? 100 then "0" +:+ decimal n
  else decimal n.

Definition upper_char (c : ascii) : ascii :=
  let n := nat_of_ascii c in
  if (97 <=? n)%nat && (n <=? 122)%nat then ascii_of_nat (n - 32) else c.

(** [s.upper()] on ASCII text. *)
Fixpoint upper (s : string) : string :=
  match s with
  | EmptyString => EmptyString
  | String c s' => String (upper_char c) (upper s')
  end.

(** [round(x, 1)], in tenths: nearest, ties to the even tenth. *)
Definition round1 (x : Q) : Z :=
  let n := 10 * Qnum x in
  let d := Zpos (Qden x) in
  let q := n / d in
  let r := n mod d in
  if 2 * r <? d then q
  else if d <? 2 * r then q + 1
  else if Z.even q then q else q + 1.

Section WithEntropy.

Variable e : Entropy.

Definition draw_randbelow (bound : Z) : Gen Z :=
  fun n => (randbelow e bound n, S n).

Definition draw_choice (pool : list string) : Gen string :=
  i <- draw_randbelow (Z.of_nat (length pool)) ;;
  gret (nth (Z.to_nat i) pool "").

Definition draw_sample (pool : list string) (k : Z) : Gen (list string) :=
  fun n => (sample e pool k n, S n).

Definition draw_uniform (a b : Q) : Gen Q :=
  fun n => (uniform e a b n, S n).

Definition read_today : Gen Z := fun n => (today e n, n).

(** The loop [for j in range(num_tasks)]. *)
Fixpoint generate_tasks (num_tasks : nat) (course_name course_id : string)
  : Gen (list PendingTask) :=
  match num_tasks with
  | O => gret []
  | S k =>
      now <- read_today ;;
      days <- draw_randbelow 30 ;;
      let due := Calendar.isoformat (Calendar.civil_from_days (now + (days + 1))) in
      number <- draw_randbelow 9000 ;;
      let task := {| task_id := "TASK-" +:+ decimal (number + 1000);
                     task_course_name := course_name;
                     task_course_id := course_id;
                     due_date := due |} in
      rest <- generate_tasks k course_name course_id ;;
      gret (task :: rest)
  end.

(** The loop [for i, course_name in enumerate(selected_courses)],
    appending to the four lists of the record under construction. *)
Fixpoint generate_courses (i : Z) (selected_courses : list string) (acc : StudentData)
  : Gen StudentData :=
  match selected_courses with
  | [] => gret acc
  | course_name :: rest =>
      let course_id := upper (String.substring 0 4 course_name) +:+ "-" +:+ decimal (100 + i) in
      teacher_name <- draw_choice TEACHER_NAMES ;;
      let course := {| course_id := course_id;
                       course_name := course_name;
                       teacher_name := teacher_name |} in
      x <- draw_uniform 3 10 ;;
      let grade_value := round1 x in
      let grade := {| grade_course_id := course_id;
                      grade_course_name := course_name;
                      grade := grade_value |} in
      let focus :=
        if grade_value <? 50 then (focus_areas acc ++ [course_name])%list
        else focus_areas acc in
      num_tasks <- draw_randbelow 4 ;;
      tasks <- generate_tasks (Z.to_nat num_tasks) course_name course_id ;;
      generate_courses (i + 1) rest
        {| student_id := student_id acc;
           student_name := student_name acc;
           enrolled_courses := (enrolled_courses acc ++ [course])%list;
           pending_tasks := (pending_tasks acc ++ tasks)%list;
           grades := (grades acc ++ [grade])%list;
           focus_areas := focus |}
  end.

Definition generate_student_data (student_id : option string) : Gen StudentData :=
  student_id <- match student_id with
                | None => n <- draw_randbelow 999 ;; gret ("STU-" +:+ zfill3 (n + 1))
                | Some s => gret s
                end ;;
  student_name <- draw_choice STUDENT_NAMES ;;
  n <- draw_randbelow 4 ;;
  let num_courses := n + 3 in
  selected_courses <- draw_sample COURSE_NAMES num_courses ;;
  generate_courses 0 selected_courses
    {| student_id := student_id;
       student_name := student_name;
       enrolled_courses := [];
       pending_tasks := [];
       grades := [];
       focus_areas := [] |}.

End WithEntropy.

(** The claim's reading of [focus_areas]: the names of the courses
    graded strictly below 5.0, in order. *)
Definition below_five (g : Grade) : bool := grade g <? 50.

Definition courses_needing_focus (gs : list Grade) : list string :=
  map grade_course_name (filter (fun g => below_five g = true) gs).

End MockData.

(** ** Concrete environments used to run the models *)

Module Fixtures.

(** A tool environment whose agent echoes its context. *)
Definition echo_tools : Tools.Env :=
  {| Tools.mock_context := fun _ _ persona query _ => persona +:+ ": " +:+ query;
     Tools.agent_new := fun _ _ => Return tt;
     Tools.agent_call := fun context _ => Return context |}.

(** Randomness that always draws the least value. *)
Definition least_entropy : MockData.Entropy :=
  {| MockData.randbelow := fun _ _ => 0;
     MockData.sample := fun pool k _ => take (Z.to_nat k) pool;
     MockData.uniform := fun a _ _ => a;
     MockData.today := fun _ => 20395 |}.

(** Randomness that grades every second course 4.25 and the others 7.75. *)
Definition mixed_entropy : MockData.Entropy :=
  {| MockData.randbelow := fun bound n => Z.of_nat n mod bound;
     MockData.sample := fun pool k _ => take (Z.to_nat k) (rev pool);
     MockData.uniform := fun _ _ n => if Nat.even n then 17 # 4 else 31 # 4;
     MockData.today := fun _ => 20395 |}.

(** A deployment whose gateway cannot list its tools, whose parameter
    store holds the memory id, and whose model answers. *)
Definition gateway_down : Orchestrator.Env :=
  {| Orchestrator.environ := ∅;
     Orchestrator.session_region := fun _ => Return (PStr "us-east-1");
     Orchestrator.ssm_client := fun _ => Return tt;
     Orchestrator.ssm_get_parameter := fun _ _ => Return "OctankEduMultiAgentMemory-ABC123";
     Orchestrator.memory_client := fun _ _ => Return tt;
     Orchestrator.memory_config := fun _ _ => Return tt;
     Orchestrator.session_manager := fun _ _ _ => Return tt;
     Orchestrator.mcp_enter := fun _ => Return tt;
     Orchestrator.mcp_list_tools := fun _ => Raise (ServiceError "gateway unreachable");
     Orchestrator.agent_new := fun _ _ => Return tt;
     Orchestrator.agent_call := fun _ prompt _ =>
       Return {| Orchestrator.message := Some (PStr "Suas tarefas pendentes")
               ; Orchestrator.as_str := prompt |} |}.

(** A deployment with no memory id anywhere: the parameter is missing
    from the store and [MEMORY_ID] is not set. *)
Definition no_memory_id : Orchestrator.Env :=
  {| Orchestrator.environ := ∅;
     Orchestrator.session_region := fun _ => Return (PStr "us-east-1");
     Orchestrator.ssm_client := fun _ => Return tt;
     Orchestrator.ssm_get_parameter := fun _ _ => Raise (ClientError "ParameterNotFound");
     Orchestrator.memory_client := fun _ _ => Return tt;
     Orchestrator.memory_config := fun _ _ => Return tt;
     Orchestrator.session_manager := fun _ _ _ => Return tt;
     Orchestrator.mcp_enter := fun _ => Return tt;
     Orchestrator.mcp_list_tools := fun _ => Return ["send_whatsapp_message"];
     Orchestrator.agent_new := fun _ _ => Return tt;
     Orchestrator.agent_call := fun _ prompt _ =>
       Return {| Orchestrator.message := None; Orchestrator.as_str := prompt |} |}.


Definition fresh_process : Orchestrator.World :=
  {| Orchestrator.log := [];
     Orchestrator.memory_id_cache := None;
     Orchestrator.memory_client_cache := None |}.

(** The request of the entrypoint's docstring, without a memory id. *)
Definition tasks_request : gmap string pyval :=
  <["inputText" := PStr "What are my pending tasks?"]>
  (<["persona" := PStr "student"]>
   (<["user_id" := PStr "user123"]>
    (<["persona_id" := PStr "STU-001"]> ∅))).

(** JSON documents of the inbound adapter, written out with their
    quotes; [q] quotes a string, plainly or escaped for nesting. *)
Definition dq : string := String (ascii_of_nat 34) "".
Definition quoted (s : string) : string := dq +:+ s +:+ dq.
Definition backslash : string := String (ascii_of_nat 92) "".
Definition escaped (s : string) : string := backslash +:+ dq +:+ s +:+ backslash +:+ dq.

Definition sender : string := "+5511999990001".

(** A webhook entry with one text message. *)
Definition text_entry (q : string -> string) : string :=
  "{" +:+ q "changes" +:+ ": [{" +:+ q "value" +:+ ": {" +:+ q "messages" +:+ ": [{"
  +:+ q "type" +:+ ": " +:+ q "text" +:+ ", "
  +:+ q "from" +:+ ": " +:+ q sender +:+ ", "
  +:+ q "id" +:+ ": " +:+ q "wamid.1" +:+ ", "
  +:+ q "text" +:+ ": {" +:+ q "body" +:+ ": " +:+ q "Quais são minhas tarefas?"
  +:+ "}}]}}]}".

(** A webhook entry that only reports a delivery status. *)
Definition status_entry (q : string -> string) : string :=
  "{" +:+ q "changes" +:+ ": [{" +:+ q "value" +:+ ": {" +:+ q "statuses" +:+ ": [{"
  +:+ q "status" +:+ ": " +:+ q "delivered" +:+ "}]}}]}".

Definition sns_message (entry : (string -> string) -> string) : string :=
  "{" +:+ quoted "whatsAppWebhookEntry" +:+ ": " +:+ dq +:+ entry escaped +:+ dq +:+ "}".

Definition text_fields : gmap string pyval :=
  <["type" := PStr "text"]>
  (<["from" := PStr sender]>
   (<["id" := PStr "wamid.1"]>
    (<["text" := PDict (<["body" := PStr "Quais são minhas tarefas?"]> ∅)]> ∅))).

Definition text_message : pyval := PDict text_fields.

Definition text_value : gmap string pyval :=
  <["messages" := PList [text_message]]> ∅.

Definition status_value : gmap string pyval :=
  <["statuses" := PList [PDict (<["status" := PStr "delivered"]> ∅)]]> ∅.

Definition entry_of (value : gmap string pyval) : pyval :=
  PDict (<["changes" := PList [PDict (<["value" := PDict value]> ∅)]]> ∅).

(** [json.loads] on the documents above (and on an empty object). *)
Definition loads_fixture (s : string) : result pyval :=
  if String.eqb s (sns_message text_entry)
  then Return (PDict (<["whatsAppWebhookEntry" := PStr (text_entry quoted)]> ∅))
  else if String.eqb s (sns_message status_entry)
  then Return (PDict (<["whatsAppWebhookEntry" := PStr (status_entry quoted)]> ∅))
  else if String.eqb s (text_entry quoted) then Return (entry_of text_value)
  else if String.eqb s (status_entry quoted) then Return (entry_of status_value)
  else if String.eqb s "{}" then Return (PDict ∅)
  else Raise JSONDecodeError.

Definition sns_record (entry : (string -> string) -> string) : pyval :=
  PDict (<["Sns" := PDict (<["Message" := PStr (sns_message entry)]> ∅)]> ∅).

Definition sns_event (records : list pyval) : pyval :=
  PDict (<["Records" := PList records]> ∅).

(** A user pool with one user, the sender, under the given persona. *)
Definition directory (persona : string) : list (result LambdaSns.Page) :=
  [ Return {| LambdaSns.Users := Some
      [ {| LambdaSns.Username := Some "demo";
           LambdaSns.Attributes := Some
             [ {| LambdaSns.Name := "phone_number"; LambdaSns.Value := sender |};
               {| LambdaSns.Name := "custom:persona"; LambdaSns.Value := persona |} ] |} ] |} ].

(** A deployment where the read receipt cannot be sent and everything
    else works; the clock shows 2026-11-04 00:00:00 UTC. *)
Definition whatsapp (pages : list (result LambdaSns.Page)) : LambdaSns.Env :=
  {| LambdaSns.AGENT_RUNTIME_ARN := "arn:aws:bedrock-agentcore:us-east-1:000000000000:runtime/octank";
     LambdaSns.USER_POOL_ID := "us-east-1_octank";
     LambdaSns.WHATSAPP_PHONE_NUMBER_ID := "phone-number-id-0001";
     LambdaSns.json_loads := loads_fixture;
     LambdaSns.social_client := fun _ => Return tt;
     LambdaSns.send_whatsapp_message := fun _ _ => Raise (ClientError "ThrottlingException");
     LambdaSns.list_users := fun _ => pages;
     LambdaSns.utcnow := fun _ => 1793750400;
     LambdaSns.invoke_agent_runtime := fun _ _ _ =>
       Return {| LambdaSns.contentType := Some "application/json";
                 LambdaSns.body := Return ["{}"] |} |}.

(** [repr] is not needed on the fixtures' values. *)
Definition no_repr (v : pyval) : string := "".

End Fixtures.

(** ** Further vocabulary for the orchestration entrypoint *)

Module OrchestratorMore.
Import Orchestrator.

(** Entering and leaving the gateway session. *)
Definition is_bracket (ev : Event) : bool :=
  match ev with
  | EvMcpEnter | EvMcpExit => true
  | _ => false
  end.

(** Events of the gateway, the orchestrator and its model. *)
Definition is_orchestration (ev : Event) : bool :=
  match ev with
  | EvMcpEnter | EvMcpListTools | EvAgent _ | EvAgentCall _ _ | EvMcpExit => true
  | _ => false
  end.

Definition is_memory_client (ev : Event) : bool :=
  match ev with
  | EvMemoryClient _ => true
  | _ => false
  end.

(** A tool set that holds the six local tools, before any remote one. *)
Definition extends_base_tools (tools : list Tool) : Prop :=
  exists mcp_tools, tools = base_tools ++ map McpTool mcp_tools.

(** The events of the orchestrators: their construction and their
    calls, in order. *)
Definition agent_events (l : list Event) : list Event :=
  omap (fun ev => match ev with
                  | EvAgent _ | EvAgentCall _ _ => Some ev
                  | _ => None
                  end) l.

(** Every call is made on the orchestrator built just before it, and
    no orchestrator is called twice. *)
Fixpoint called_at_most_once (l : list Event) : Prop :=
  match l with
  | [] => True
  | EvAgent tools :: rest =>
      match rest with
      | EvAgentCall tools' _ :: rest' => tools' = tools /\ called_at_most_once rest'
      | _ => called_at_most_once rest
      end
  | _ => False
  end.

(** Run from [w], a computation only appends to the log events that
    satisfy [P], and its outcome and the world it leaves satisfy [Q]. *)
Definition logs_only {A} (P : Event -> Prop) (Q : result A -> World -> Prop)
    (c : M World A) (w : World) : Prop :=
  exists new,
    log (snd (c w)) = log w ++ new /\ Forall P new /\
    Q (fst (c w)) (snd (c w)).

End OrchestratorMore.

(** ** Further vocabulary for the inbound adapter *)

Module LambdaMore.
Import LambdaSns.

(** [c in s] for a character. *)
Fixpoint has_char (c : ascii) (s : string) : bool :=
  match s with
  | EmptyString => false
  | String c' rest => Ascii.eqb c' c || has_char c rest
  end.

(** The user carries a [custom:persona] attribute with this value, and
    none after it. *)
Definition has_persona (user : User) (persona : string) : Prop :=
  exists attrs later,
    Attributes user =
      Some (attrs ++ {| Name := "custom:persona"; Value := persona |} :: later) /\
    Forall (fun attr => Name attr <> "custom:persona") later.

(** Every page has its [Users] list. *)
Definition well_formed (pages : list Page) : Prop :=
  Forall (fun page => is_Some (Users page)) pages.

Definition is_dict (v : pyval) : bool :=
  match v with
  | PDict _ => true
  | _ => false
  end.

(** The phone number holds no [+], [-] or space. *)
Definition plain (phone : string) : Prop :=
  has_char "+" phone = false /\ has_char "-" phone = false /\
  has_char " " phone = false.

(** The keys of the payload the handler sends. *)
Definition payload_keys : gset string :=
  {["inputText"; "persona"; "user_id"; "persona_id"; "whatsapp_phone_number"]}.

(** An event that is not an invocation, or an invocation of the
    configured runtime whose payload names the sender: the number as
    received for the reply, and the plain number as user and persona
    id. *)
Definition addressed_to_sender (env : Env) (ev : Event) : Prop :=
  match ev with
  | EvInvokeAgentRuntime arn _ payload =>
      arn = AGENT_RUNTIME_ARN env /\
      dom payload = payload_keys /\
      exists phone clean,
        clean = normalized_phone phone /\ plain clean /\
        payload !! "whatsapp_phone_number" = Some (PStr phone) /\
        payload !! "user_id" = Some (PStr clean) /\
        payload !! "persona_id" = Some (PStr clean)
  | _ => True
  end.

End LambdaMore.

(** ** The WhatsApp send tool ([lambda_function.py])

    The function behind the gateway's [send_whatsapp_message] tool. Its
    response body is kept as the dict that [json.dumps] is given, and
    the message handed to the messaging client likewise. *)

Module SendTool.

Inductive Event :=
  | EvSocialClient (region_name : string)
  | EvSendWhatsappMessage (originationPhoneNumberId : option string)
                          (message : gmap string pyval) (metaApiVersion : string).

Definition World : Type := list Event.

Record Env := {
  (** [os.environ.get('WHATSAPP_PHONE_NUMBER_ID')] *)
  WHATSAPP_PHONE_NUMBER_ID : option string;
  json_loads : string -> result pyval;
  social_client : list Event -> result unit;
  send_whatsapp_message : gmap string pyval -> list Event -> result pyval
}.

Definition call {A} (ev : Event) (oracle : list Event -> result A) : M World A :=
  fun w => (oracle w, (w ++ [ev])%list).

Record Response := {
  statusCode : Z;
  body : gmap string pyval
}.

Definition rejected : Response :=
  {| statusCode := 400;
     body := <["success" := PBool false]>
             (<["error" := PStr "phone_number e message são obrigatórios"]> ∅) |}.

Definition failed (error : string) : Response :=
  {| statusCode := 500;
     body := <["success" := PBool false]> (<["error" := PStr error]> ∅) |}.

Definition sent (whatsapp_msg_id : pyval) (clean_phone : string) (message : pyval)
  : Response :=
  {| statusCode := 200;
     body := <["success" := PBool true]>
             (<["message_id" := whatsapp_msg_id]>
              (<["recipient" := PStr ("+" +:+ clean_phone)]>
               (<["message_sent" := message]> ∅))) |}.

Definition meta_message (clean_phone : string) (message : pyval) : gmap string pyval :=
  <["messaging_product" := PStr "whatsapp"]>
  (<["to" := PStr ("+" +:+ clean_phone)]>
   (<["type" := PStr "text"]>
    (<["text" := PDict (<["preview_url" := PBool false]>
                        (<["body" := message]> ∅))]> ∅))).

Section WithEnv.

Variable env : Env.

(** What the handler reports for an exception: [code: message] of the
    response of a [ClientError], [str(e)] of any other. *)
Variable error_text : exn -> string.

(** The lines before the [try]: with a client context, the tool name
    and the session id are read from its [custom] for the log. *)
Definition read_client_context (client_context : option pyval) : M World unit :=
  match client_context with
  | Some custom =>
      tool_name <~ lift (get custom "bedrockagentcoreToolName" (PStr "unknown")) ;;
      session_id <~ lift (get custom "bedrockagentcoreSessionId" (PStr "unknown")) ;;
      ret tt
  | None => ret tt
  end.

(** [if isinstance(event, str): event = json.loads(event)] *)
Definition parse (event : pyval) : result pyval :=
  match event with
  | PStr s => json_loads env s
  | _ => Return event
  end.

(** [phone_number.replace('+', '').replace('-', '').replace(' ', '')] *)
Definition clean (phone_number : pyval) : result string :=
  match phone_number with
  | PStr p => Return (replace " " "" (replace "-" "" (replace "+" "" p)))
  | _ => Raise AttributeError
  end.

(** The body of the [try]. *)
Definition deliver (event : pyval) : M World Response :=
  event <~ lift (parse event) ;;
  phone_number <~ lift (get event "phone_number" PNone) ;;
  message <~ lift (get event "message" PNone) ;;
  if negb (truthy phone_number) || negb (truthy message) then ret rejected else
  clean_phone <~ lift (clean phone_number) ;;
  call (EvSocialClient "us-east-1") (social_client env) ;;;
  let meta_message := meta_message clean_phone message in
  response <~ call (EvSendWhatsappMessage (WHATSAPP_PHONE_NUMBER_ID env) meta_message
                                           "v20.0")
                   (send_whatsapp_message env meta_message) ;;
  whatsapp_msg_id <~ lift (get response "messageId" (PStr "")) ;;
  ret (sent whatsapp_msg_id clean_phone message).

(** [client_context] is [context.client_context] when it is truthy,
    given by its [custom]. *)
Definition lambda_handler (event : pyval) (client_context : option pyval)
  : M World Response :=
  read_client_context client_context ;;;
  try_except (deliver event) (fun e => ret (failed (error_text e))).

End WithEnv.

(** *** Vocabulary of the properties *)

(** No client context, or one whose [custom] is a dict. *)
Definition readable (client_context : option pyval) : bool :=
  match client_context with
  | None | Some (PDict _) => true
  | _ => false
  end.

Definition is_send (ev : Event) : bool :=
  match ev with
  | EvSendWhatsappMessage _ _ _ => true
  | _ => false
  end.

(** The one message the tool sends: after building its client in
    us-east-1, a text without link preview to the plain number, from
    the configured number. *)
Definition delivery (env : Env) (phone : string) (message : pyval) : list Event :=
  [ EvSocialClient "us-east-1";
    EvSendWhatsappMessage (WHATSAPP_PHONE_NUMBER_ID env)
      (meta_message (LambdaSns.normalized_phone phone) message) "v20.0" ].

End SendTool.

(** A deployment of the send tool where every message is accepted. *)
Module SendFixtures.

Definition messaging : SendTool.Env :=
  {| SendTool.WHATSAPP_PHONE_NUMBER_ID := Some "phone-number-id-0001";
     SendTool.json_loads := fun _ => Raise JSONDecodeError;
     SendTool.social_client := fun _ => Return tt;
     SendTool.send_whatsapp_message := fun _ _ =>
       Return (PDict (<["messageId" := PStr "wamid.2"]> ∅)) |}.

Definition reply : gmap string pyval :=
  <["phone_number" := PStr "+55 11 99999-0001"]>
  (<["message" := PStr "Suas tarefas pendentes"]> ∅).

(** Only the text of a client error is needed on the fixtures. *)
Definition text_of (e : exn) : string :=
  match e with
  | ClientError msg => msg
  | _ => ""
  end.

End SendFixtures.

(** ** The other generators of [mock_data_generator.py]

    [generate_teacher_data], [generate_payment_data] and
    [generate_admin_data]. Grades and percentages are floats rounded to
    one decimal, kept in tenths as in [MockData]; an amount due is a
    float with an integral value, kept as that integer. *)

Module MockDataMore.
Import MockData.

Record TeacherCourseMetrics := {
  tc_course_id : string;
  tc_course_name : string;
  student_count : Z;
  overdue_tasks : Z
}.

Record LowPerformingStudent := {
  lp_student_id : string;
  lp_student_name : string;
  lp_course_name : string;
  lp_course_id : string;
  lp_grade : Z
}.

Record TeacherData := {
  teacher_id : string;
  td_teacher_name : string;
  courses : list TeacherCourseMetrics;
  td_pending_tasks : list PendingTask;
  low_performers : list LowPerformingStudent
}.

Record PaymentInfo := {
  pay_student_id : string;
  pay_student_name : string;
  unpaid_months : list string;
  amount_due : Z;
  payment_month : string;
  status : string;
  receipt_id : option string
}.

Record TeacherMetrics := {
  tm_teacher_id : string;
  tm_teacher_name : string;
  classes_taught_last_week : Z;
  grades_published_last_week : Z;
  below_average_percentage : Z;
  insights : list string
}.

Record AdministratorData := {
  delinquent_students : list PaymentInfo;
  low_performing_students : list LowPerformingStudent;
  teacher_performance : list TeacherMetrics
}.

(** The float written [4.9]: the binary64 number nearest to 49/10. *)
Definition float_4_9 : Q := (2758454771764429 # 562949953421312)%Q.

Definition MONTH_NAMES : list string :=
  [ "January"; "February"; "March"; "April"; "May"; "June"; "July";
    "August"; "September"; "October"; "November"; "December" ].

(** [d.strftime("%B %Y")] of the day [days] after 1970-01-01, for
    the years 1000 to 9999. *)
Definition strftime_month (days : Z) : string :=
  let '(y, m, d) := Calendar.civil_from_days days in
  nth (Z.to_nat (m - 1)) MONTH_NAMES "" +:+ " " +:+ Calendar.pad4 y.

(** [low_performers.sort(key=lambda x: x.grade)]: ascending, and
    stable. *)
Fixpoint insert_by_grade (x : LowPerformingStudent) (l : list LowPerformingStudent)
  : list LowPerformingStudent :=
  match l with
  | [] => [x]
  | y :: l' =>
      if lp_grade x <=? lp_grade y then x :: y :: l'
      else y :: insert_by_grade x l'
  end.

Definition sort_by_grade (l : list LowPerformingStudent) : list LowPerformingStudent :=
  fold_right insert_by_grade [] l.

(** The insights of a teacher's week. *)
Definition teacher_insights (below_average_pct grades_published classes_taught : Z)
  : list string :=
  let insights :=
    if below_average_pct <? 100 then ["Excellent student performance"]
    else if 200 <? below_average_pct
         then ["High percentage of struggling students - may need support"]
         else [] in
  let insights :=
    if 15 <? grades_published then (insights ++ ["Very active in grading"])%list
    else insights in
  let insights :=
    if 6 <? classes_taught then (insights ++ ["High teaching load"])%list
    else insights in
  match insights with
  | [] => ["Normal performance metrics"]
  | _ => insights
  end.

(** The patch [generate_admin_data] applies to a payment record
    without unpaid months. *)
Definition ensure_unpaid (payment_info : PaymentInfo) : PaymentInfo :=
  match unpaid_months payment_info with
  | [] =>
      {| pay_student_id := pay_student_id payment_info;
         pay_student_name := pay_student_name payment_info;
         unpaid_months := ["November 2025"];
         amount_due := 600;
         payment_month := payment_month payment_info;
         status := "overdue";
         receipt_id := receipt_id payment_info |}
  | _ => payment_info
  end.

Section WithEntropy.

Variable e : Entropy.

(** [date.today()]. Each reading of the clock is a draw of its own:
    two readings need not agree. *)
Definition draw_today : Gen Z := fun n => (today e n, S n).

(** [f"STU-{secrets.randbelow(999) + 1:03d}"] *)
Definition draw_student_id : Gen string :=
  n <- draw_randbelow e 999 ;;
  gret ("STU-" +:+ zfill3 (n + 1)).

(** [f"TEACH-{secrets.randbelow(99) + 1:03d}"] *)
Definition draw_teacher_id : Gen string :=
  n <- draw_randbelow e 99 ;;
  gret ("TEACH-" +:+ zfill3 (n + 1)).

(** The loop [for j in range(num_pending)] of a teacher's course. *)
Fixpoint teacher_tasks (num_pending : nat) (course_name course_id : string)
  : Gen (list PendingTask) :=
  match num_pending with
  | O => gret []
  | S k =>
      student_name <- draw_choice e STUDENT_NAMES ;;
      student_id <- draw_student_id ;;
      now <- draw_today ;;
      days <- draw_randbelow e 21 ;;
      let due := Calendar.isoformat (Calendar.civil_from_days (now + (days - 5))) in
      number <- draw_randbelow e 9000 ;;
      let task := {| task_id := "TASK-" +:+ decimal (number + 1000);
                     task_course_name := course_name;
                     task_course_id := course_id;
                     due_date := due |} in
      rest <- teacher_tasks k course_name course_id ;;
      gret (task :: rest)
  end.

(** The loop [for j in range(num_low_performers)] of a teacher's
    course. *)
Fixpoint course_low_performers (num_low_performers : nat) (course_name course_id : string)
  : Gen (list LowPerformingStudent) :=
  match num_low_performers with
  | O => gret []
  | S k =>
      student_name <- draw_choice e STUDENT_NAMES ;;
      student_id <- draw_student_id ;;
      x <- draw_uniform e 2 float_4_9 ;;
      let low_performer := {| lp_student_id := student_id;
                              lp_student_name := student_name;
                              lp_course_name := course_name;
                              lp_course_id := course_id;
                              lp_grade := round1 x |} in
      rest <- course_low_performers k course_name course_id ;;
      gret (low_performer :: rest)
  end.

(** The loop [for i, course_name in enumerate(selected_courses)] of
    [generate_teacher_data]. *)
Fixpoint teacher_courses (i : Z) (selected_courses : list string) (acc : TeacherData)
  : Gen TeacherData :=
  match selected_courses with
  | [] => gret acc
  | course_name :: rest =>
      let course_id := upper (String.substring 0 4 course_name) +:+ "-" +:+ decimal (100 + i) in
      n <- draw_randbelow e 21 ;;
      let student_count := n + 15 in
      overdue_tasks <- draw_randbelow e 6 ;;
      let course_metrics := {| tc_course_id := course_id;
                               tc_course_name := course_name;
                               student_count := student_count;
                               overdue_tasks := overdue_tasks |} in
      num_pending <- draw_randbelow e 4 ;;
      tasks <- teacher_tasks (Z.to_nat num_pending) course_name course_id ;;
      num_low_performers <- draw_randbelow e 4 ;;
      low <- course_low_performers (Z.to_nat num_low_performers) course_name course_id ;;
      teacher_courses (i + 1) rest
        {| teacher_id := teacher_id acc;
           td_teacher_name := td_teacher_name acc;
           courses := (courses acc ++ [course_metrics])%list;
           td_pending_tasks := (td_pending_tasks acc ++ tasks)%list;
           low_performers := (low_performers acc ++ low)%list |}
  end.

Definition generate_teacher_data (teacher_id : option string) : Gen TeacherData :=
  teacher_id <- match teacher_id with
                | None => draw_teacher_id
                | Some s => gret s
                end ;;
  teacher_name <- draw_choice e TEACHER_NAMES ;;
  n <- draw_randbelow e 3 ;;
  let num_courses := n + 2 in
  selected_courses <- draw_sample e COURSE_NAMES num_courses ;;
  data <- teacher_courses 0 selected_courses
            {| teacher_id := teacher_id;
               td_teacher_name := teacher_name;
               courses := [];
               td_pending_tasks := [];
               low_performers := [] |} ;;
  gret {| teacher_id := MockDataMore.teacher_id data;
          td_teacher_name := td_teacher_name data;
          courses := courses data;
          td_pending_tasks := td_pending_tasks data;
          low_performers := sort_by_grade (low_performers data) |}.

(** The loop [for i in range(num_unpaid)], from [i]. *)
Fixpoint months_back (current_date : Z) (i : Z) (num_unpaid : nat) : list string :=
  match num_unpaid with
  | O => []
  | S k =>
      strftime_month (current_date - 30 * (i + 1)) :: months_back current_date (i + 1) k
  end.

Definition generate_payment_data (student_id : option string) : Gen PaymentInfo :=
  student_id <- match student_id with
                | None => draw_student_id
                | Some s => gret s
                end ;;
  student_name <- draw_choice e STUDENT_NAMES ;;
  num_unpaid <- draw_randbelow e 4 ;;
  billing <- (if 0 <? num_unpaid
              then current_date <- draw_today ;;
                   gret (months_back current_date 0 (Z.to_nat num_unpaid),
                         "overdue", num_unpaid * 600)
              else gret ([], "paid", 0)) ;;
  let '(unpaid_months, status, amount_due) := billing in
  receipt_id <- (if String.eqb status "paid"
                 then n <- draw_randbelow e 90000 ;;
                      gret (Some ("REC-" +:+ decimal (n + 10000)))
                 else gret None) ;;
  this_month <- draw_today ;;
  gret {| pay_student_id := student_id;
          pay_student_name := student_name;
          unpaid_months := unpaid_months;
          amount_due := amount_due;
          payment_month := strftime_month this_month;
          status := status;
          receipt_id := receipt_id |}.

(** The three loops of [generate_admin_data]. *)
Fixpoint delinquents (num_delinquent : nat) : Gen (list PaymentInfo) :=
  match num_delinquent with
  | O => gret []
  | S k =>
      payment_info <- generate_payment_data None ;;
      rest <- delinquents k ;;
      gret (ensure_unpaid payment_info :: rest)
  end.

Fixpoint admin_low_performers (num_low_performers : nat)
  : Gen (list LowPerformingStudent) :=
  match num_low_performers with
  | O => gret []
  | S k =>
      student_name <- draw_choice e STUDENT_NAMES ;;
      student_id <- draw_student_id ;;
      course_name <- draw_choice e COURSE_NAMES ;;
      n <- draw_randbelow e 100 ;;
      let course_id := upper (String.substring 0 4 course_name) +:+ "-" +:+ decimal (n + 100) in
      x <- draw_uniform e 2 float_4_9 ;;
      let low_performer := {| lp_student_id := student_id;
                              lp_student_name := student_name;
                              lp_course_name := course_name;
                              lp_course_id := course_id;
                              lp_grade := round1 x |} in
      rest <- admin_low_performers k ;;
      gret (low_performer :: rest)
  end.

Fixpoint teachers_metrics (num_teachers : nat) : Gen (list TeacherMetrics) :=
  match num_teachers with
  | O => gret []
  | S k =>
      teacher_name <- draw_choice e TEACHER_NAMES ;;
      teacher_id <- draw_teacher_id ;;
      n <- draw_randbelow e 6 ;;
      let classes_taught := n + 3 in
      n <- draw_randbelow e 16 ;;
      let grades_published := n + 5 in
      x <- draw_uniform e 5 25 ;;
      let below_average_pct := round1 x in
      let metrics := {| tm_teacher_id := teacher_id;
                        tm_teacher_name := teacher_name;
                        classes_taught_last_week := classes_taught;
                        grades_published_last_week := grades_published;
                        below_average_percentage := below_average_pct;
                        insights := teacher_insights below_average_pct grades_published
                                                     classes_taught |} in
      rest <- teachers_metrics k ;;
      gret (metrics :: rest)
  end.

Definition generate_admin_data : Gen AdministratorData :=
  n <- draw_randbelow e 6 ;;
  delinquent_students <- delinquents (Z.to_nat (n + 3)) ;;
  n <- draw_randbelow e 8 ;;
  low_performing_students <- admin_low_performers (Z.to_nat (n + 5)) ;;
  n <- draw_randbelow e 5 ;;
  teacher_performance <- teachers_metrics (Z.to_nat (n + 4)) ;;
  gret {| delinquent_students := delinquent_students;
          low_performing_students := low_performing_students;
          teacher_performance := teacher_performance |}.

End WithEntropy.

(** *** Vocabulary of the properties *)

(** A grade below 5.0, of a draw between 2.0 and 4.9. *)
Definition failing (lp : LowPerformingStudent) : Prop := 20 <= lp_grade lp <= 49.

(** No entry has a grade above that of a later one. *)
Fixpoint ascending (l : list LowPerformingStudent) : Prop :=
  match l with
  | [] => True
  | x :: l' => Forall (fun y => lp_grade x <= lp_grade y) l' /\ ascending l'
  end.

(** The entry belongs to one of the courses: it has the id and the
    name of one. *)
Definition of_course (courses : list TeacherCourseMetrics) (course_id course_name : string)
  : Prop :=
  exists c, In c courses /\ tc_course_id c = course_id /\ tc_course_name c = course_name.

(** The record is billed for its unpaid months, 600 a month. *)
Definition billed (p : PaymentInfo) : Prop :=
  amount_due p = 600 * Z.of_nat (length (unpaid_months p)).

(** What holds of a teacher's record, under construction and built. *)
Definition teacher_ok (data : TeacherData) : Prop :=
  Forall failing (low_performers data) /\
  Forall (fun lp => of_course (courses data) (lp_course_id lp) (lp_course_name lp))
         (low_performers data) /\
  Forall (fun t => of_course (courses data) (task_course_id t) (task_course_name t))
         (td_pending_tasks data) /\
  Forall (fun c => 15 <= student_count c <= 35 /\ 0 <= overdue_tasks c <= 5)
         (courses data) /\
  (length (low_performers data) <= 3 * length (courses data))%nat /\
  (length (td_pending_tasks data) <= 3 * length (courses data))%nat.

(** A delinquent student of the administrator's record: overdue, with
    unpaid months that are billed; with a receipt it is a paid record
    that was patched, without one it has at most three unpaid months. *)
Definition delinquent (p : PaymentInfo) : Prop :=
  status p = "overdue" /\
  unpaid_months p <> [] /\
  billed p /\
  600 <= amount_due p /\
  (is_Some (receipt_id p) -> unpaid_months p = ["November 2025"] /\ amount_due p = 600) /\
  (receipt_id p = None -> amount_due p <= 1800).

(** A teacher's week within the ranges of the draws, with the
    insights of its numbers. *)
Definition measured (t : TeacherMetrics) : Prop :=
  3 <= classes_taught_last_week t <= 8 /\
  5 <= grades_published_last_week t <= 20 /\
  50 <= below_average_percentage t <= 250 /\
  insights t = teacher_insights (below_average_percentage t)
                                (grades_published_last_week t)
                                (classes_taught_last_week t).

End MockDataMore.

(** Randomness that always draws the greatest value. *)
Module MockFixtures.

Definition greatest_entropy : MockData.Entropy :=
  {| MockData.randbelow := fun bound _ => bound - 1;
     MockData.sample := fun pool k _ => take (Z.to_nat k) pool;
     MockData.uniform := fun _ b _ => b;
     MockData.today := fun _ => 20395 |}.

End MockFixtures.

(** ** Further vocabulary for the domain tools *)

Module ToolsMore.
Import Tools.

(** A run that serves a request: mock data is drawn once, for that
    generator and id, one agent is built over the tools, and when that
    succeeded the model is called once, with the context of the mock
    data; the answer of the model, or the exception of the agent or of
    the model, is the outcome. *)
Definition served (env : Env) (generator : Generator) (id : option string)
    (tools : list string) (persona query : string) (w : World)
    (run : result string * World) : Prop :=
  let context := mock_context env generator id persona query w in
  let w1 := w ++ [EvMockData generator id] in
  let w2 := w1 ++ [EvAgent tools] in
  run = match agent_new env tools w1 with
        | Return _ => (agent_call env context w2, w2 ++ [EvAgentCall context])
        | Raise e => (Raise e, w2)
        end.

End ToolsMore.

(** * Properties *)

(** ** Library functions, on known values *)

Module LibrarySpec.

Example sha256_abc :
  Sha256.hexdigest "abc" = "ba7816bf8f01cfea414140de5dae2223b00361a396177a9cb410ff61f20015ad".
Proof. vm_compute. reflexivity. Qed.

Example sha256_empty :
  Sha256.hexdigest "" = "e3b0c44298fc1c149afbf4c8996fb92427ae41e4649b934ca495991b7852b855".
Proof. vm_compute. reflexivity. Qed.

Example sha256_two_blocks :
  Sha256.hexdigest "abcdbcdecdefdefgefghfghighijhijkijkljklmklmnlmnomnopnopq"
  = "248d6a61d20638b8e5c026930c3e6039a33ce45964ff2167f6ecedd419db06c1".
Proof. vm_compute. reflexivity. Qed.

Example sha256_constants :
  length Sha256.K = 64%nat /\
  take 2 Sha256.K = [0x428a2f98; 0x71374491] /\
  last Sha256.K = Some 0xc67178f2 /\
  take 2 Sha256.H0 = [0x6a09e667; 0xbb67ae85].
Proof. vm_compute. repeat split; reflexivity. Qed.

Example strftime_leap_day :
  map (fun t => Calendar.strftime_hour (Calendar.utcfromtimestamp t))
      [0; 951868799; 951868800; 1709251199; 1793750400; 4102444799]
  = [ "1970-01-01-00"; "2000-02-29-23"; "2000-03-01-00"; "2024-02-29-23";
      "2026-11-04-00"; "2099-12-31-23" ].
Proof. vm_compute. reflexivity. Qed.

Example round1_ties_to_even :
  map MockData.round1 [13 # 4; 15 # 4; 499 # 100; 10 # 1]%Q = [32; 38; 50; 100].
Proof. vm_compute. reflexivity. Qed.

Example replace_removes_every_occurrence :
  replace "-" "" "55-11-99999-0001" = "5511999990001".
Proof. vm_compute. reflexivity. Qed.

End LibrarySpec.

(** ** Domain tools *)

Module ToolsSpec.
Import Tools.

(** C7. A domain tool called with a persona outside its allow-list
    returns its access-denial string as a normal result, and the call
    log is untouched: no mock data is generated and no model is called. *)
Theorem denied_persona_gets_a_string (env : Env) (query : string)
    (persona_id : option string) (persona : string) (w : World) :
  (persona <> "administrator" ->
   answer_admin_questions env query persona w =
     (Return ("Access denied: This tool is only available for administrator personas. "
              +:+ "Current persona: " +:+ persona), w)) /\
  (persona <> "student" -> persona <> "administrator" ->
   answer_student_questions env query persona_id persona w =
     (Return ("Access denied: This tool is only available for student and administrator "
              +:+ "personas. Current persona: " +:+ persona), w)) /\
  (persona <> "teacher" -> persona <> "administrator" ->
   answer_teacher_questions env query persona_id persona w =
     (Return ("Access denied: This tool is only available for teacher and administrator "
              +:+ "personas. Current persona: " +:+ persona), w)).
Proof.
  repeat split; intros; 
    unfold answer_admin_questions, answer_student_questions, answer_teacher_questions;
    simpl.
  - destruct (String.eqb_spec persona "administrator"); [contradiction | reflexivity].
  - destruct (String.eqb_spec persona "student"); [contradiction |].
    destruct (String.eqb_spec persona "administrator"); [contradiction | reflexivity].
  - destruct (String.eqb_spec persona "teacher"); [contradiction |].
    destruct (String.eqb_spec persona "administrator"); [contradiction | reflexivity].
Qed.

Lemma denied_persona_gets_a_string_witness :
  answer_admin_questions Fixtures.echo_tools "Give me the operational report" "student" []
  = (Return ("Access denied: This tool is only available for administrator personas. "
             +:+ "Current persona: student"), []) /\
  answer_student_questions Fixtures.echo_tools "Show my grades" (Some "STU-001") "teacher" []
  = (Return ("Access denied: This tool is only available for student and administrator "
             +:+ "personas. Current persona: teacher"), []) /\
  answer_teacher_questions Fixtures.echo_tools "Show my course metrics" None "student" []
  = (Return ("Access denied: This tool is only available for teacher and administrator "
             +:+ "personas. Current persona: student"), []).
Proof.
  destruct (denied_persona_gets_a_string Fixtures.echo_tools
              "Give me the operational report" None "student" []) as (Hadmin & _ & Hteacher).
  destruct (denied_persona_gets_a_string Fixtures.echo_tools
              "Show my grades" (Some "STU-001") "teacher" []) as (_ & Hstudent & _).
  destruct (denied_persona_gets_a_string Fixtures.echo_tools
              "Show my course metrics" None "student" []) as (_ & _ & Hteacher').
  split; [apply Hadmin; discriminate |].
  split; [apply Hstudent; discriminate | apply Hteacher'; discriminate].
Defined.

(** An accepted persona does reach the mock data and the model. *)
Lemma accepted_persona_reaches_the_model (env : Env) (query : string) (w : World) :
  exists context,
    snd (answer_admin_questions env query "administrator" w) =
    w ++ EvMockData GenAdmin None :: EvAgent [] ::
      if is_raise (agent_new env [] (w ++ [EvMockData GenAdmin None])) then []
      else [EvAgentCall context].
Proof.
  unfold answer_admin_questions, answer_with_agent, bind, call. simpl.
  eexists. destruct (agent_new env [] (w ++ [EvMockData GenAdmin None])); simpl;
    rewrite <- !app_assoc; reflexivity.
Qed.

End ToolsSpec.

(** ** Mock student records *)

Module MockDataSpec.
Import MockData.

Lemma round1_range (x : Q) :
  (3 <= x)%Q -> (x <= 10)%Q -> 30 <= round1 x <= 100.
Proof.
  destruct x as [n d]. unfold Qle, round1. simpl. intros Hlo Hhi.
  assert (Hd : 0 < Z.pos d) by lia.
  pose proof (Z.div_mod (10 * n) (Z.pos d) ltac:(lia)) as Hdm.
  pose proof (Z.mod_pos_bound (10 * n) (Z.pos d) Hd) as Hr.
  set (q := (10 * n) / Z.pos d) in *.
  set (r := (10 * n) mod Z.pos d) in *.
  assert (Hq1 : 30 <= q) by nia.
  assert (Hq2 : q <= 100) by nia.
  assert (Hq3 : q = 100 -> r = 0) by nia.
  destruct (Z.ltb_spec (2 * r) (Z.pos d)); [lia |].
  destruct (Z.ltb_spec (Z.pos d) (2 * r)); [lia |].
  destruct (Z.even q); lia.
Qed.

(** What the course loop keeps true of the record it extends. *)
Definition consistent (sd : StudentData) : Prop :=
  focus_areas sd = courses_needing_focus (grades sd) /\
  map grade_course_name (grades sd) = map course_name (enrolled_courses sd) /\
  map grade_course_id (grades sd) = map course_id (enrolled_courses sd) /\
  Forall (fun g => 30 <= grade g <= 100) (grades sd).

Lemma courses_needing_focus_snoc (gs : list Grade) (g : Grade) :
  courses_needing_focus (gs ++ [g]) =
  (courses_needing_focus gs ++ if below_five g then [grade_course_name g] else [])%list.
Proof.
  unfold courses_needing_focus. rewrite filter_app, map_app. f_equal.
  rewrite filter_cons, filter_nil. destruct (below_five g); simpl.
  - destruct (decide (true = true)); [reflexivity | congruence].
  - destruct (decide (false = true)); [congruence | reflexivity].
Qed.

Lemma generate_courses_consistent (e : Entropy) (He : entropy_ok e)
    (selected : list string) :
  forall (i : Z) (acc : StudentData) (n : nat),
    consistent acc -> consistent (fst (generate_courses e i selected acc n)).
Proof.
  induction selected as [| course_name rest IH]; intros i acc n Hacc.
  - exact Hacc.
  - simpl. unfold gbind, draw_choice, draw_uniform, draw_randbelow, gbind, gret. simpl.
    match goal with
    | |- context [generate_tasks e ?k ?a ?b ?m] =>
        destruct (generate_tasks e k a b m) as [tasks m'] eqn:Htasks
    end.
    apply IH. destruct Hacc as (Hf & Hn & Hi & Hr).
    unfold consistent; simpl. repeat split.
    + rewrite courses_needing_focus_snoc. unfold below_five; simpl.
      destruct (round1 _ <? 50).
      * rewrite Hf. reflexivity.
      * rewrite Hf, app_nil_r. reflexivity.
    + rewrite !map_app, Hn. reflexivity.
    + rewrite !map_app, Hi. reflexivity.
    + apply Forall_app. split; [exact Hr |].
      constructor; [| constructor]. simpl.
      apply round1_range; apply (uniform_range e He 3 10); unfold Qle; simpl; lia.
Qed.

(** C10. In every record built by [generate_student_data], the focus
    areas are exactly the names of the courses graded below 5.0, in
    enrollment order; grades and enrolled courses run in parallel; and
    every grade lies between 3.0 and 10.0. *)
Theorem focus_areas_follow_grades (e : Entropy) (He : entropy_ok e)
    (student : option string) (n : nat) :
  let sd := fst (generate_student_data e student n) in
  focus_areas sd = courses_needing_focus (grades sd) /\
  map grade_course_name (grades sd) = map course_name (enrolled_courses sd) /\
  map grade_course_id (grades sd) = map course_id (enrolled_courses sd) /\
  Forall (fun g => 30 <= grade g <= 100) (grades sd).
Proof.
  intros sd. subst sd. unfold generate_student_data, gbind.
  destruct (match student with
            | Some s => gret s
            | None => _
            end n) as [sid n1].
  unfold draw_choice, gbind, draw_randbelow, draw_sample, gret.
  apply generate_courses_consistent; [exact He |].
  unfold consistent; simpl. repeat split; constructor.
Qed.

Lemma least_entropy_ok : entropy_ok Fixtures.least_entropy.
Proof.
  split; simpl; intros.
  - lia.
  - split; [apply Qle_refl | assumption].
Qed.

Lemma focus_areas_follow_grades_witness :
  let sd := fst (generate_student_data Fixtures.least_entropy None 0%nat) in
  focus_areas sd = courses_needing_focus (grades sd) /\
  map grade_course_name (grades sd) = map course_name (enrolled_courses sd) /\
  map grade_course_id (grades sd) = map course_id (enrolled_courses sd) /\
  Forall (fun g => 30 <= grade g <= 100) (grades sd).
Proof.
  apply (focus_areas_follow_grades Fixtures.least_entropy least_entropy_ok None 0%nat).
Defined.

End MockDataSpec.

(** ** The orchestration entrypoint *)

Module OrchestratorSpec.
Import Orchestrator.

Lemma lacks_falsy (payload : gmap string pyval) (k : string) :
  lacks payload k -> truthy (dict_get payload k) = false.
Proof.
  unfold lacks, dict_get. intros [-> | (v & -> & Hv)]; [reflexivity | exact Hv].
Qed.

(** C4. A payload that lacks both [inputText] and [prompt], or lacks
    [persona], or lacks [user_id], makes [invoke] raise with the world
    unchanged: nothing was logged, so no model was called and no memory
    configuration was built. *)
Theorem invoke_rejects_incomplete_payload (env : Env) (py_repr : pyval -> string)
    (payload : gmap string pyval) (context_session_id : pyval) (w : World) :
  (lacks payload "inputText" /\ lacks payload "prompt") \/
  lacks payload "persona" \/
  lacks payload "user_id" ->
  exists e, invoke env py_repr payload context_session_id w = (Raise e, w).
Proof.
  intros H. unfold invoke, py_or.
  destruct (truthy (if truthy (dict_get payload "inputText")
                    then dict_get payload "inputText"
                    else dict_get payload "prompt")) eqn:Hmsg; simpl;
    [| eexists; reflexivity].
  destruct (truthy (dict_get payload "persona")) eqn:Hpersona; simpl;
    [| eexists; reflexivity].
  destruct (truthy (dict_get payload "user_id")) eqn:Huser; simpl;
    [| eexists; reflexivity].
  exfalso. destruct H as [[Hi Hp] | [Hp | Hu]].
  - apply lacks_falsy in Hi, Hp. rewrite Hi, Hp in Hmsg. discriminate.
  - apply lacks_falsy in Hp. congruence.
  - apply lacks_falsy in Hu. congruence.
Qed.

Lemma invoke_rejects_incomplete_payload_witness :
  exists e, invoke Fixtures.gateway_down Fixtures.no_repr
              (delete "user_id" Fixtures.tasks_request) (PStr "session-0001")
              Fixtures.fresh_process
            = (Raise e, Fixtures.fresh_process).
Proof.
  apply invoke_rejects_incomplete_payload.
  right. right. left. vm_compute. reflexivity.
Defined.

(** *** Memory id resolution *)

Lemma nonempty_truthy (o : option string) :
  str_truthy o = true -> nonempty o = Some (default "" o).
Proof.
  destruct o as [s |]; simpl; [| discriminate].
  destruct (String.eqb s ""); [discriminate | reflexivity].
Qed.

Lemma nonempty_falsy (o : option string) :
  str_truthy o = false -> nonempty o = None.
Proof.
  destruct o as [s |]; simpl; [| reflexivity].
  destruct (String.eqb s ""); [reflexivity | discriminate].
Qed.

(** The parameter store lookup returns exactly when [ssm_value] is defined. *)
Lemma get_memory_id_from_ssm_value (env : Env) (w : World) :
  match ssm_value env (log w) with
  | Some v =>
      get_memory_id_from_ssm env default_memory_param w
      = (Return v, emit (EvSsmGetParameter default_memory_param) (emit EvSsmClient w))
  | None =>
      exists e w', get_memory_id_from_ssm env default_memory_param w = (Raise e, w') /\
                   memory_id_cache w' = memory_id_cache w /\
                   memory_client_cache w' = memory_client_cache w /\
                   exists new, log w' = (log w ++ new)%list /\ forallb is_lookup new = true
  end.
Proof.
  unfold ssm_value, get_memory_id_from_ssm, bind, call. simpl.
  destruct (ssm_client env (log w)) as [[] | e] eqn:Hc.
  - destruct (ssm_get_parameter env default_memory_param (log w ++ [EvSsmClient]))
      as [v | e] eqn:Hp.
    + reflexivity.
    + destruct e; eexists; eexists; (split; [reflexivity |]); simpl;
        (split; [reflexivity |]); (split; [reflexivity |]);
        exists [EvSsmClient; EvSsmGetParameter default_memory_param];
        rewrite <- app_assoc; split; reflexivity.
  - eexists; eexists; split; [reflexivity |]. simpl.
    split; [reflexivity |]. split; [reflexivity |].
    exists [EvSsmClient]. split; reflexivity.
Qed.

Lemma get_memory_id_first_found (env : Env) (payload : gmap string pyval) (w : World) :
  fst (get_memory_id env payload w) =
  match first_found (memory_id_sources env payload w) with
  | Some v => Return v
  | None => Raise memory_id_missing
  end.
Proof.
  unfold get_memory_id, memory_id_sources. simpl.
  destruct (payload !! "memory_id") as [v |]; [reflexivity |].
  unfold bind at 1. unfold get_memory_id_cache.
  destruct (str_truthy (memory_id_cache w)) eqn:Hcache.
  - rewrite (nonempty_truthy _ Hcache). reflexivity.
  - rewrite (nonempty_falsy _ Hcache). simpl.
    unfold bind at 1. unfold try_except. unfold bind at 1.
    pose proof (get_memory_id_from_ssm_value env w) as Hssm.
    destruct (ssm_value env (log w)) as [v |].
    + rewrite Hssm. reflexivity.
    + destruct Hssm as (e & w' & -> & _). simpl.
      destruct (str_truthy (environ env !! "MEMORY_ID")) eqn:Henv.
      * rewrite (nonempty_truthy _ Henv). reflexivity.
      * rewrite (nonempty_falsy _ Henv). reflexivity.
Qed.

(** When no source has a value, the resolution raises having done
    nothing but look the configuration up, and caches nothing. *)
Lemma get_memory_id_exhausted (env : Env) (payload : gmap string pyval) (w : World) :
  first_found (memory_id_sources env payload w) = None ->
  exists w', get_memory_id env payload w = (Raise memory_id_missing, w') /\
             memory_id_cache w' = memory_id_cache w /\
             memory_client_cache w' = memory_client_cache w /\
             exists new, log w' = (log w ++ new)%list /\ forallb is_lookup new = true.
Proof.
  unfold get_memory_id, memory_id_sources. simpl.
  destruct (payload !! "memory_id") as [v |]; [discriminate |].
  unfold bind at 1. unfold get_memory_id_cache.
  destruct (str_truthy (memory_id_cache w)) eqn:Hcache.
  { rewrite (nonempty_truthy _ Hcache). discriminate. }
  rewrite (nonempty_falsy _ Hcache). simpl.
  unfold bind at 1. unfold try_except. unfold bind at 1.
  pose proof (get_memory_id_from_ssm_value env w) as Hssm.
  destruct (ssm_value env (log w)) as [v |]; [discriminate |].
  destruct Hssm as (e & w' & -> & Hc1 & Hc2 & new & Hlog & Hnew). simpl.
  destruct (str_truthy (environ env !! "MEMORY_ID")) eqn:Henv.
  { rewrite (nonempty_truthy _ Henv). discriminate. }
  intros _. exists w'. unfold raise. repeat split; try assumption.
  exists new. split; assumption.
Qed.

Lemma lookups_build_nothing (l : list Event) :
  forallb is_lookup l = true -> attempts l = [] /\ model_calls l = [].
Proof.
  induction l as [| ev l IH]; [split; reflexivity |].
  simpl. intros H. apply andb_true_iff in H as [Hev Hl].
  destruct (IH Hl) as [Ha Hm].
  destruct ev; try discriminate; simpl; rewrite ?Ha, ?Hm; split; reflexivity.
Qed.

Lemma events_since_app (w w' : World) (new : list Event) :
  log w' = (log w ++ new)%list -> events_since w w' = new.
Proof.
  intros H. unfold events_since. rewrite H. apply drop_app_length.
Qed.

Lemma events_since_refl (w : World) : events_since w w = [].
Proof. apply events_since_app. symmetry. apply app_nil_r. Qed.

(** C5. [get_memory_id] returns the first value found among payload,
    process cache, parameter store and environment, in that order, and
    raises when there is none. In that case [invoke] raises too, and all
    it has done is look the configuration up: both caches are as they
    were, and no memory client, memory configuration, session manager,
    gateway session, orchestrator or model call appears in the log. *)
Theorem memory_id_resolution_order (env : Env) (py_repr : pyval -> string)
    (payload : gmap string pyval) (context_session_id : pyval) (w : World) :
  fst (get_memory_id env payload w) =
    match first_found (memory_id_sources env payload w) with
    | Some v => Return v
    | None => Raise memory_id_missing
    end /\
  (first_found (memory_id_sources env payload (emit EvSession w)) = None ->
   exists e w',
     invoke env py_repr payload context_session_id w = (Raise e, w') /\
     memory_id_cache w' = memory_id_cache w /\
     memory_client_cache w' = memory_client_cache w /\
     forallb is_lookup (events_since w w') = true /\
     attempts (events_since w w') = [] /\
     model_calls (events_since w w') = []).
Proof.
  split; [apply get_memory_id_first_found |].
  intros Hnone.
  assert (Hquiet : forall e, exists e' w',
             (Raise e : result (gmap string pyval), w) = (Raise e', w') /\
             memory_id_cache w' = memory_id_cache w /\
             memory_client_cache w' = memory_client_cache w /\
             forallb is_lookup (events_since w w') = true /\
             attempts (events_since w w') = [] /\
             model_calls (events_since w w') = []).
  { intros e. exists e, w. rewrite events_since_refl. repeat split. }
  unfold invoke.
  destruct (truthy (py_or _ _)); simpl; [| apply Hquiet].
  destruct (truthy (dict_get payload "persona")); simpl; [| apply Hquiet].
  destruct (truthy (dict_get payload "user_id")); simpl; [| apply Hquiet].
  destruct (truthy context_session_id); simpl; [| apply Hquiet].
  unfold bind at 1. unfold call at 1.
  destruct (session_region env (log w)) as [region | e].
  - unfold bind at 1.
    destruct (get_memory_id_exhausted env payload _ Hnone)
      as (w' & -> & Hc1 & Hc2 & new & Hlog & Hnew).
    exists memory_id_missing, w'. simpl in Hc1, Hc2, Hlog.
    assert (Hsince : events_since w w' = EvSession :: new).
    { apply events_since_app. rewrite Hlog, <- app_assoc. reflexivity. }
    rewrite Hsince.
    destruct (lookups_build_nothing (EvSession :: new) Hnew) as [Ha Hm].
    repeat split; assumption.
  - exists e, (emit EvSession w).
    assert (Hsince : events_since w (emit EvSession w) = [EvSession]).
    { apply events_since_app. reflexivity. }
    rewrite Hsince. repeat split.
Qed.

Lemma memory_id_resolution_order_witness :
  fst (get_memory_id Fixtures.no_memory_id Fixtures.tasks_request Fixtures.fresh_process) =
    match first_found (memory_id_sources Fixtures.no_memory_id Fixtures.tasks_request
                                         Fixtures.fresh_process) with
    | Some v => Return v
    | None => Raise memory_id_missing
    end /\
  exists e w',
    invoke Fixtures.no_memory_id Fixtures.no_repr Fixtures.tasks_request
           (PStr "session-0001") Fixtures.fresh_process = (Raise e, w') /\
    memory_id_cache w' = memory_id_cache Fixtures.fresh_process /\
    memory_client_cache w' = memory_client_cache Fixtures.fresh_process /\
    forallb is_lookup (events_since Fixtures.fresh_process w') = true /\
    attempts (events_since Fixtures.fresh_process w') = [] /\
    model_calls (events_since Fixtures.fresh_process w') = [].
Proof.
  pose proof (memory_id_resolution_order Fixtures.no_memory_id Fixtures.no_repr
                Fixtures.tasks_request (PStr "session-0001") Fixtures.fresh_process)
    as [Hfirst Hraise].
  split; [exact Hfirst |].
  apply Hraise. vm_compute. reflexivity.
Defined.

(** *** Tool assembly with fallback *)

(** One attempt logs the construction of its orchestrator and, when
    that succeeded, the model call. *)
Lemma run_orchestrator_log (env : Env) (tools : list Tool) (prompt : string) (w : World) :
  log (snd (run_orchestrator env tools prompt w)) =
  (log w ++ EvAgent tools ::
     if is_raise (agent_new env tools (log w)) then [] else [EvAgentCall tools prompt])%list.
Proof.
  unfold run_orchestrator, bind, call. simpl.
  destruct (agent_new env tools (log w)); simpl.
  - rewrite <- app_assoc. reflexivity.
  - reflexivity.
Qed.

Lemma run_orchestrator_raise (env : Env) (tools : list Tool) (prompt : string) (w : World) :
  is_raise (agent_new env tools (log w)) = true ->
  is_raise (fst (run_orchestrator env tools prompt w)) = true.
Proof.
  unfold run_orchestrator, bind, call. simpl.
  destruct (agent_new env tools (log w)); [discriminate | reflexivity].
Qed.




(** The request of the entrypoint's docstring on a deployment whose
    gateway is down: the memory id comes from the parameter store and is
    cached, the first attempt stops at the tool listing, and the answer
    comes from the orchestrator over the local tools. *)
Example gateway_down_run :
  let run := invoke Fixtures.gateway_down Fixtures.no_repr Fixtures.tasks_request
                    (PStr "whatsapp-5511999990001-2026-11-04-00-ee9351a9")
                    Fixtures.fresh_process in
  fst run = Return (<["result" := PStr "Suas tarefas pendentes"]>
                    (<["session_id" := PStr "whatsapp-5511999990001-2026-11-04-00-ee9351a9"]>
                     (<["persona" := PStr "student"]> ∅))) /\
  map event_name (log (snd run)) =
    [ "Session"; "boto3.client"; "ssm.get_parameter"; "MemoryClient";
      "AgentCoreMemoryConfig"; "AgentCoreMemorySessionManager";
      "mcp_client.__enter__"; "mcp_client.list_tools_sync";
      "Agent"; "orchestrator"; "mcp_client.__exit__" ] /\
  attempts (log (snd run)) = [base_tools] /\
  memory_id_cache (snd run) = Some "OctankEduMultiAgentMemory-ABC123".
Proof. vm_compute. repeat split; reflexivity. Qed.

(** The same request when the gateway lists a tool: one orchestrator,
    over the six local tools and the remote one. *)
Example gateway_up_run :
  let run := invoke Fixtures.no_memory_id Fixtures.no_repr
                    (<["memory_id" := PStr "OctankEduMultiAgentMemory-ABC123"]>
                     Fixtures.tasks_request)
                    (PStr "whatsapp-5511999990001-2026-11-04-00-ee9351a9")
                    Fixtures.fresh_process in
  is_raise (fst run) = false /\
  attempts (log (snd run)) = [base_tools ++ [McpTool "send_whatsapp_message"]] /\
  map fst (model_calls (log (snd run))) =
    [base_tools ++ [McpTool "send_whatsapp_message"]].
Proof. vm_compute. repeat split; reflexivity. Qed.

End OrchestratorSpec.

(** ** The inbound adapter *)

Module LambdaSpec.
Import LambdaSns.

(** *** Persona resolution *)

Lemma read_attributes_persona_from (attrs : list Attribute) :
  forall (acc : option string * option string) (v : string),
    snd (fold_left
           (fun (acc : option string * option string) attr =>
              if String.eqb (Name attr) "phone_number" then (Some (Value attr), snd acc)
              else if String.eqb (Name attr) "custom:persona"
                   then (fst acc, Some (Value attr))
                   else acc)
           attrs acc) = Some v ->
    snd acc = Some v \/
    exists attr, In attr attrs /\ Name attr = "custom:persona" /\ Value attr = v.
Proof.
  induction attrs as [| a attrs IH]; intros acc v H; simpl in H.
  - left. exact H.
  - apply IH in H. destruct H as [H | (attr & Hin & Hn & Hv)].
    + destruct (String.eqb_spec (Name a) "phone_number"); [left; exact H |].
      destruct (String.eqb_spec (Name a) "custom:persona").
      * right. exists a. simpl in H. split; [left; reflexivity |].
        split; [assumption | congruence].
      * left. exact H.
    + right. exists attr. split; [right; exact Hin | split; assumption].
Qed.

Lemma read_attributes_no_persona (attrs : list Attribute) :
  Forall (fun attr => Name attr <> "custom:persona") attrs ->
  forall acc : option string * option string,
    snd (fold_left
           (fun (acc : option string * option string) attr =>
              if String.eqb (Name attr) "phone_number" then (Some (Value attr), snd acc)
              else if String.eqb (Name attr) "custom:persona"
                   then (fst acc, Some (Value attr))
                   else acc)
           attrs acc) = snd acc.
Proof.
  induction 1 as [| a attrs Ha _ IH]; intros acc; simpl; [reflexivity |].
  rewrite IH.
  destruct (String.eqb_spec (Name a) "phone_number"); [reflexivity |].
  destruct (String.eqb_spec (Name a) "custom:persona"); [contradiction | reflexivity].
Qed.

Lemma no_persona_defaults (user : User) :
  has_no_persona user -> user_persona_or_default user = "student".
Proof.
  intros H. unfold user_persona_or_default, read_attributes.
  rewrite (read_attributes_no_persona _ H). reflexivity.
Qed.

Lemma scan_users_no_match (phone_number : string) (users rest : list User) :
  Forall (fun u => user_matches phone_number u = false) users ->
  scan_users phone_number (users ++ rest) = scan_users phone_number rest.
Proof.
  induction 1 as [| u users Hu _ IH]; simpl; [reflexivity |].
  rewrite Hu. exact IH.
Qed.

(** Pages without a match are passed over, unless one of them is
    malformed, which raises. *)
Lemma scan_pages_no_match (pool phone_number : string) (fetched : list Page) :
  no_match phone_number fetched ->
  forall (rest : list (result Page)) (w : World),
    (exists e w', scan_pages pool phone_number (map Return fetched ++ rest) w
                  = (Raise e, w')) \/
    (exists w', scan_pages pool phone_number (map Return fetched ++ rest) w
                = scan_pages pool phone_number rest w').
Proof.
  induction 1 as [| page fetched Hpage _ IH]; intros rest w; simpl.
  - right. exists w. reflexivity.
  - unfold bind, call. unfold page_users in Hpage. fold (@bind World).
    destruct (Users page) as [users |]; simpl in *.
    + rewrite <- (app_nil_r users), (scan_users_no_match _ _ _ Hpage). simpl.
      apply IH.
    + left. eexists; eexists; reflexivity.
Qed.

(** A lookup that ends without a persona never returns one. *)
Lemma scan_pages_defaults (pool phone_number : string) (pages : list (result Page)) :
  lookup_defaults phone_number pages ->
  forall w, exists w',
    (exists e, scan_pages pool phone_number pages w = (Raise e, w')) \/
    scan_pages pool phone_number pages w = (Return None, w') \/
    scan_pages pool phone_number pages w = (Return (Some "student"), w').
Proof.
  intros [fetched e rest Hno | fetched Hno | fetched before user after rest Hno Hb Hu Hp] w.
  - destruct (scan_pages_no_match pool _ _ Hno (Raise e :: rest) w)
      as [(e' & w' & ->) | (w' & ->)].
    + exists w'. left. exists e'. reflexivity.
    + simpl. unfold bind, call. eexists. left. eexists. reflexivity.
  - rewrite <- (app_nil_r (map Return fetched)).
    destruct (scan_pages_no_match pool _ _ Hno [] w) as [(e' & w' & ->) | (w' & ->)].
    + exists w'. left. exists e'. reflexivity.
    + exists w'. right. left. reflexivity.
  - destruct (scan_pages_no_match pool _ _ Hno
                (Return {| Users := Some (before ++ user :: after) |} :: rest) w)
      as [(e' & w' & ->) | (w' & ->)].
    + exists w'. left. exists e'. reflexivity.
    + simpl. unfold bind, call. simpl.
      rewrite (scan_users_no_match _ _ _ Hb). simpl. rewrite Hu.
      rewrite (no_persona_defaults _ Hp).
      eexists. right. right. reflexivity.
Qed.

(** C2. [get_user_persona_by_phone] never raises, whatever it is
    given; and when the lookup of a phone number fails with a service
    error, matches no user, or matches a user without a persona
    attribute, it returns [student]. *)
Theorem persona_defaults_to_student (env : Env) :
  (forall (phone_number : pyval) (w : World),
     exists persona w',
       get_user_persona_by_phone env phone_number w = (Return persona, w')) /\
  (forall (phone_number : string) (w : World),
     lookup_defaults (with_plus phone_number) (list_users env w) ->
     exists w',
       get_user_persona_by_phone env (PStr phone_number) w = (Return "student", w')).
Proof.
  split.
  - intros phone_number w. unfold get_user_persona_by_phone, try_except.
    match goal with
    | |- context [match ?body w with _ => _ end] => destruct (body w) as [[p | e] w']
    end; eexists; eexists; reflexivity.
  - intros phone_number w H.
    unfold get_user_persona_by_phone, try_except, bind.
    destruct (scan_pages_defaults (USER_POOL_ID env) _ _ H w)
      as (w' & [(e & ->) | [-> | ->]]); exists w'; reflexivity.
Qed.

Lemma persona_defaults_to_student_witness :
  exists w',
    get_user_persona_by_phone (Fixtures.whatsapp (Fixtures.directory "teacher"))
                              (PStr "5511888880000") []
    = (Return "student", w').
Proof.
  apply (proj2 (persona_defaults_to_student
                  (Fixtures.whatsapp (Fixtures.directory "teacher")))).
  apply (matches_no_user _
           [ {| Users := Some
                  [ {| Username := Some "demo";
                       Attributes := Some
                         [ {| Name := "phone_number"; Value := Fixtures.sender |};
                           {| Name := "custom:persona"; Value := "teacher" |} ] |} ] |} ]).
  repeat constructor.
Defined.

(** *** Session identifiers *)

Lemma append_assoc (a b c : string) : (a +:+ b) +:+ c = a +:+ (b +:+ c).
Proof.
  induction a as [| x a IH]; [reflexivity |].
  change (String x ((a +:+ b) +:+ c) = String x (a +:+ (b +:+ c))).
  rewrite IH. reflexivity.
Qed.

Lemma length_append (a b : string) :
  String.length (a +:+ b) = (String.length a + String.length b)%nat.
Proof.
  induction a as [| x a IH]; [reflexivity |].
  change (S (String.length (a +:+ b)) = S (String.length a + String.length b)).
  rewrite IH. reflexivity.
Qed.

(** Two equal strings that end in tails of the same length have the
    same tail. *)
Lemma same_tail (a b t u : string) :
  String.length t = String.length u -> a +:+ t = b +:+ u -> t = u.
Proof.
  revert b. induction a as [| x a IH]; intros b Hlen H.
  - destruct b as [| y b]; [exact H |].
    apply (f_equal String.length) in H.
    change ("" +:+ t) with t in H. rewrite length_append in H. simpl in H. lia.
  - destruct b as [| y b].
    + apply (f_equal String.length) in H.
      change ("" +:+ u) with u in H. rewrite length_append in H. simpl in H. lia.
    + change (String x (a +:+ t) = String y (b +:+ u)) in H.
      injection H as _ H. exact (IH b Hlen H).
Qed.

Lemma replace_with_nothing (old : ascii) (s : string) :
  replace old "" s =
  (fix drop_char (s : string) : string :=
     match s with
     | EmptyString => EmptyString
     | String c rest => if Ascii.eqb c old then drop_char rest
                        else String c (drop_char rest)
     end) s.
Proof.
  induction s as [| c s IH]; [reflexivity |].
  simpl. rewrite IH. destruct (Ascii.eqb c old); reflexivity.
Qed.

(** The three [replace] calls of the handler remove exactly the [+],
    [-] and space characters. *)
Lemma clean_phone_normalized (raw : string) :
  replace " " "" (replace "-" "" (replace "+" "" raw)) = normalized_phone raw.
Proof.
  induction raw as [| c raw IH]; [reflexivity |].
  cbn [replace normalized_phone].
  destruct (Ascii.eqb_spec c "+") as [-> | Hplus]; simpl.
  - exact IH.
  - destruct (Ascii.eqb_spec c "-") as [-> | Hminus]; simpl.
    + exact IH.
    + destruct (Ascii.eqb_spec c " ") as [-> | Hspace]; simpl.
      * exact IH.
      * rewrite IH. reflexivity.
Qed.

(** [strftime('%Y-%m-%d-%H')] of an instant only depends on its hour. *)
Lemma strftime_hour_bucket (now : Z) :
  Calendar.strftime_hour (Calendar.utcfromtimestamp now) = hour_bucket now.
Proof.
  unfold hour_bucket, Calendar.strftime_hour, Calendar.utcfromtimestamp.
  replace (now / 3600 / 24) with (now / 86400)
    by (rewrite Z.div_div by lia; reflexivity).
  destruct (Calendar.civil_from_days (now / 86400)) as [[y m] d]. simpl.
  replace (now mod 86400 / 3600) with ((now / 3600) mod 24); [reflexivity |].
  apply Z.div_unique with (r := now mod 3600).
  - left. apply Z.mod_pos_bound. lia.
  - change 86400 with (3600 * 24). rewrite Z.rem_mul_r by lia. lia.
Qed.

Lemma digit_inj (a b : Z) :
  0 <= a < 10 -> 0 <= b < 10 -> Calendar.digit a = Calendar.digit b -> a = b.
Proof.
  unfold Calendar.digit. intros Ha Hb H.
  rewrite !Z.mod_small in H by lia.
  apply (f_equal nat_of_ascii) in H.
  rewrite !nat_ascii_embedding in H by lia. lia.
Qed.

Lemma pad2_inj (a b : Z) :
  0 <= a < 100 -> 0 <= b < 100 -> Calendar.pad2 a = Calendar.pad2 b -> a = b.
Proof.
  unfold Calendar.pad2. intros Ha Hb H. injection H as H1 H2.
  assert (Hdiv : forall x, 0 <= x < 100 -> 0 <= x / 10 < 10).
  { intros x Hx. split; [apply Z.div_pos; lia | apply Z.div_lt_upper_bound; lia]. }
  assert (Hq : a / 10 = b / 10).
  { apply digit_inj; [apply Hdiv; lia | apply Hdiv; lia | exact H1]. }
  assert (Hr : a mod 10 = b mod 10).
  { apply digit_inj; [apply Z.mod_pos_bound; lia | apply Z.mod_pos_bound; lia |].
    unfold Calendar.digit in *. rewrite !Z.mod_mod by lia. exact H2. }
  rewrite (Z.div_mod a 10), (Z.div_mod b 10) by lia. lia.
Qed.

Lemma hour_bucket_tail (now : Z) :
  exists front, hour_bucket now = front +:+ Calendar.pad2 ((now / 3600) mod 24).
Proof.
  unfold hour_bucket.
  destruct (Calendar.civil_from_days (now / 3600 / 24)) as [[y m] d].
  exists (Calendar.pad4 y +:+ "-" +:+ Calendar.pad2 m +:+ "-" +:+ Calendar.pad2 d +:+ "-").
  rewrite !append_assoc. reflexivity.
Qed.

(** *** What the handler logs *)

Section Logging.

Context {A B : Type}.
Variable P : Event -> Prop.

Lemma sat_ret (Q : A -> Prop) (a : A) (w : World) : Q a -> sat_at P Q (ret a) w.
Proof.
  intros H. exists []. simpl. rewrite app_nil_r.
  split; [reflexivity |]. split; [constructor |]. intros a' [= <-]. exact H.
Qed.

Lemma sat_raise (Q : A -> Prop) (e : exn) (w : World) : sat_at P Q (raise e) w.
Proof.
  exists []. simpl. rewrite app_nil_r.
  split; [reflexivity |]. split; [constructor |]. intros a' [=].
Qed.

Lemma sat_lift (Q : A -> Prop) (r : result A) (w : World) :
  (forall a, r = Return a -> Q a) -> sat_at P Q (lift r) w.
Proof.
  intros H. exists []. simpl. rewrite app_nil_r.
  split; [reflexivity |]. split; [constructor |]. exact H.
Qed.

Lemma sat_call (Q : A -> Prop) (ev : Event) (oracle : list Event -> result A) (w : World) :
  P ev -> (forall a, oracle w = Return a -> Q a) -> sat_at P Q (call ev oracle) w.
Proof.
  intros Hev H. exists [ev]. simpl.
  split; [reflexivity |]. split; [repeat constructor; exact Hev |]. exact H.
Qed.

Lemma sat_bind (Q : A -> Prop) (R : B -> Prop) (c : M World A) (k : A -> M World B)
    (w : World) :
  sat_at P Q c w ->
  (forall a w', c w = (Return a, w') -> Q a -> sat_at P R (k a) w') ->
  sat_at P R (bind c k) w.
Proof.
  intros (new & Hlog & Hnew & Hq) Hk. unfold sat_at, bind.
  destruct (c w) as [[a | e] w'] eqn:Hc; simpl in *.
  - destruct (Hk a w' eq_refl (Hq a eq_refl)) as (new' & Hlog' & Hnew' & Hr).
    exists (new ++ new'). rewrite Hlog'. subst w'. rewrite app_assoc.
    split; [reflexivity |]. split; [apply Forall_app; split; assumption |]. exact Hr.
  - exists new. split; [exact Hlog |]. split; [exact Hnew |]. intros b [=].
Qed.

Lemma sat_try_except (Q : A -> Prop) (body : M World A) (handler : exn -> M World A)
    (w : World) :
  sat_at P Q body w ->
  (forall e w', body w = (Raise e, w') -> sat_at P Q (handler e) w') ->
  sat_at P Q (try_except body handler) w.
Proof.
  intros (new & Hlog & Hnew & Hq) Hh. unfold sat_at, try_except.
  destruct (body w) as [[a | e] w'] eqn:Hb; simpl in *.
  - exists new. split; [exact Hlog |]. split; [exact Hnew |]. exact Hq.
  - destruct (Hh e w' eq_refl) as (new' & Hlog' & Hnew' & Hr).
    exists (new ++ new'). rewrite Hlog'. subst w'. rewrite app_assoc.
    split; [reflexivity |]. split; [apply Forall_app; split; assumption |]. exact Hr.
Qed.

Lemma sat_weaken (Q Q' : A -> Prop) (c : M World A) (w : World) :
  (forall a, Q a -> Q' a) -> sat_at P Q c w -> sat_at P Q' c w.
Proof.
  intros H (new & Hlog & Hnew & Hq). exists new.
  split; [exact Hlog |]. split; [exact Hnew |]. intros a Ha. apply H, Hq, Ha.
Qed.

End Logging.

(** A pure step leaves the world as it is. *)
Lemma lift_world {A} (r : result A) (a : A) (w w' : World) :
  lift r w = (Return a, w') -> w' = w.
Proof. unfold lift. intros [= _ <-]. reflexivity. Qed.

Ltac sat_pure :=
  repeat first
    [ apply sat_ret; exact I
    | apply sat_raise
    | apply sat_lift; intros; exact I
    | eapply (sat_bind _ (fun _ => True));
      [ apply sat_lift; intros; exact I | intros ? ? _ _ ]
    | match goal with
      | |- sat_at _ _ (if ?b then _ else _) _ => destruct b
      end ].

Lemma scan_users_found (phone_number : string) (users : list User) (persona : string) :
  scan_users phone_number users = Some persona ->
  exists user, In user users /\ persona = user_persona_or_default user.
Proof.
  induction users as [| u users IH]; simpl; [discriminate |].
  destruct (user_matches phone_number u).
  - intros [= <-]. exists u. split; [left; reflexivity | reflexivity].
  - intros H. destruct (IH H) as (user & Hin & Hp).
    exists user. split; [right; exact Hin | exact Hp].
Qed.

(** The lookup logs page fetches only, and a persona it finds is
    that of a user on one of the pages. *)
Lemma scan_pages_sat (P : Event -> Prop) (pool phone_number : string)
    (pages : list (result Page)) :
  P (EvListUsers pool) ->
  forall w,
    sat_at P (fun found => forall persona, found = Some persona ->
                exists page user, In (Return page) pages /\ In user (page_users page) /\
                                  persona = user_persona_or_default user)
           (scan_pages pool phone_number pages) w.
Proof.
  intros HP. induction pages as [| fetch rest IH]; intros w; simpl.
  - apply sat_ret. discriminate.
  - eapply (sat_bind _ (fun page => fetch = Return page)).
    + apply sat_call; [exact HP | intros a Ha; exact Ha].
    + intros page w' _ ->. destruct (Users page) as [users |] eqn:Husers.
      * destruct (scan_users phone_number users) as [persona |] eqn:Hscan.
        -- apply sat_ret. intros p [= <-].
           destruct (scan_users_found _ _ _ Hscan) as (user & Hin & Hp).
           exists page, user. split; [left; reflexivity |].
           unfold page_users. rewrite Husers. split; assumption.
        -- eapply sat_weaken; [| apply IH].
           intros found H persona Hfound.
           destruct (H persona Hfound) as (pg & user & Hin & Hu & Hp).
           exists pg, user. split; [right; exact Hin | split; assumption].
      * apply sat_raise.
Qed.

Lemma get_user_persona_sat (env : Env) (P : Event -> Prop) (phone_number : pyval)
    (w : World) :
  P (EvListUsers (USER_POOL_ID env)) ->
  sat_at P (fun persona =>
              persona = "student" \/
              exists page user, In (Return page) (list_users env w) /\
                                In user (page_users page) /\
                                persona = user_persona_or_default user)
         (get_user_persona_by_phone env phone_number) w.
Proof.
  intros HP. unfold get_user_persona_by_phone.
  apply sat_try_except.
  - destruct phone_number; try apply sat_raise.
    change (sat_at P
              (fun persona =>
                 persona = "student" \/
                 exists page user, In (Return page) (list_users env w) /\
                                   In user (page_users page) /\
                                   persona = user_persona_or_default user)
              (bind (scan_pages (USER_POOL_ID env) (with_plus s) (list_users env w))
                    (fun found => match found with
                                  | Some persona => ret persona
                                  | None => ret "student"
                                  end)) w).
    eapply sat_bind; [apply scan_pages_sat; exact HP |].
    intros found w' _ Hfound. destruct found as [persona |].
    + apply sat_ret. right. apply Hfound. reflexivity.
    + apply sat_ret. left. reflexivity.
  - intros e w' _. apply sat_ret. left. reflexivity.
Qed.

Lemma user_persona_known (user : User) :
  (forall attr, In attr (default [] (Attributes user)) ->
                Name attr = "custom:persona" ->
                In (Value attr) ["student"; "professor"; "teacher"; "administrator"; ""]) ->
  In (user_persona_or_default user) ["student"; "professor"; "teacher"; "administrator"].
Proof.
  intros H. unfold user_persona_or_default.
  destruct (snd (read_attributes (default [] (Attributes user)))) as [v |] eqn:Hattr;
    simpl; [| left; reflexivity].
  destruct (String.eqb_spec v ""); simpl; [left; reflexivity |].
  unfold read_attributes in Hattr.
  apply read_attributes_persona_from in Hattr.
  destruct Hattr as [Hattr | (attr & Hin & Hname & Hvalue)]; [discriminate |].
  specialize (H attr Hin Hname). rewrite Hvalue in H. simpl in H.
  destruct H as [<- | [<- | [<- | [<- | [<- | []]]]]]; simpl; auto. contradiction.
Qed.

Lemma remap_persona_type (persona : string) :
  In persona ["student"; "professor"; "teacher"; "administrator"] ->
  In (remap_persona persona) persona_types.
Proof.
  simpl. intros [<- | [<- | [<- | [<- | []]]]]; vm_compute; auto.
Qed.

(** The relay logs page fetches, one clock reading and at most one
    invocation, built from the persona the lookup returned. *)
Lemma relay_message_sat (env : Env) (py_repr : pyval -> string) (P : Event -> Prop)
    (message_type sender_phone message value : pyval) (w : World) :
  (forall ev, is_invocation ev = false -> P ev) ->
  (forall persona w1 phone user_message,
     get_user_persona_by_phone env sender_phone w = (Return persona, w1) ->
     sender_phone = PStr phone ->
     P (EvInvokeAgentRuntime (AGENT_RUNTIME_ARN env)
          (derive_session_id phone (utcnow env w1))
          (orchestration_payload user_message (remap_persona persona)
             (replace " " "" (replace "-" "" (replace "+" "" phone))) sender_phone))) ->
  sat_at P (fun _ => True)
         (relay_message env py_repr message_type sender_phone message value) w.
Proof.
  intros Hquiet Hinvoke. unfold relay_message.
  eapply (sat_bind _ (fun _ => True)).
  { unfold message_text. sat_pure. }
  intros user_message w0 Htext _.
  assert (w0 = w) as ->.
  { unfold message_text in Htext.
    repeat match type of Htext with
           | (if ?b then _ else _) _ = _ => destruct b
           end;
      try (injection Htext as _ <-; reflexivity).
    unfold bind, lift in Htext.
    destruct (get message "text" (PDict ∅)); [| discriminate].
    injection Htext as _ <-. reflexivity. }
  eapply (sat_bind _ (fun _ => True)).
  { unfold contact_name. sat_pure. }
  intros user_name w0 Hname _.
  assert (w0 = w) as ->.
  { unfold contact_name, bind, lift in Hname.
    destruct (get value "contacts" (PList [])); [| discriminate].
    destruct (truthy a).
    - destruct (getitem0 a); [| discriminate].
      destruct (get a0 "profile" (PDict ∅)); [| discriminate].
      injection Hname as _ <-. reflexivity.
    - injection Hname as _ <-. reflexivity. }
  eapply (sat_bind _ (fun _ => True)).
  { eapply sat_weaken; [| apply get_user_persona_sat]; [trivial |].
    apply Hquiet. reflexivity. }
  intros persona w1 Hpersona _.
  destruct sender_phone as [| | | | phone | |]; try apply sat_raise.
  eapply (sat_bind _ (fun now => now = utcnow env w1)).
  { apply sat_call; [apply Hquiet; reflexivity |]. intros now [= <-]. reflexivity. }
  intros now w2 _ ->.
  eapply (sat_bind _ (fun _ => True)).
  { apply sat_call; [| trivial]. eapply Hinvoke; [exact Hpersona | reflexivity]. }
  intros response w3 _ _.
  unfold read_agent_response. sat_pure.
Qed.

Lemma markAsRead_sat (env : Env) (P : Event -> Prop) (msg_id : pyval) (w : World) :
  (forall ev, is_invocation ev = false -> P ev) ->
  sat_at P (fun _ => True) (markAsRead env msg_id) w.
Proof.
  intros Hquiet. unfold markAsRead. apply sat_try_except.
  - eapply (sat_bind _ (fun _ => True)).
    { apply sat_call; [apply Hquiet; reflexivity | trivial]. }
    intros _ w1 _ _.
    eapply (sat_bind _ (fun _ => True)).
    { apply sat_call; [apply Hquiet; reflexivity | trivial]. }
    intros response w2 _ _. apply sat_ret. exact I.
  - intros e w' _. apply sat_ret. exact I.
Qed.

Section Handler.

Variable env : Env.
Variable py_repr : pyval -> string.
Variable P : Event -> Prop.
Hypothesis quiet : forall ev, is_invocation ev = false -> P ev.
Hypothesis relay : forall message_type sender_phone message value w,
  sat_at P (fun _ => True)
         (relay_message env py_repr message_type sender_phone message value) w.

Lemma handle_message_sat (value messages : pyval) (w : World) :
  sat_at P (fun _ => True) (handle_message env py_repr value messages) w.
Proof.
  unfold handle_message. sat_pure.
  eapply (sat_bind _ (fun _ => True)); [apply markAsRead_sat; exact quiet |].
  intros _ ? _ _. apply relay.
Qed.

Lemma process_record_sat (record : pyval) (w : World) :
  sat_at P (fun _ => True) (process_record env py_repr record) w.
Proof.
  unfold process_record.
  eapply (sat_bind _ (fun _ => True)).
  { unfold envelope_value. sat_pure. }
  intros entry ? _ _. destruct entry as [value |]; [| apply sat_ret; exact I].
  pose proof handle_message_sat as Hhandle. revert Hhandle.
  generalize (handle_message env py_repr). intros handle Hhandle.
  sat_pure. apply Hhandle.
Qed.

Lemma process_records_sat (records : list pyval) :
  forall w, sat_at P (fun _ => True) (process_records env py_repr records) w.
Proof.
  induction records as [| record rest IH]; intros w; simpl.
  - apply sat_ret. exact I.
  - eapply (sat_bind _ (fun _ => True)); [apply process_record_sat |].
    intros _ ? _ _. apply IH.
Qed.

Lemma lambda_handler_sat (event : pyval) (w : World) :
  sat_at P (fun _ => True) (lambda_handler env py_repr event) w.
Proof.
  unfold lambda_handler. sat_pure.
  apply sat_try_except.
  - sat_pure.
    eapply (sat_bind _ (fun _ => True)); [apply process_records_sat |].
    intros _ ? _ _. apply sat_ret. exact I.
  - intros e ? _. apply sat_ret. exact I.
Qed.

End Handler.

Lemma sat_events (A : Type) (P : Event -> Prop) (Q : A -> Prop) (c : M World A)
    (w : World) :
  sat_at P Q c w -> Forall P (events_since w (snd (c w))).
Proof.
  intros (new & Hlog & Hnew & _). unfold events_since.
  rewrite Hlog, drop_app_length. exact Hnew.
Qed.

(** *** The session of an invocation *)

(** C3. The session id is [whatsapp-], the phone without [+], [-] and
    spaces, the UTC hour bucket of the clock, and the first eight hex
    digits of the SHA-256 of the raw phone, joined by dashes. Two
    instants of the same UTC hour give one id; an instant and the one
    an hour later give two. Every invocation made for a message of that
    sender runs under the id derived from a reading of the clock. *)
Theorem session_id_by_phone_and_hour (sender_phone : string) (now : Z) :
  derive_session_id sender_phone now =
    "whatsapp-" +:+ normalized_phone sender_phone +:+ "-" +:+ hour_bucket now +:+ "-" +:+
    first_8_hex (Sha256.hexdigest sender_phone) /\
  (forall now', now / 3600 = now' / 3600 ->
                derive_session_id sender_phone now = derive_session_id sender_phone now') /\
  derive_session_id sender_phone (now + 3600) <> derive_session_id sender_phone now /\
  (forall (env : Env) (py_repr : pyval -> string) (message_type message value : pyval)
          (w : World),
     Forall (fun ev => forall arn session payload,
                         ev = EvInvokeAgentRuntime arn session payload ->
                         exists w1, session = derive_session_id sender_phone (utcnow env w1))
            (events_since w
               (snd (relay_message env py_repr message_type (PStr sender_phone)
                                   message value w)))).
Proof.
  assert (Hshape : forall t,
    derive_session_id sender_phone t =
      "whatsapp-" +:+ normalized_phone sender_phone +:+ "-" +:+ hour_bucket t +:+ "-" +:+
      first_8_hex (Sha256.hexdigest sender_phone)).
  { intros t. unfold derive_session_id.
    rewrite clean_phone_normalized, strftime_hour_bucket. reflexivity. }
  split; [apply Hshape |]. split; [| split].
  - intros now' Hhour. rewrite !Hshape. unfold hour_bucket. rewrite Hhour. reflexivity.
  - rewrite !Hshape. intros H.
    apply (inj (String.app _)) in H. apply (inj (String.app _)) in H.
    apply (inj (String.app _)) in H.
    destruct (hour_bucket_tail (now + 3600)) as [front1 H1].
    destruct (hour_bucket_tail now) as [front0 H0].
    rewrite H1, H0, !append_assoc in H.
    apply same_tail in H; [| rewrite !length_append; reflexivity].
    set (tail := "-" +:+ first_8_hex (Sha256.hexdigest sender_phone)) in H.
    assert (Hpad : Calendar.pad2 ((now + 3600) / 3600 mod 24)
                   = Calendar.pad2 (now / 3600 mod 24)).
    { unfold Calendar.pad2 in *.
      change (String ?c (String ?d "") +:+ tail) with (String c (String d tail)) in H.
      injection H as Hc Hd. rewrite Hc, Hd. reflexivity. }
    apply pad2_inj in Hpad.
    + replace ((now + 3600) / 3600) with (now / 3600 + 1) in Hpad
        by (replace (now + 3600) with (now + 1 * 3600) by lia;
            rewrite Z.div_add by lia; reflexivity).
      pose proof (Z.mod_pos_bound (now / 3600) 24 ltac:(lia)) as Hb.
      pose proof (Z.div_mod (now / 3600) 24 ltac:(lia)) as Hdm.
      pose proof (Z.mod_pos_bound (now / 3600 + 1) 24 ltac:(lia)) as Hb'.
      pose proof (Z.div_mod (now / 3600 + 1) 24 ltac:(lia)) as Hdm'.
      lia.
    + pose proof (Z.mod_pos_bound ((now + 3600) / 3600) 24 ltac:(lia)). lia.
    + pose proof (Z.mod_pos_bound (now / 3600) 24 ltac:(lia)). lia.
  - intros env py_repr message_type message value w.
    eapply sat_events, relay_message_sat.
    + intros ev Hev arn session payload ->. discriminate.
    + intros persona w1 phone user_message _ [= <-] arn session payload [= _ <- _].
      exists w1. reflexivity.
Qed.

Lemma session_id_by_phone_and_hour_witness :
  derive_session_id "+55 11 99999-0001" 1793750400 =
  derive_session_id "+55 11 99999-0001" 1793753999.
Proof.
  apply (proj1 (proj2 (session_id_by_phone_and_hour "+55 11 99999-0001" 1793750400))).
  reflexivity.
Defined.

(** *** The persona sent to the orchestrator *)

(** C8, as amended. The persona an invocation carries is the one the
    directory lookup returned, with professor replaced by teacher. So,
    when every persona attribute of the directory is one of student,
    professor, teacher, administrator (or empty), every invocation the
    handler makes carries student, teacher or administrator; and a
    lookup that returns professor is presented as teacher. *)
Theorem forwarded_persona_is_remapped (env : Env) (py_repr : pyval -> string) :
  (directory_personas_known env ->
   forall (event : pyval) (w : World),
     Forall forwards_persona_type
            (events_since w (snd (lambda_handler env py_repr event w)))) /\
  (forall (message_type sender_phone message value : pyval) (w w1 : World)
          (persona : string),
     get_user_persona_by_phone env sender_phone w = (Return persona, w1) ->
     Forall (fun ev => is_invocation ev = true ->
                       forwarded_persona ev = Some (PStr (remap_persona persona)))
            (events_since w
               (snd (relay_message env py_repr message_type sender_phone message value w)))) /\
  remap_persona "professor" = "teacher".
Proof.
  split; [| split].
  - intros Hknown event w.
    eapply sat_events, lambda_handler_sat.
    + intros ev Hev. destruct ev; try exact I. discriminate.
    + intros message_type sender_phone message value w0.
      apply relay_message_sat.
      * intros ev Hev. destruct ev; try exact I. discriminate.
      * intros persona w1 phone user_message Hlookup _.
        exists (remap_persona persona). split; [reflexivity |].
        apply remap_persona_type.
        destruct (get_user_persona_sat env (fun _ => True) sender_phone w0 I)
          as (new & _ & _ & Hq).
        rewrite Hlookup in Hq. specialize (Hq persona eq_refl).
        destruct Hq as [-> | (page & user & Hpage & Huser & ->)]; [left; reflexivity |].
        apply user_persona_known. intros attr Hattr Hname.
        exact (Hknown w0 page user attr Hpage Huser Hattr Hname).
  - intros message_type sender_phone message value w w1 persona Hlookup.
    eapply sat_events, relay_message_sat.
    + intros ev Hev Hinv. congruence.
    + intros persona' w1' phone user_message Hlookup' _ _.
      rewrite Hlookup in Hlookup'. injection Hlookup' as <- _. reflexivity.
  - reflexivity.
Qed.

Lemma professor_directory_known :
  directory_personas_known (Fixtures.whatsapp (Fixtures.directory "professor")).
Proof.
  intros w page user attr Hpage Huser Hattr Hname. simpl in Hpage.
  destruct Hpage as [[= <-] | []]. simpl in Huser.
  destruct Huser as [<- | []]. simpl in Hattr.
  destruct Hattr as [<- | [<- | []]]; [discriminate Hname |].
  simpl. auto.
Qed.

Lemma forwarded_persona_is_remapped_witness :
  Forall forwards_persona_type
         (events_since []
            (snd (lambda_handler (Fixtures.whatsapp (Fixtures.directory "professor"))
                    Fixtures.no_repr
                    (Fixtures.sns_event [Fixtures.sns_record Fixtures.text_entry]) []))) /\
  Forall (fun ev => is_invocation ev = true ->
                    forwarded_persona ev = Some (PStr "teacher"))
         (events_since []
            (snd (relay_message (Fixtures.whatsapp (Fixtures.directory "professor"))
                    Fixtures.no_repr (PStr "text") (PStr Fixtures.sender)
                    Fixtures.text_message (PDict Fixtures.text_value) []))).
Proof.
  destruct (forwarded_persona_is_remapped
              (Fixtures.whatsapp (Fixtures.directory "professor")) Fixtures.no_repr)
    as (Hknown & Hremap & _).
  split.
  - apply Hknown. exact professor_directory_known.
  - apply (Hremap (PStr "text") (PStr Fixtures.sender) Fixtures.text_message
             (PDict Fixtures.text_value) [] [EvListUsers "us-east-1_octank"] "professor").
    reflexivity.
Defined.

(** The claim C8 as stated fails: a user whose persona attribute is
    [guest] is forwarded to the orchestrator as [guest]. *)
Lemma unknown_persona_is_forwarded :
  ~ Forall forwards_persona_type
      (events_since []
         (snd (lambda_handler (Fixtures.whatsapp (Fixtures.directory "guest"))
                 Fixtures.no_repr
                 (Fixtures.sns_event [Fixtures.sns_record Fixtures.text_entry]) []))).
Proof.
  intros H.
  assert (Hlog : map forwarded_persona
                   (events_since []
                      (snd (lambda_handler (Fixtures.whatsapp (Fixtures.directory "guest"))
                              Fixtures.no_repr
                              (Fixtures.sns_event [Fixtures.sns_record Fixtures.text_entry])
                              [])))
                 = [None; None; None; None; Some (PStr "guest")])
    by (vm_compute; reflexivity).
  revert H Hlog.
  generalize (events_since []
                (snd (lambda_handler (Fixtures.whatsapp (Fixtures.directory "guest"))
                        Fixtures.no_repr
                        (Fixtures.sns_event [Fixtures.sns_record Fixtures.text_entry]) []))).
  intros log H Hlog.
  destruct log as [| e1 [| e2 [| e3 [| e4 [| e5 [| e6 log]]]]]]; try discriminate Hlog.
  injection Hlog as _ _ _ _ H5.
  inversion_clear H as [| ? ? _ H']. inversion_clear H' as [| ? ? _ H].
  inversion_clear H as [| ? ? _ H']. inversion_clear H' as [| ? ? _ H].
  inversion_clear H as [| ? ? H' _].
  destruct e5; try discriminate H5. simpl in H5, H'.
  destruct H' as (persona & Hpersona & Hin).
  rewrite H5 in Hpersona. injection Hpersona as <-.
  simpl in Hin. intuition discriminate.
Qed.

(** *** Status updates and empty envelopes *)

Lemma envelope_value_pure (env : Env) (record : pyval) (w : World) :
  snd (envelope_value env record w) = w.
Proof.
  unfold envelope_value, bind, lift, ret.
  repeat match goal with
         | |- context [match ?r with Return _ => _ | Raise _ => _ end] =>
             destruct r; simpl; try reflexivity
         | |- context [if ?b then _ else _] => destruct b; simpl; try reflexivity
         end.
Qed.

(** C6. A record whose envelope value has a [statuses] key, or has no
    [messages] entry, or an empty one, is passed over: processing it
    returns with nothing logged (no read receipt, no directory lookup,
    no invocation), and the loop goes on with the records that follow. *)
Theorem status_records_are_skipped (env : Env) (py_repr : pyval -> string)
    (record : pyval) (value : gmap string pyval) (rest : list pyval) (w : World) :
  fst (envelope_value env record w) = Return (Some (PDict value)) ->
  is_Some (value !! "statuses") \/
  value !! "messages" = None \/
  value !! "messages" = Some (PList []) ->
  process_record env py_repr record w = (Return tt, w) /\
  process_records env py_repr (record :: rest) w = process_records env py_repr rest w.
Proof.
  intros Henvelope Hskip.
  assert (Hrecord : process_record env py_repr record w = (Return tt, w)).
  { unfold process_record. unfold bind at 1.
    pose proof (envelope_value_pure env record w) as Hpure.
    destruct (envelope_value env record w) as [r w']. simpl in *. subst r w'.
    unfold bind, lift, contains, get.
    destruct (bool_decide (is_Some (value !! "statuses"))) eqn:Hstatus; [reflexivity |].
    apply bool_decide_eq_false in Hstatus.
    destruct Hskip as [Hs | [-> | ->]]; [contradiction | reflexivity | reflexivity]. }
  split; [exact Hrecord |].
  simpl. unfold bind at 1. rewrite Hrecord. reflexivity.
Qed.

Lemma status_records_are_skipped_witness :
  process_record (Fixtures.whatsapp (Fixtures.directory "student")) Fixtures.no_repr
                 (Fixtures.sns_record Fixtures.status_entry) [] = (Return tt, []) /\
  process_records (Fixtures.whatsapp (Fixtures.directory "student")) Fixtures.no_repr
                  [Fixtures.sns_record Fixtures.status_entry;
                   Fixtures.sns_record Fixtures.text_entry] [] =
  process_records (Fixtures.whatsapp (Fixtures.directory "student")) Fixtures.no_repr
                  [Fixtures.sns_record Fixtures.text_entry] [].
Proof.
  apply (status_records_are_skipped (Fixtures.whatsapp (Fixtures.directory "student"))
           Fixtures.no_repr (Fixtures.sns_record Fixtures.status_entry)
           Fixtures.status_value).
  - vm_compute. reflexivity.
  - left. vm_compute. eexists. reflexivity.
Defined.

(** *** The read receipt *)



(** On the fixture the receipt is issued, for the message id and from
    the configured number, and its failure is swallowed. *)
Example failed_receipt_was_issued :
  markAsRead (Fixtures.whatsapp (Fixtures.directory "student")) (PStr "wamid.1") []
  = (Return None,
     [ EvSocialClient;
       EvSendWhatsappMessage "phone-number-id-0001" "v20.0"
         (<["messaging_product" := PStr "whatsapp"]>
          (<["message_id" := PStr "wamid.1"]>
           (<["status" := PStr "read"]> ∅))) ]).
Proof. vm_compute. reflexivity. Qed.

(** The fixture's message is relayed although its receipt failed:
    scenario A of the specification, with the receipt throttled. *)
Example relayed_after_failed_receipt :
  let run := lambda_handler (Fixtures.whatsapp (Fixtures.directory "student"))
               Fixtures.no_repr
               (Fixtures.sns_event [Fixtures.sns_record Fixtures.status_entry;
                                    Fixtures.sns_record Fixtures.text_entry]) [] in
  fst run = Return Success /\
  map is_receipt (snd run) = [true; true; false; false; false] /\
  map forwarded_persona (snd run) = [None; None; None; None; Some (PStr "student")] /\
  map (fun ev => match ev with
                 | EvInvokeAgentRuntime _ session _ => session
                 | _ => ""
                 end) (snd run)
  = [""; ""; ""; ""; "whatsapp-5511999990001-2026-11-04-00-ee9351a9"].
Proof. vm_compute. repeat split; reflexivity. Qed.

End LambdaSpec.

(** * Further properties of the code *)

(** ** The orchestration entrypoint, continued *)

Module OrchestratorMoreSpec.
Import Orchestrator OrchestratorMore.

Lemma bind_returns {W A B} (c : M W A) (k : A -> M W B) (w w' : W) (b : B) :
  bind c k w = (Return b, w') ->
  exists a w1, c w = (Return a, w1) /\ k a w1 = (Return b, w').
Proof.
  unfold bind. destruct (c w) as [[a | e] w1]; [| discriminate].
  intros H. exists a, w1. split; [reflexivity | exact H].
Qed.

(** X1. A memory id that did not come from the payload is left in the
    process cache, and a non-empty cached id answers every later request
    without any lookup. *)
Theorem memory_id_is_cached (env : Env) (payload : gmap string pyval)
    (w w1 : World) (r : pyval) :
  payload !! "memory_id" = None ->
  get_memory_id env payload w = (Return r, w1) ->
  exists v,
    r = PStr v /\ memory_id_cache w1 = Some v /\
    (v <> "" ->
     forall (payload' : gmap string pyval) (w2 : World),
       payload' !! "memory_id" = None ->
       memory_id_cache w2 = Some v ->
       get_memory_id env payload' w2 = (Return (PStr v), w2)).
Proof.
  intros Hpayload Hget.
  assert (Hhit : forall v, v <> "" ->
            forall (payload' : gmap string pyval) (w2 : World),
              payload' !! "memory_id" = None ->
              memory_id_cache w2 = Some v ->
              get_memory_id env payload' w2 = (Return (PStr v), w2)).
  { intros v Hv payload' w2 Hp Hc. unfold get_memory_id. rewrite Hp.
    unfold bind, get_memory_id_cache. rewrite Hc. simpl.
    destruct (String.eqb_spec v ""); [contradiction | reflexivity]. }
  unfold get_memory_id in Hget. rewrite Hpayload in Hget.
  unfold bind at 1 in Hget. unfold get_memory_id_cache in Hget.
  destruct (str_truthy (memory_id_cache w)) eqn:Hcache.
  - destruct (memory_id_cache w) as [c |] eqn:Hc; [| discriminate].
    injection Hget as <- <-. exists c. repeat split; [exact Hc | apply Hhit].
  - unfold bind at 1 in Hget. unfold try_except in Hget. unfold bind at 1 in Hget.
    destruct (get_memory_id_from_ssm env default_memory_param w) as [[v | e] w'].
    + simpl in Hget. injection Hget as <- <-. exists v. repeat split. apply Hhit.
    + simpl in Hget.
      destruct (environ env !! "MEMORY_ID") as [m |] eqn:Henv; simpl in Hget;
        [| discriminate].
      destruct (String.eqb m ""); simpl in Hget; [discriminate |].
      injection Hget as <- <-. exists m. repeat split. apply Hhit.
Qed.

Lemma memory_id_is_cached_witness :
  exists v,
    PStr "OctankEduMultiAgentMemory-ABC123" = PStr v /\
    memory_id_cache (snd (get_memory_id Fixtures.gateway_down Fixtures.tasks_request
                                        Fixtures.fresh_process)) = Some v /\
    (v <> "" ->
     forall (payload' : gmap string pyval) (w2 : World),
       payload' !! "memory_id" = None ->
       memory_id_cache w2 = Some v ->
       get_memory_id Fixtures.gateway_down payload' w2 = (Return (PStr v), w2)).
Proof.
  apply (memory_id_is_cached Fixtures.gateway_down Fixtures.tasks_request
           Fixtures.fresh_process).
  - vm_compute. reflexivity.
  - vm_compute. reflexivity.
Defined.

(** *** Attempts and the gateway session *)

Ltac run_create :=
  unfold create_orchestrator_agent_runtime, with_mcp_client, try_except,
    orchestrate_with_gateway, run_orchestrator, bind, call;
  simpl;
  repeat match goal with
         | |- context [match ?r with Return _ => _ | Raise _ => _ end] =>
             let H := fresh "Hcall" in destruct r eqn:H; simpl
         | |- context [if ?b then _ else _] =>
             let H := fresh "Hif" in destruct b eqn:H; simpl
         end.

Lemma since_emitted (w : World) (l new : list Event) (c : option string)
    (m : option pyval) :
  l = log w ++ new ->
  events_since w {| log := l; memory_id_cache := c; memory_client_cache := m |} = new.
Proof.
  intros ->. unfold events_since. simpl. apply drop_app_length.
Qed.

Ltac since_w :=
  match goal with
  | |- context [events_since ?w {| log := ?l; memory_id_cache := ?c;
                                   memory_client_cache := ?m |}] =>
      erewrite (since_emitted w l _ c m)
        by (rewrite <- ?app_assoc; simpl; reflexivity)
  end.

(** X2. Whatever the outside world does, one call builds at most two
    orchestrators. The model is called at most once per orchestrator:
    every call is made on the orchestrator built just before it, with
    that orchestrator's tools and the contextualized query, and no
    orchestrator is called twice. Every orchestrator has the six local
    tools, ahead of any remote one. *)
Theorem at_most_two_attempts (env : Env) (py_repr : pyval -> string)
    (query persona persona_id whatsapp_phone_number : pyval) (w : World) :
  let new := events_since w
               (snd (create_orchestrator_agent_runtime env py_repr query persona
                       persona_id whatsapp_phone_number w)) in
  let prompt := contextualized_query py_repr query persona persona_id
                                     whatsapp_phone_number in
  (length (attempts new) <= 2)%nat /\
  (length (model_calls new) <= length (attempts new))%nat /\
  called_at_most_once (agent_events new) /\
  Forall (fun called => snd called = prompt) (model_calls new) /\
  Forall extends_base_tools (attempts new).
Proof.
  assert (Hbase : extends_base_tools base_tools).
  { exists []. reflexivity. }
  assert (Hnone : events_since w w = []).
  { unfold events_since. apply drop_all. }
  cbv zeta.
  run_create; rewrite ?Hnone; unfold emit; simpl; try since_w; simpl;
    (split; [lia | split; [lia |]]);
    (split; [repeat split |]);
    (split; [repeat (apply List.Forall_cons; [reflexivity |]); apply List.Forall_nil |]);
    repeat (apply List.Forall_cons; [first [exact Hbase | eexists; reflexivity] |]);
    apply List.Forall_nil.
Qed.

(** X3. When the orchestrator over the local and the remote tools
    answers, its response is what the call returns: it is the only
    orchestrator built, the model is called once, and no orchestrator
    over the local tools alone is tried. *)
Theorem first_attempt_suffices (env : Env) (py_repr : pyval -> string)
    (query persona persona_id whatsapp_phone_number : pyval) (w w2 : World)
    (mcp_tools : list string) (response : AgentResult) :
  persona_valid persona = true ->
  sliceable query = true ->
  mcp_enter env (log w) = Return tt ->
  let prompt := contextualized_query py_repr query persona persona_id
                                     whatsapp_phone_number in
  let all_tools := base_tools ++ map McpTool mcp_tools in
  mcp_list_tools env (log (emit EvMcpEnter w)) = Return mcp_tools ->
  run_orchestrator env all_tools prompt (emit EvMcpListTools (emit EvMcpEnter w))
  = (Return response, w2) ->
  let final := emit EvMcpExit w2 in
  create_orchestrator_agent_runtime env py_repr query persona persona_id
                                    whatsapp_phone_number w
  = (Return response, final) /\
  attempts (events_since w final) = [all_tools] /\
  model_calls (events_since w final) = [(all_tools, prompt)].
Proof.
  intros Hpersona Hquery Henter prompt all_tools Hlist Hrun final.
  split.
  - unfold create_orchestrator_agent_runtime. rewrite Hpersona, Hquery. simpl.
    fold prompt. unfold with_mcp_client, bind at 1, call at 1. rewrite Henter.
    unfold try_except, orchestrate_with_gateway, bind at 1, call at 1.
    rewrite Hlist. fold all_tools. rewrite Hrun. reflexivity.
  - assert (Hlog : log final =
              log w ++ [EvMcpEnter; EvMcpListTools; EvAgent all_tools;
                        EvAgentCall all_tools prompt; EvMcpExit]).
    { unfold final. simpl.
      pose proof (OrchestratorSpec.run_orchestrator_log env all_tools prompt
                    (emit EvMcpListTools (emit EvMcpEnter w))) as Hl.
      rewrite Hrun in Hl. simpl in Hl. rewrite Hl.
      unfold run_orchestrator, bind, call in Hrun. simpl in Hrun.
      destruct (agent_new env all_tools ((log w ++ [EvMcpEnter]) ++ [EvMcpListTools]));
        [| discriminate].
      simpl. rewrite <- !app_assoc. reflexivity. }
    rewrite (OrchestratorSpec.events_since_app _ _ _ Hlog). split; reflexivity.
Qed.

Lemma first_attempt_suffices_witness :
  let prompt := contextualized_query Fixtures.no_repr (PStr "What are my pending tasks?")
                  (PStr "student") (PStr "STU-001") PNone in
  let all_tools := base_tools ++ [McpTool "send_whatsapp_message"] in
  exists final,
    create_orchestrator_agent_runtime Fixtures.no_memory_id Fixtures.no_repr
      (PStr "What are my pending tasks?") (PStr "student") (PStr "STU-001") PNone
      Fixtures.fresh_process
    = (Return {| message := None; as_str := prompt |}, final) /\
    attempts (events_since Fixtures.fresh_process final) = [all_tools] /\
    model_calls (events_since Fixtures.fresh_process final) = [(all_tools, prompt)].
Proof.
  cbv zeta. eexists.
  eapply (first_attempt_suffices Fixtures.no_memory_id Fixtures.no_repr
            (PStr "What are my pending tasks?") (PStr "student") (PStr "STU-001") PNone
            Fixtures.fresh_process _ ["send_whatsapp_message"]);
    reflexivity.
Defined.

(** X4. The gateway session is always closed: once [__enter__] has
    succeeded, everything the call does lies between that and one
    [__exit__], the last event, whether the call returns or raises. When
    [__enter__] itself raises, its exception leaves the call and nothing
    else is tried, the local tools included. *)
Theorem gateway_session_is_closed (env : Env) (py_repr : pyval -> string)
    (query persona persona_id whatsapp_phone_number : pyval) (w : World) :
  persona_valid persona = true ->
  sliceable query = true ->
  (mcp_enter env (log w) = Return tt ->
   exists inside,
     events_since w
       (snd (create_orchestrator_agent_runtime env py_repr query persona persona_id
               whatsapp_phone_number w))
     = EvMcpEnter :: inside ++ [EvMcpExit] /\
     forallb (fun ev => negb (is_bracket ev)) inside = true) /\
  (forall e, mcp_enter env (log w) = Raise e ->
     create_orchestrator_agent_runtime env py_repr query persona persona_id
                                       whatsapp_phone_number w
     = (Raise e, emit EvMcpEnter w)).
Proof.
  intros Hpersona Hquery. split.
  - intros Henter.
    unfold create_orchestrator_agent_runtime. rewrite Hpersona, Hquery. simpl.
    unfold with_mcp_client, bind at 1, call at 1. rewrite Henter.
    unfold try_except, orchestrate_with_gateway, run_orchestrator, bind, call. simpl.
    repeat match goal with
           | |- context [match ?r with Return _ => _ | Raise _ => _ end] =>
               destruct r; simpl
           end;
      unfold emit; simpl; since_w;
      match goal with
      | |- exists inside, ?l = _ :: inside ++ [_] /\ _ =>
          exists (removelast (tail l))
      end;
      split; reflexivity.
  - intros e Henter.
    unfold create_orchestrator_agent_runtime. rewrite Hpersona, Hquery. simpl.
    unfold with_mcp_client, bind, call. rewrite Henter. reflexivity.
Qed.

Lemma gateway_session_is_closed_witness :
  exists inside,
    events_since Fixtures.fresh_process
      (snd (create_orchestrator_agent_runtime Fixtures.gateway_down Fixtures.no_repr
              (PStr "What are my pending tasks?") (PStr "student") (PStr "STU-001") PNone
              Fixtures.fresh_process))
    = EvMcpEnter :: inside ++ [EvMcpExit] /\
    forallb (fun ev => negb (is_bracket ev)) inside = true.
Proof.
  apply (proj1 (gateway_session_is_closed Fixtures.gateway_down Fixtures.no_repr
                  (PStr "What are my pending tasks?") (PStr "student") (PStr "STU-001")
                  PNone Fixtures.fresh_process eq_refl eq_refl)).
  reflexivity.
Defined.

(** *** What the entrypoint logs *)

Section Logs.

Context {A B : Type}.
Variable P : Event -> Prop.

Lemma logs_pure (Q : result A -> World -> Prop) (c : M World A) (w : World) :
  snd (c w) = w -> Q (fst (c w)) w -> logs_only P Q c w.
Proof.
  intros Hw H. exists []. rewrite Hw, app_nil_r.
  split; [reflexivity |]. split; [constructor | exact H].
Qed.

Lemma logs_quiet (Q : result A -> World -> Prop) (c : M World A) (w : World) :
  log (snd (c w)) = log w -> Q (fst (c w)) (snd (c w)) -> logs_only P Q c w.
Proof.
  intros Hw H. exists []. rewrite Hw, app_nil_r.
  split; [reflexivity |]. split; [constructor | exact H].
Qed.

Lemma logs_weaken (P' : Event -> Prop) (Q Q' : result A -> World -> Prop)
    (c : M World A) (w : World) :
  (forall ev, P' ev -> P ev) ->
  (forall r w', Q r w' -> Q' r w') ->
  logs_only P' Q c w -> logs_only P Q' c w.
Proof.
  intros HP HQ (new & Hlog & Hnew & Hq). exists new.
  split; [exact Hlog |]. split; [| apply HQ, Hq].
  eapply Forall_impl; [exact Hnew | exact HP].
Qed.

Lemma logs_call (Q : result A -> World -> Prop) (ev : Event)
    (oracle : list Event -> result A) (w : World) :
  P ev -> Q (oracle (log w)) (emit ev w) -> logs_only P Q (call ev oracle) w.
Proof.
  intros Hev H. exists [ev]. simpl.
  split; [reflexivity |]. split; [repeat constructor; exact Hev | exact H].
Qed.

Lemma logs_bind (Q : result A -> World -> Prop) (R : result B -> World -> Prop)
    (c : M World A) (k : A -> M World B) (w : World) :
  logs_only P Q c w ->
  (forall e w', c w = (Raise e, w') -> Q (Raise e) w' -> R (Raise e) w') ->
  (forall a w', c w = (Return a, w') -> Q (Return a) w' -> logs_only P R (k a) w') ->
  logs_only P R (bind c k) w.
Proof.
  intros (new & Hlog & Hnew & Hq) Hraise Hk. unfold logs_only, bind.
  destruct (c w) as [[a | e] w'] eqn:Hc; simpl in *.
  - destruct (Hk a w' eq_refl Hq) as (new' & Hlog' & Hnew' & Hr).
    exists (new ++ new'). rewrite Hlog', Hlog, app_assoc.
    split; [reflexivity |]. split; [apply Forall_app; split; assumption | exact Hr].
  - exists new. split; [exact Hlog |]. split; [exact Hnew |].
    apply (Hraise e w' eq_refl Hq).
Qed.

End Logs.

(** Neither cache is touched by [create_orchestrator_agent_runtime],
    and it logs gateway, orchestrator and model events only. *)
Lemma create_orchestrator_logs (env : Env) (py_repr : pyval -> string)
    (query persona persona_id whatsapp_phone_number : pyval) (w : World) :
  logs_only (fun ev => is_orchestration ev = true)
            (fun r w' => memory_id_cache w' = memory_id_cache w /\
                         memory_client_cache w' = memory_client_cache w /\
                         (persona_valid persona = false -> is_raise r = true /\ w' = w))
            (create_orchestrator_agent_runtime env py_repr query persona persona_id
                                               whatsapp_phone_number) w.
Proof.
  unfold logs_only.
  run_create; unfold emit; simpl;
    eexists;
    (split; [rewrite <- ?app_assoc; simpl;
             first [reflexivity | symmetry; apply app_nil_r] |]);
    (split; [repeat constructor |]);
    (split; [reflexivity | split; [reflexivity |]]);
    intros Hinvalid; rewrite Hinvalid in *; try discriminate;
    split; reflexivity.
Qed.

(** The memory id resolution logs configuration lookups only and
    leaves the cached memory client alone. *)
Lemma get_memory_id_logs (env : Env) (payload : gmap string pyval) (w : World) :
  logs_only (fun ev => is_lookup ev = true)
            (fun _ w' => memory_client_cache w' = memory_client_cache w)
            (get_memory_id env payload) w.
Proof.
  unfold logs_only, get_memory_id.
  destruct (payload !! "memory_id").
  { exists []. simpl. rewrite app_nil_r.
    split; [reflexivity | split; [constructor | reflexivity]]. }
  unfold bind, try_except, get_memory_id_cache, get_memory_id_from_ssm, bind,
    call, set_memory_id_cache, ret, raise, emit. simpl.
  destruct (str_truthy (memory_id_cache w)).
  { exists []. simpl. rewrite app_nil_r.
    split; [reflexivity | split; [constructor | reflexivity]]. }
  destruct (ssm_client env (log w)); simpl.
  - destruct (ssm_get_parameter env default_memory_param (log w ++ [EvSsmClient]))
      as [v | e]; simpl.
    + exists [EvSsmClient; EvSsmGetParameter default_memory_param].
      rewrite <- app_assoc.
      split; [reflexivity | split; [repeat constructor | reflexivity]].
    + destruct e; simpl;
        destruct (str_truthy (environ env !! "MEMORY_ID")); simpl;
        exists [EvSsmClient; EvSsmGetParameter default_memory_param];
        rewrite <- app_assoc;
        (split; [reflexivity | split; [repeat constructor | reflexivity]]).
  - destruct (str_truthy (environ env !! "MEMORY_ID")); simpl;
      exists [EvSsmClient];
      (split; [reflexivity | split; [repeat constructor | reflexivity]]).
Qed.

Lemma logs_only_events {A} (P : Event -> Prop) (Q : result A -> World -> Prop)
    (c : M World A) (w : World) :
  logs_only P Q c w ->
  Forall P (events_since w (snd (c w))) /\ Q (fst (c w)) (snd (c w)).
Proof.
  intros (new & Hlog & Hnew & Hq).
  rewrite (OrchestratorSpec.events_since_app _ _ _ Hlog). split; assumption.
Qed.

(** How [invoke] runs. Beside configuration lookups, the memory
    configuration and the session manager, it logs a memory client only
    when none is cached, and gateway, orchestrator or model events only
    when the persona is valid; a cached memory client stays cached; and
    with an invalid persona it raises. *)
Lemma invoke_logs (env : Env) (py_repr : pyval -> string)
    (payload : gmap string pyval) (context_session_id : pyval) (w : World)
    (P : Event -> Prop) :
  (forall ev, is_lookup ev = true -> P ev) ->
  (forall cfg, P (EvMemoryConfig cfg)) ->
  (forall cfg region, P (EvSessionManager cfg region)) ->
  (memory_client_cache w = None -> forall region, P (EvMemoryClient region)) ->
  (persona_valid (dict_get payload "persona") = true ->
   forall ev, is_orchestration ev = true -> P ev) ->
  logs_only P
    (fun r w' =>
       (forall c, memory_client_cache w = Some c -> memory_client_cache w' = Some c) /\
       (persona_valid (dict_get payload "persona") = false -> is_raise r = true))
    (invoke env py_repr payload context_session_id) w.
Proof.
  intros Hlookup Hconfig Hmanager Hclient Hvalid.
  set (kept := fun w' : World =>
                 forall c, memory_client_cache w = Some c ->
                           memory_client_cache w' = Some c).
  assert (Hquiet : forall (e : exn),
            logs_only P
              (fun (r : result (gmap string pyval)) w' =>
                 kept w' /\
                 (persona_valid (dict_get payload "persona") = false -> is_raise r = true))
              (raise e) w).
  { intros e. apply logs_pure; [reflexivity |]. simpl. split; [intros c Hc; exact Hc |].
    reflexivity. }
  unfold invoke.
  destruct (truthy (py_or _ _)); simpl; [| apply Hquiet].
  destruct (truthy (dict_get payload "persona")); simpl; [| apply Hquiet].
  destruct (truthy (dict_get payload "user_id")); simpl; [| apply Hquiet].
  destruct (truthy context_session_id); simpl; [| apply Hquiet].
  clear Hquiet.
  eapply (logs_bind _ (fun _ w' => kept w')).
  { apply logs_call; [apply Hlookup; reflexivity |]. intros c Hc. exact Hc. }
  { intros e w' _ Hk. split; [exact Hk | reflexivity]. }
  intros region w1 _ Hk1.
  eapply (logs_bind _ (fun _ w' => kept w')).
  { eapply logs_weaken; [exact Hlookup | | apply get_memory_id_logs].
    intros r w' Hq c Hc. simpl in Hq. rewrite Hq. apply Hk1, Hc. }
  { intros e w' _ Hk. split; [exact Hk | reflexivity]. }
  intros memory_id w2 _ Hk2.
  eapply (logs_bind _ (fun r w' => kept w' /\ r = Return (memory_client_cache w'))).
  { apply logs_pure; [reflexivity |]. split; [exact Hk2 | reflexivity]. }
  { intros e w' _ [Hk _]. split; [exact Hk | reflexivity]. }
  intros client w3 _ [Hk3 [= ->]].
  eapply (logs_bind _ (fun _ w' => kept w')).
  { destruct (memory_client_cache w3) as [c3 |] eqn:Hc3.
    - apply logs_pure; [reflexivity | exact Hk3].
    - assert (Hnone : memory_client_cache w = None).
      { destruct (memory_client_cache w) as [c |] eqn:Hc; [| reflexivity].
        specialize (Hk3 c eq_refl). congruence. }
      eapply (logs_bind _ (fun _ w' => kept w')).
      + apply logs_call; [apply Hclient; exact Hnone |].
        intros c Hc. congruence.
      + intros e w' _ Hk. exact Hk.
      + intros _ w4 _ Hk4. apply logs_quiet; [reflexivity |].
        intros c Hc. congruence. }
  { intros e w' _ Hk. split; [exact Hk | reflexivity]. }
  intros _ w4 _ Hk4.
  eapply (logs_bind _ (fun _ w' => kept w')).
  { apply logs_call; [apply Hconfig |]. intros c Hc. apply Hk4, Hc. }
  { intros e w' _ Hk. split; [exact Hk | reflexivity]. }
  intros _ w5 _ Hk5.
  eapply (logs_bind _ (fun _ w' => kept w')).
  { apply logs_call; [apply Hmanager |]. intros c Hc. apply Hk5, Hc. }
  { intros e w' _ Hk. split; [exact Hk | reflexivity]. }
  intros _ w6 _ Hk6.
  eapply (logs_bind _ (fun r w' =>
            kept w' /\
            (persona_valid (dict_get payload "persona") = false -> is_raise r = true))).
  { destruct (create_orchestrator_logs env py_repr
                (py_or (dict_get payload "inputText") (dict_get payload "prompt"))
                (dict_get payload "persona") (dict_get payload "persona_id")
                (dict_get payload "whatsapp_phone_number") w6)
      as (new & Hlog & Hnew & _ & Hcache & Hinvalid).
    destruct (persona_valid (dict_get payload "persona")) eqn:Hp.
    - exists new. split; [exact Hlog |]. split.
      + eapply Forall_impl; [exact Hnew | apply Hvalid; reflexivity].
      + split; [| discriminate]. intros c Hc. rewrite Hcache. apply Hk6, Hc.
    - destruct (Hinvalid eq_refl) as [Hr Hw]. exists [].
      rewrite Hw, app_nil_r. split; [reflexivity |]. split; [constructor |].
      split; [exact Hk6 | intros _; exact Hr]. }
  { intros e w' _ [Hk _]. split; [exact Hk | reflexivity]. }
  intros result w7 _ [Hk7 Hr]. apply logs_pure; [reflexivity |].
  split; [exact Hk7 |]. intros Hp. specialize (Hr Hp). discriminate.
Qed.

(** X5. A persona other than student, teacher or administrator never
    reaches the gateway or a model: [invoke] raises, and nothing it has
    logged is a gateway, orchestrator or model event. *)
Theorem unknown_persona_is_rejected (env : Env) (py_repr : pyval -> string)
    (payload : gmap string pyval) (context_session_id : pyval) (w : World) :
  persona_valid (dict_get payload "persona") = false ->
  let run := invoke env py_repr payload context_session_id w in
  is_raise (fst run) = true /\
  Forall (fun ev => is_orchestration ev = false) (events_since w (snd run)).
Proof.
  intros Hinvalid run.
  destruct (logs_only_events _ _ _ _
              (invoke_logs env py_repr payload context_session_id w
                 (fun ev => is_orchestration ev = false)
                 ltac:(intros ev; destruct ev; simpl; congruence)
                 ltac:(reflexivity) ltac:(reflexivity)
                 ltac:(reflexivity)
                 ltac:(intros Hvalid; congruence)))
    as [Hevents [_ Hraise]].
  split; [apply Hraise, Hinvalid | exact Hevents].
Qed.

Lemma unknown_persona_is_rejected_witness :
  let run := invoke Fixtures.gateway_down Fixtures.no_repr
               (<["persona" := PStr "guest"]> Fixtures.tasks_request)
               (PStr "whatsapp-5511999990001-2026-11-04-00-ee9351a9")
               Fixtures.fresh_process in
  is_raise (fst run) = true /\
  Forall (fun ev => is_orchestration ev = false)
         (events_since Fixtures.fresh_process (snd run)).
Proof.
  apply (unknown_persona_is_rejected Fixtures.gateway_down Fixtures.no_repr
           (<["persona" := PStr "guest"]> Fixtures.tasks_request)).
  vm_compute. reflexivity.
Defined.

(** X6. The memory client is built once per process: a request that
    finds one cached builds none and leaves it cached, and a request
    that returns a response leaves one cached. *)
Theorem memory_client_is_reused (env : Env) (py_repr : pyval -> string)
    (payload : gmap string pyval) (context_session_id : pyval) (w : World) :
  let run := invoke env py_repr payload context_session_id w in
  (forall client, memory_client_cache w = Some client ->
     Forall (fun ev => is_memory_client ev = false) (events_since w (snd run)) /\
     memory_client_cache (snd run) = Some client) /\
  (is_raise (fst run) = false -> is_Some (memory_client_cache (snd run))).
Proof.
  intros run. split.
  - intros client Hcached.
    destruct (logs_only_events _ _ _ _
                (invoke_logs env py_repr payload context_session_id w
                   (fun ev => is_memory_client ev = false)
                   ltac:(intros ev; destruct ev; simpl; congruence)
                   ltac:(reflexivity) ltac:(reflexivity)
                   ltac:(intros Hnone; congruence)
                   ltac:(intros _ ev; destruct ev; simpl; congruence)))
      as [Hevents [Hkept _]].
    split; [exact Hevents | apply Hkept, Hcached].
  - subst run.
    destruct (invoke env py_repr payload context_session_id w)
      as [[response | e] w'] eqn:H; [intros _; simpl | discriminate].
    revert H. unfold invoke.
    destruct (truthy (py_or _ _)); simpl; [| discriminate].
    destruct (truthy (dict_get payload "persona")); simpl; [| discriminate].
    destruct (truthy (dict_get payload "user_id")); simpl; [| discriminate].
    destruct (truthy context_session_id); simpl; [| discriminate].
    intros H.
    apply bind_returns in H as (region & w1 & _ & H).
    apply bind_returns in H as (memory_id & w2 & _ & H).
    apply bind_returns in H as (client & w3 & Hread & H).
    apply bind_returns in H as (done & w4 & Hclient & H).
    apply bind_returns in H as (configured & w5 & Hconfig & H).
    apply bind_returns in H as (managed & w6 & Hmanager & H).
    apply bind_returns in H as (result & w7 & Hcreate & H).
    injection H as _ <-.
    destruct (create_orchestrator_logs env py_repr
                (py_or (dict_get payload "inputText") (dict_get payload "prompt"))
                (dict_get payload "persona") (dict_get payload "persona_id")
                (dict_get payload "whatsapp_phone_number") w6)
      as (new & _ & _ & _ & Hcache & _).
    rewrite Hcreate in Hcache. simpl in Hcache. rewrite Hcache.
    unfold call in Hmanager, Hconfig.
    injection Hmanager as _ <-. injection Hconfig as _ <-. simpl.
    injection Hread as <- <-.
    destruct (memory_client_cache w2) as [c |] eqn:Hc.
    + injection Hclient as _ <-. rewrite Hc. eexists. reflexivity.
    + apply bind_returns in Hclient as (built & w8 & _ & Hset).
      injection Hset as _ <-. simpl. eexists. reflexivity.
Qed.

Lemma memory_client_is_reused_witness :
  let warm := {| log := []; memory_id_cache := None;
                 memory_client_cache := Some (PStr "us-east-1") |} in
  let run := invoke Fixtures.gateway_down Fixtures.no_repr Fixtures.tasks_request
               (PStr "whatsapp-5511999990001-2026-11-04-00-ee9351a9") warm in
  Forall (fun ev => is_memory_client ev = false) (events_since warm (snd run)) /\
  memory_client_cache (snd run) = Some (PStr "us-east-1").
Proof.
  apply (proj1 (memory_client_is_reused Fixtures.gateway_down Fixtures.no_repr
                  Fixtures.tasks_request
                  (PStr "whatsapp-5511999990001-2026-11-04-00-ee9351a9")
                  {| log := []; memory_id_cache := None;
                     memory_client_cache := Some (PStr "us-east-1") |})).
  reflexivity.
Defined.

(** X7. A response is returned only to a request that names one of the
    three personas, has a message and a user id, and comes with a
    session id; the response carries that session id and that persona
    with the orchestrator's result. *)
Theorem response_echoes_request (env : Env) (py_repr : pyval -> string)
    (payload : gmap string pyval) (context_session_id : pyval) (w w' : World)
    (response : gmap string pyval) :
  invoke env py_repr payload context_session_id w = (Return response, w') ->
  persona_valid (dict_get payload "persona") = true /\
  truthy (py_or (dict_get payload "inputText") (dict_get payload "prompt")) = true /\
  truthy (dict_get payload "user_id") = true /\
  truthy context_session_id = true /\
  response !! "session_id" = Some context_session_id /\
  response !! "persona" = Some (dict_get payload "persona") /\
  is_Some (response !! "result") /\
  dom response = {["result"; "session_id"; "persona"]}.
Proof.
  unfold invoke.
  destruct (truthy (py_or _ _)); simpl; [| discriminate].
  destruct (truthy (dict_get payload "persona")); simpl; [| discriminate].
  destruct (truthy (dict_get payload "user_id")); simpl; [| discriminate].
  destruct (truthy context_session_id); simpl; [| discriminate].
  intros H.
  apply bind_returns in H as (region & w1 & _ & H).
  apply bind_returns in H as (memory_id & w2 & _ & H).
  apply bind_returns in H as (client & w3 & _ & H).
  apply bind_returns in H as (done & w4 & _ & H).
  apply bind_returns in H as (configured & w5 & _ & H).
  apply bind_returns in H as (managed & w6 & _ & H).
  apply bind_returns in H as (result & w7 & Hcreate & H).
  injection H as <- <-.
  assert (Hvalid : persona_valid (dict_get payload "persona") = true).
  { destruct (persona_valid (dict_get payload "persona")) eqn:Hp; [reflexivity |].
    unfold create_orchestrator_agent_runtime in Hcreate. rewrite Hp in Hcreate.
    discriminate. }
  split; [exact Hvalid |]. do 3 (split; [reflexivity |]).
  split; [rewrite lookup_insert_ne by discriminate; apply lookup_insert_eq |].
  split; [do 2 (rewrite lookup_insert_ne by discriminate); apply lookup_insert_eq |].
  split; [eexists; apply lookup_insert_eq |].
  rewrite !dom_insert_L, dom_empty_L. set_solver.
Qed.

Lemma response_echoes_request_witness :
  let session := PStr "whatsapp-5511999990001-2026-11-04-00-ee9351a9" in
  let response : gmap string pyval :=
    <["result" := PStr "Suas tarefas pendentes"]>
    (<["session_id" := session]> (<["persona" := PStr "student"]> ∅)) in
  persona_valid (dict_get Fixtures.tasks_request "persona") = true /\
  truthy (py_or (dict_get Fixtures.tasks_request "inputText")
                (dict_get Fixtures.tasks_request "prompt")) = true /\
  truthy (dict_get Fixtures.tasks_request "user_id") = true /\
  truthy session = true /\
  response !! "session_id" = Some session /\
  response !! "persona" = Some (dict_get Fixtures.tasks_request "persona") /\
  is_Some (response !! "result") /\
  dom response = {["result"; "session_id"; "persona"]}.
Proof.
  cbv zeta.
  apply (response_echoes_request Fixtures.gateway_down Fixtures.no_repr
           Fixtures.tasks_request
           (PStr "whatsapp-5511999990001-2026-11-04-00-ee9351a9")
           Fixtures.fresh_process
           (snd (invoke Fixtures.gateway_down Fixtures.no_repr Fixtures.tasks_request
                        (PStr "whatsapp-5511999990001-2026-11-04-00-ee9351a9")
                        Fixtures.fresh_process))).
  vm_compute. reflexivity.
Defined.

End OrchestratorMoreSpec.

(** ** The inbound adapter, continued *)

Module LambdaMoreSpec.
Import LambdaSns LambdaMore.

(** *** Directory lookup *)

Lemma read_attributes_last_persona (attrs later : list Attribute) (persona : string) :
  Forall (fun attr => Name attr <> "custom:persona") later ->
  snd (read_attributes
         (attrs ++ {| Name := "custom:persona"; Value := persona |} :: later))
  = Some persona.
Proof.
  intros Hlater. unfold read_attributes. rewrite fold_left_app. simpl.
  rewrite (LambdaSpec.read_attributes_no_persona _ Hlater). reflexivity.
Qed.

Lemma scan_pages_passes (pool phone_number : string) (fetched : list Page) :
  well_formed fetched ->
  no_match phone_number fetched ->
  forall (rest : list (result Page)) (w : World),
    scan_pages pool phone_number (map Return fetched ++ rest) w
    = scan_pages pool phone_number rest (w ++ repeat (EvListUsers pool) (length fetched)).
Proof.
  induction fetched as [| page fetched IH]; intros Hwf Hno rest w; simpl.
  - rewrite app_nil_r. reflexivity.
  - inversion Hwf as [| ? ? [users Husers] Hwf']; subst.
    inversion Hno as [| ? ? Hpage Hno']; subst.
    unfold bind at 1. unfold call. rewrite Husers.
    unfold page_users in Hpage. rewrite Husers in Hpage. simpl in Hpage.
    rewrite <- (app_nil_r users), (LambdaSpec.scan_users_no_match _ _ _ Hpage). simpl.
    rewrite (IH Hwf' Hno' rest). rewrite <- app_assoc. reflexivity.
Qed.

(** X8. The lookup returns the persona of the first user that carries
    the phone number, and stops there: it has fetched the pages up to
    that user's page and none after it, whatever they hold. *)
Theorem first_match_decides (env : Env) (phone_number persona : string) (w : World)
    (fetched : list Page) (before after : list User) (user : User)
    (rest : list (result Page)) :
  list_users env w =
    map Return fetched ++ Return {| Users := Some (before ++ user :: after) |} :: rest ->
  well_formed fetched ->
  no_match (with_plus phone_number) fetched ->
  Forall (fun u => user_matches (with_plus phone_number) u = false) before ->
  user_matches (with_plus phone_number) user = true ->
  has_persona user persona ->
  persona <> "" ->
  get_user_persona_by_phone env (PStr phone_number) w
  = (Return persona,
     w ++ repeat (EvListUsers (USER_POOL_ID env)) (S (length fetched))).
Proof.
  intros Hpages Hwf Hno Hbefore Hmatch (attrs & later & Hattrs & Hlater) Hpersona.
  unfold get_user_persona_by_phone, try_except, bind at 1.
  rewrite Hpages, (scan_pages_passes _ _ _ Hwf Hno). simpl.
  unfold bind, call. simpl.
  rewrite (LambdaSpec.scan_users_no_match _ _ _ Hbefore). simpl. rewrite Hmatch.
  unfold user_persona_or_default. rewrite Hattrs. simpl.
  rewrite (read_attributes_last_persona _ _ _ Hlater). simpl.
  destruct (String.eqb_spec persona ""); [contradiction |]. simpl.
  rewrite <- app_assoc. simpl.
  replace (repeat (EvListUsers (USER_POOL_ID env)) (length fetched) ++
           [EvListUsers (USER_POOL_ID env)])
    with (EvListUsers (USER_POOL_ID env) ::
          repeat (EvListUsers (USER_POOL_ID env)) (length fetched)); [reflexivity |].
  clear. induction (length fetched) as [| n IH]; simpl; [reflexivity |].
  rewrite <- IH. reflexivity.
Qed.

Lemma first_match_decides_witness :
  get_user_persona_by_phone (Fixtures.whatsapp (Fixtures.directory "administrator"))
                            (PStr "5511999990001") []
  = (Return "administrator", [EvListUsers "us-east-1_octank"]).
Proof.
  apply (first_match_decides (Fixtures.whatsapp (Fixtures.directory "administrator"))
           "5511999990001" "administrator" [] [] [] []
           {| Username := Some "demo";
              Attributes := Some
                [ {| Name := "phone_number"; Value := Fixtures.sender |};
                  {| Name := "custom:persona"; Value := "administrator" |} ] |} []).
  - reflexivity.
  - constructor.
  - constructor.
  - constructor.
  - reflexivity.
  - exists [ {| Name := "phone_number"; Value := Fixtures.sender |} ], [].
    split; [reflexivity | constructor].
  - discriminate.
Defined.

(** *** What an invocation carries *)

Lemma normalized_phone_plain (raw : string) : plain (normalized_phone raw).
Proof.
  unfold plain. induction raw as [| c raw (Hplus & Hminus & Hspace)]; [repeat split |].
  simpl.
  destruct (Ascii.eqb_spec c "+") as [-> | Hc1]; simpl; [repeat split; assumption |].
  destruct (Ascii.eqb_spec c "-") as [-> | Hc2]; simpl; [repeat split; assumption |].
  destruct (Ascii.eqb_spec c " ") as [-> | Hc3]; simpl; [repeat split; assumption |].
  rewrite Hplus, Hminus, Hspace.
  destruct (Ascii.eqb_spec c "+"); [contradiction |].
  destruct (Ascii.eqb_spec c "-"); [contradiction |].
  destruct (Ascii.eqb_spec c " "); [contradiction |].
  repeat split.
Qed.

(** X9. Every invocation the handler makes, whatever the event, goes
    to the configured runtime with a payload of exactly five keys: the
    sender's number as received under [whatsapp_phone_number], and the
    same number without [+], [-] and spaces as both [user_id] and
    [persona_id]. *)
Theorem invocations_are_addressed (env : Env) (py_repr : pyval -> string)
    (event : pyval) (w : World) :
  Forall (addressed_to_sender env)
         (events_since w (snd (lambda_handler env py_repr event w))).
Proof.
  eapply LambdaSpec.sat_events, LambdaSpec.lambda_handler_sat.
  - intros ev Hev. destruct ev; try exact I. discriminate.
  - intros message_type sender_phone message value w0.
    apply LambdaSpec.relay_message_sat.
    + intros ev Hev. destruct ev; try exact I. discriminate.
    + intros persona w1 phone user_message _ ->. simpl.
      rewrite LambdaSpec.clean_phone_normalized.
      split; [reflexivity |]. split.
      { unfold orchestration_payload, payload_keys.
        rewrite !dom_insert_L, dom_empty_L. set_solver. }
      exists phone, (normalized_phone phone).
      split; [reflexivity |]. split; [apply normalized_phone_plain |].
      unfold orchestration_payload.
      split; [do 4 (rewrite lookup_insert_ne by discriminate); apply lookup_insert_eq |].
      split; [do 2 (rewrite lookup_insert_ne by discriminate); apply lookup_insert_eq |].
      do 3 (rewrite lookup_insert_ne by discriminate). apply lookup_insert_eq.
Qed.

(** *** The length of a session id *)

Lemma round_length (st : list Z) (kw : Z * Z) :
  length st = 8%nat -> length (Sha256.round st kw) = 8%nat.
Proof.
  destruct st as [| a [| b [| c [| d [| e [| f [| g [| h [| i st]]]]]]]]];
    simpl; intros H; try discriminate H. reflexivity.
Qed.

Lemma rounds_length (kws : list (Z * Z)) :
  forall st, length st = 8%nat -> length (fold_left Sha256.round kws st) = 8%nat.
Proof.
  induction kws as [| kw kws IH]; intros st H; simpl; [exact H |].
  apply IH, round_length, H.
Qed.

Lemma compress_length (h block : list Z) :
  length h = 8%nat -> length (Sha256.compress h block) = 8%nat.
Proof.
  intros H. unfold Sha256.compress.
  rewrite List.length_map, List.length_combine, rounds_length, H by exact H.
  reflexivity.
Qed.

Lemma compressions_length (blocks : list (list Z)) :
  forall h, length h = 8%nat -> length (fold_left Sha256.compress blocks h) = 8%nat.
Proof.
  induction blocks as [| block blocks IH]; intros h H; simpl; [exact H |].
  apply IH, compress_length, H.
Qed.

Lemma words_bytes_length (hs : list Z) :
  length (concat (map (Sha256.be_bytes 4) hs)) = (4 * length hs)%nat.
Proof.
  induction hs as [| x hs IH]; [reflexivity |].
  change (concat (map (Sha256.be_bytes 4) (x :: hs)))
    with (Sha256.be_bytes 4 x ++ concat (map (Sha256.be_bytes 4) hs)).
  rewrite List.length_app, IH. simpl. lia.
Qed.

Lemma hex_length (bs : list Z) :
  String.length (Sha256.hex bs) = (2 * length bs)%nat.
Proof.
  induction bs as [| b bs IH]; [reflexivity |].
  simpl. rewrite IH. lia.
Qed.

(** A digest has 64 hexadecimal digits, whatever the message. *)
Lemma hexdigest_length (s : string) : String.length (Sha256.hexdigest s) = 64%nat.
Proof.
  unfold Sha256.hexdigest, Sha256.digest.
  rewrite hex_length, words_bytes_length, compressions_length; reflexivity.
Qed.

Lemma substring_length (n : nat) :
  forall s, (n <= String.length s)%nat -> String.length (String.substring 0 n s) = n.
Proof.
  induction n as [| n IH]; intros s H.
  - destruct s; reflexivity.
  - destruct s as [| c s]; simpl in *; [lia |]. rewrite IH by lia. reflexivity.
Qed.

(** X10. A session id is 32 longer than what is left of the sender's
    number without its [+], [-] and spaces (lengths in bytes, which are
    characters for the digits of a phone number). So it reaches the 33
    characters the handler's comment asks for exactly when something is
    left of the number; for a message without sender it has 32. *)
Theorem session_id_length (sender_phone : string) (now : Z) :
  String.length (derive_session_id sender_phone now)
    = (32 + String.length (normalized_phone sender_phone))%nat /\
  ((33 <= String.length (derive_session_id sender_phone now))%nat <->
   normalized_phone sender_phone <> "").
Proof.
  assert (Hlen : String.length (derive_session_id sender_phone now)
                 = (32 + String.length (normalized_phone sender_phone))%nat).
  { unfold derive_session_id, Calendar.strftime_hour, Calendar.pad4.
    rewrite LambdaSpec.clean_phone_normalized.
    rewrite !LambdaSpec.length_append.
    rewrite substring_length by (rewrite hexdigest_length; lia).
    simpl. lia. }
  split; [exact Hlen |]. rewrite Hlen.
  destruct (normalized_phone sender_phone) as [| c rest]; simpl.
  - split; [lia | intros H; contradiction].
  - split; [discriminate | lia].
Qed.

(** *** Batches and malformed events *)

Lemma process_records_app (env : Env) (py_repr : pyval -> string)
    (before after : list pyval) :
  forall w,
    process_records env py_repr (before ++ after) w
    = bind (process_records env py_repr before)
           (fun _ => process_records env py_repr after) w.
Proof.
  induction before as [| record before IH]; intros w; [reflexivity |].
  simpl. unfold bind.
  destruct (process_record env py_repr record w) as [[[] | e] w1]; [| reflexivity].
  rewrite IH. reflexivity.
Qed.

(** X11. The first record that fails ends the batch: the handler
    answers 500 with that record's error, and the world is as that
    record left it, so no later record is read, acknowledged or
    relayed. *)
Theorem failing_record_aborts_batch (env : Env) (py_repr : pyval -> string)
    (event : gmap string pyval) (before after : list pyval) (record : pyval)
    (w w1 w2 : World) (e : exn) :
  event !! "Records" = Some (PList (before ++ record :: after)) ->
  process_records env py_repr before w = (Return tt, w1) ->
  process_record env py_repr record w1 = (Raise e, w2) ->
  lambda_handler env py_repr (PDict event) w = (Return (Failure e), w2) /\
  statusCode (Failure e) = 500.
Proof.
  intros Hrecords Hbefore Hrecord. split; [| reflexivity].
  unfold lambda_handler, bind, lift, try_except, get, getitem_key, len, iterate.
  rewrite Hrecords. simpl.
  rewrite process_records_app. unfold bind at 1. rewrite Hbefore. simpl.
  unfold bind at 1. rewrite Hrecord. reflexivity.
Qed.

Lemma failing_record_aborts_batch_witness :
  lambda_handler (Fixtures.whatsapp (Fixtures.directory "student")) Fixtures.no_repr
    (Fixtures.sns_event
       [Fixtures.sns_record Fixtures.status_entry; PDict ∅;
        Fixtures.sns_record Fixtures.text_entry]) []
  = (Return (Failure (KeyError "Sns")), []) /\
  statusCode (Failure (KeyError "Sns")) = 500.
Proof.
  apply (failing_record_aborts_batch
           (Fixtures.whatsapp (Fixtures.directory "student")) Fixtures.no_repr
           (<["Records" := PList [Fixtures.sns_record Fixtures.status_entry; PDict ∅;
                                  Fixtures.sns_record Fixtures.text_entry]]> ∅)
           [Fixtures.sns_record Fixtures.status_entry]
           [Fixtures.sns_record Fixtures.text_entry]
           (PDict ∅) [] [] [] (KeyError "Sns")).
  - reflexivity.
  - vm_compute. reflexivity.
  - vm_compute. reflexivity.
Defined.

(** X12. What the shape of the event decides. An event that is not a
    dict, or whose [Records] has no length, makes the handler raise:
    the record count is printed before the [try]. A dict without
    [Records] is answered with 500 and nothing is done. A dict whose
    [Records] is a list is always answered, with 200 or 500. *)
Theorem event_shape_decides (env : Env) (py_repr : pyval -> string)
    (event : pyval) (w : World) :
  (is_dict event = false ->
   lambda_handler env py_repr event w = (Raise AttributeError, w)) /\
  (forall d v e, event = PDict d -> d !! "Records" = Some v -> len v = Raise e ->
     lambda_handler env py_repr event w = (Raise e, w)) /\
  (forall d, event = PDict d -> d !! "Records" = None ->
     lambda_handler env py_repr event w = (Return (Failure (KeyError "Records")), w)) /\
  (forall d records, event = PDict d -> d !! "Records" = Some (PList records) ->
     exists response w',
       lambda_handler env py_repr event w = (Return response, w') /\
       (statusCode response = 200 \/ statusCode response = 500)).
Proof.
  split; [| split; [| split]].
  - destruct event; try discriminate; reflexivity.
  - intros d v e -> Hv Hlen.
    unfold lambda_handler, bind, lift, get. rewrite Hv. simpl. rewrite Hlen. reflexivity.
  - intros d -> Hd.
    unfold lambda_handler, bind, lift, try_except, get, getitem_key. rewrite Hd.
    reflexivity.
  - intros d records -> Hd.
    unfold lambda_handler, bind, lift, try_except, get, getitem_key, len, iterate.
    rewrite Hd. simpl.
    destruct (process_records env py_repr records w) as [[[] | e] w'].
    + exists Success, w'. split; [reflexivity | left; reflexivity].
    + exists (Failure e), w'. split; [reflexivity | right; reflexivity].
Qed.

Lemma event_shape_decides_witness :
  lambda_handler (Fixtures.whatsapp (Fixtures.directory "student")) Fixtures.no_repr
    (PList []) []
  = (Raise AttributeError, []).
Proof.
  apply (proj1 (event_shape_decides (Fixtures.whatsapp (Fixtures.directory "student"))
                  Fixtures.no_repr (PList []) [])).
  reflexivity.
Defined.

(** *** The persona of a sender *)

Lemma user_persona_nonempty (user : User) : user_persona_or_default user <> "".
Proof.
  unfold user_persona_or_default.
  destruct (snd (read_attributes (default [] (Attributes user)))) as [v |];
    simpl; [| discriminate].
  destruct (String.eqb_spec v ""); simpl; [discriminate | assumption].
Qed.

Lemma lookup_returns (env : Env) (phone_number : pyval) (w : World) :
  exists persona w', get_user_persona_by_phone env phone_number w = (Return persona, w').
Proof.
  unfold get_user_persona_by_phone, try_except.
  match goal with
  | |- context [match ?body w with _ => _ end] =>
      destruct (body w) as [[persona | e] w']
  end.
  - exists persona, w'. reflexivity.
  - exists "student", w'. reflexivity.
Qed.

Lemma lookup_nonempty (env : Env) (phone_number : pyval) (w w' : World)
    (persona : string) :
  get_user_persona_by_phone env phone_number w = (Return persona, w') ->
  persona <> "" /\ remap_persona persona <> "".
Proof.
  intros Hrun.
  destruct (LambdaSpec.get_user_persona_sat env (fun _ => True) phone_number w I)
    as (_ & _ & _ & Hq).
  rewrite Hrun in Hq. specialize (Hq persona eq_refl).
  assert (Hp : persona <> "").
  { destruct Hq as [-> | (page & user & _ & _ & ->)];
      [discriminate | apply user_persona_nonempty]. }
  split; [exact Hp |]. unfold remap_persona.
  destruct (String.eqb persona "professor"); [discriminate | exact Hp].
Qed.

(** X13. The directory lookup always answers, and never with an empty
    persona, whatever the phone number is and whatever the directory
    does; the remapped persona is not empty either. *)
Theorem persona_is_never_empty (env : Env) (phone_number : pyval) (w : World) :
  exists persona w',
    get_user_persona_by_phone env phone_number w = (Return persona, w') /\
    persona <> "" /\ remap_persona persona <> "".
Proof.
  destruct (lookup_returns env phone_number w) as (persona & w' & Hrun).
  exists persona, w'. split; [exact Hrun | exact (lookup_nonempty _ _ _ _ _ Hrun)].
Qed.

(** *** One invocation per relayed message *)

Lemma message_text_pure (py_repr : pyval -> string) (message_type message : pyval)
    (w : World) :
  snd (message_text py_repr message_type message w) = w.
Proof.
  unfold message_text, bind, lift, ret.
  repeat match goal with
         | |- context [if ?b then _ else _] => destruct b
         end; try reflexivity.
  destruct (get message "text" (PDict ∅)); reflexivity.
Qed.

Lemma contact_name_pure (value : pyval) (w : World) :
  snd (contact_name value w) = w.
Proof.
  unfold contact_name, bind, lift, ret.
  destruct (get value "contacts" (PList [])) as [contacts |]; [| reflexivity].
  destruct (truthy contacts); [| reflexivity].
  destruct (getitem0 contacts) as [contact |]; [| reflexivity].
  destruct (get contact "profile" (PDict ∅)); reflexivity.
Qed.

Lemma read_agent_response_pure (env : Env) (response : RuntimeResponse) (w : World) :
  snd (read_agent_response env response w) = w.
Proof.
  unfold read_agent_response, bind, lift, ret.
  destruct (is_infix "text/event-stream" (default "" (contentType response))).
  - destruct (body response); reflexivity.
  - destruct (bool_decide (contentType response = Some "application/json"));
      [| reflexivity].
    destruct (body response) as [content |]; [| reflexivity].
    destruct (json_loads env (String.concat "" content)); reflexivity.
Qed.

(** X15. A message whose text and contact name could be read is
    relayed with exactly one invocation: after the directory lookup the
    handler reads the clock once and invokes the configured runtime
    once, under the session id of the sender at that reading, with the
    text, the remapped persona of the lookup and the sender's number.
    Nothing else is done afterwards; when the invocation raises, so does
    the relay. *)
Theorem relay_invokes_once (env : Env) (py_repr : pyval -> string)
    (message_type message value user_message user_name : pyval)
    (phone persona : string) (w w1 : World) :
  fst (message_text py_repr message_type message w) = Return user_message ->
  fst (contact_name value w) = Return user_name ->
  get_user_persona_by_phone env (PStr phone) w = (Return persona, w1) ->
  let payload := orchestration_payload user_message (remap_persona persona)
                   (normalized_phone phone) (PStr phone) in
  let session := derive_session_id phone (utcnow env w1) in
  let run := relay_message env py_repr message_type (PStr phone) message value w in
  snd run = w1 ++ [EvUtcnow; EvInvokeAgentRuntime (AGENT_RUNTIME_ARN env) session payload] /\
  (forall e, invoke_agent_runtime env session payload (w1 ++ [EvUtcnow]) = Raise e ->
             fst run = Raise e).
Proof.
  intros Htext Hname Hlookup payload session run.
  assert (Hrun : run =
            bind (call (EvInvokeAgentRuntime (AGENT_RUNTIME_ARN env) session payload)
                       (invoke_agent_runtime env session payload))
                 (read_agent_response env) (w1 ++ [EvUtcnow])).
  { subst run. unfold relay_message.
    unfold bind at 1.
    destruct (message_text py_repr message_type message w) as [r0 w0] eqn:H0.
    pose proof (message_text_pure py_repr message_type message w) as Hw0.
    rewrite H0 in Hw0. simpl in Hw0, Htext. subst w0 r0.
    unfold bind at 1.
    destruct (contact_name value w) as [r0 w0] eqn:H1.
    pose proof (contact_name_pure value w) as Hw0.
    rewrite H1 in Hw0. simpl in Hw0, Hname. subst w0 r0.
    unfold bind at 1. rewrite Hlookup.
    rewrite LambdaSpec.clean_phone_normalized.
    unfold bind at 1. unfold call at 1. reflexivity. }
  rewrite Hrun. unfold bind, call.
  destruct (invoke_agent_runtime env session payload (w1 ++ [EvUtcnow]))
    as [response | e0] eqn:Hinvoke.
  - rewrite read_agent_response_pure, <- app_assoc. split; [reflexivity |].
    intros e [=].
  - simpl. rewrite <- app_assoc. split; [reflexivity |].
    intros e [= <-]. reflexivity.
Qed.

Lemma relay_invokes_once_witness :
  snd (relay_message (Fixtures.whatsapp (Fixtures.directory "professor")) Fixtures.no_repr
         (PStr "text") (PStr Fixtures.sender) Fixtures.text_message
         (PDict Fixtures.text_value) [])
  = [ EvListUsers "us-east-1_octank"; EvUtcnow;
      EvInvokeAgentRuntime
        "arn:aws:bedrock-agentcore:us-east-1:000000000000:runtime/octank"
        (derive_session_id Fixtures.sender 1793750400)
        (orchestration_payload (PStr "Quais são minhas tarefas?") "teacher"
           "5511999990001" (PStr Fixtures.sender)) ].
Proof.
  apply (proj1 (relay_invokes_once
                  (Fixtures.whatsapp (Fixtures.directory "professor")) Fixtures.no_repr
                  (PStr "text") Fixtures.text_message (PDict Fixtures.text_value)
                  (PStr "Quais são minhas tarefas?") (PStr "Usuário")
                  Fixtures.sender "professor" [] [EvListUsers "us-east-1_octank"]
                  ltac:(vm_compute; reflexivity) ltac:(vm_compute; reflexivity)
                  ltac:(vm_compute; reflexivity))).
Defined.

End LambdaMoreSpec.

(** ** From the adapter to the entrypoint *)

Module PipelineSpec.
Import OrchestratorMore OrchestratorMoreSpec.

Lemma first_call_logged {A B} (ev : Orchestrator.Event)
    (oracle : list Orchestrator.Event -> result A)
    (k : A -> M Orchestrator.World B) (w : Orchestrator.World) :
  (forall a, logs_only (fun _ => True) (fun _ _ => True) (k a) (Orchestrator.emit ev w)) ->
  exists rest,
    Orchestrator.log (snd (bind (Orchestrator.call ev oracle) k w))
    = Orchestrator.log w ++ ev :: rest.
Proof.
  intros Hk. unfold bind, Orchestrator.call.
  destruct (oracle (Orchestrator.log w)) as [a | e].
  - destruct (Hk a) as (new & Hlog & _). exists new. rewrite Hlog. simpl.
    rewrite <- app_assoc. reflexivity.
  - exists []. reflexivity.
Qed.

(** X14. What the adapter sends for a sender passes the checks of
    the entrypoint exactly when the message text is not empty and the
    sender's number has a character other than [+], [-] and space: then
    the entrypoint goes on to its first outside call. The persona and
    the session id never fail a check. An empty text is refused as a
    missing [inputText], and a number without such a character as a
    missing [user_id]. The payload is taken to arrive as it was sent. *)
Theorem relayed_request_passes_checks (env : LambdaSns.Env) (oenv : Orchestrator.Env)
    (py_repr : pyval -> string) (user_message : pyval) (phone persona : string)
    (now : Z) (w w' : LambdaSns.World) (ow : Orchestrator.World) :
  LambdaSns.get_user_persona_by_phone env (PStr phone) w = (Return persona, w') ->
  let payload :=
    LambdaSns.orchestration_payload user_message (LambdaSns.remap_persona persona)
      (LambdaSns.normalized_phone phone) (PStr phone) in
  let run := Orchestrator.invoke oenv py_repr payload
               (PStr (LambdaSns.derive_session_id phone now)) ow in
  (truthy user_message = true -> LambdaSns.normalized_phone phone <> "" ->
   exists rest,
     Orchestrator.log (snd run) = Orchestrator.log ow ++ Orchestrator.EvSession :: rest) /\
  (truthy user_message = false ->
   run = (Raise (PyException "Payload must include 'inputText' or 'prompt' parameter"),
          ow)) /\
  (truthy user_message = true -> LambdaSns.normalized_phone phone = "" ->
   run = (Raise (PyException "Payload must include 'user_id' parameter"), ow)).
Proof.
  intros Hlookup payload run.
  destruct (LambdaMoreSpec.lookup_nonempty _ _ _ _ _ Hlookup) as [_ Hpersona].
  assert (Hmsg : dict_get payload "inputText" = user_message).
  { unfold dict_get, payload, LambdaSns.orchestration_payload.
    rewrite lookup_insert_eq. reflexivity. }
  assert (Hprompt : dict_get payload "prompt" = PNone).
  { unfold dict_get, payload, LambdaSns.orchestration_payload.
    do 5 (rewrite lookup_insert_ne by discriminate). rewrite lookup_empty. reflexivity. }
  assert (Hp : dict_get payload "persona" = PStr (LambdaSns.remap_persona persona)).
  { unfold dict_get, payload, LambdaSns.orchestration_payload.
    rewrite lookup_insert_ne by discriminate. rewrite lookup_insert_eq. reflexivity. }
  assert (Hu : dict_get payload "user_id" = PStr (LambdaSns.normalized_phone phone)).
  { unfold dict_get, payload, LambdaSns.orchestration_payload.
    do 2 (rewrite lookup_insert_ne by discriminate). rewrite lookup_insert_eq.
    reflexivity. }
  assert (Htp : truthy (PStr (LambdaSns.remap_persona persona)) = true).
  { simpl. destruct (String.eqb_spec (LambdaSns.remap_persona persona) "");
      [contradiction | reflexivity]. }
  assert (Hor : truthy (py_or user_message PNone) = truthy user_message).
  { unfold py_or. destruct (truthy user_message) eqn:Hm; [exact Hm | reflexivity]. }
  subst run. unfold Orchestrator.invoke. cbv zeta.
  rewrite Hmsg, Hprompt, Hp, Hu, Hor, Htp.
  split; [| split].
  - intros Hm Hphone. rewrite Hm.
    assert (Htu : truthy (PStr (LambdaSns.normalized_phone phone)) = true).
    { simpl. destruct (String.eqb_spec (LambdaSns.normalized_phone phone) "");
        [contradiction | reflexivity]. }
    rewrite Htu.
    change (truthy (PStr (LambdaSns.derive_session_id phone now))) with true.
    cbv beta iota delta [negb].
    apply first_call_logged. intros region.
    eapply (logs_bind _ (fun _ _ => True)).
    { eapply logs_weaken; [| | apply get_memory_id_logs]; [trivial | trivial]. }
    { trivial. }
    intros memory_id w2 _ _.
    eapply (logs_bind _ (fun r w3 => r = Return (Orchestrator.memory_client_cache w3))).
    { apply logs_pure; reflexivity. }
    { trivial. }
    intros client w3 _ [= ->].
    eapply (logs_bind _ (fun _ _ => True)).
    { destruct (Orchestrator.memory_client_cache w3).
      - apply logs_pure; [reflexivity | exact I].
      - eapply (logs_bind _ (fun _ _ => True)); [apply logs_call; exact I | trivial |].
        intros _ w4 _ _. apply logs_quiet; [reflexivity | exact I]. }
    { trivial. }
    intros _ w4 _ _.
    eapply (logs_bind _ (fun _ _ => True)); [apply logs_call; exact I | trivial |].
    intros _ w5 _ _.
    eapply (logs_bind _ (fun _ _ => True)); [apply logs_call; exact I | trivial |].
    intros _ w6 _ _.
    eapply (logs_bind _ (fun _ _ => True)).
    { eapply logs_weaken; [| | apply create_orchestrator_logs]; [trivial | trivial]. }
    { trivial. }
    intros result w7 _ _. apply logs_pure; [reflexivity | exact I].
  - intros Hm. rewrite Hm. reflexivity.
  - intros Hm Hphone. rewrite Hm, Hphone. reflexivity.
Qed.

Lemma relayed_request_passes_checks_witness :
  let payload :=
    LambdaSns.orchestration_payload (PStr "Quais são minhas tarefas?") "teacher"
      "5511999990001" (PStr "+5511999990001") in
  exists rest,
    Orchestrator.log
      (snd (Orchestrator.invoke Fixtures.gateway_down Fixtures.no_repr payload
              (PStr (LambdaSns.derive_session_id "+5511999990001" 1793750400))
              Fixtures.fresh_process))
    = Orchestrator.EvSession :: rest.
Proof.
  cbv zeta.
  apply (proj1 (relayed_request_passes_checks
                  (Fixtures.whatsapp (Fixtures.directory "professor"))
                  Fixtures.gateway_down Fixtures.no_repr
                  (PStr "Quais são minhas tarefas?") "+5511999990001" "professor"
                  1793750400 [] [LambdaSns.EvListUsers "us-east-1_octank"]
                  Fixtures.fresh_process ltac:(vm_compute; reflexivity))).
  - reflexivity.
  - discriminate.
Defined.

End PipelineSpec.

(** ** The WhatsApp send tool *)

Module SendToolSpec.
Import SendTool.

Lemma read_client_context_cases (client_context : option pyval) (w : World) :
  read_client_context client_context w =
    (if readable client_context then Return tt else Raise AttributeError, w).
Proof.
  destruct client_context as [[] |]; reflexivity.
Qed.

Lemma get_of_dict (v x : pyval) (k : string) :
  get v k PNone = Return x -> exists d, v = PDict d /\ x = dict_get d k.
Proof.
  destruct v; try discriminate. intros [= <-]. eexists. split; reflexivity.
Qed.

Lemma truthy_present (d : gmap string pyval) (k : string) :
  truthy (dict_get d k) = true -> d !! k = Some (dict_get d k).
Proof.
  unfold dict_get. destruct (d !! k); [reflexivity | discriminate].
Qed.

(** How the body of the [try] ends: before anything is done, with an
    exception or the refusal; or, for a request with a number and a
    message, after the client was built or after the message was sent. *)
Lemma deliver_cases (env : Env) (event : pyval) (w : World) :
  (exists e, deliver env event w = (Raise e, w)) \/
  (exists d,
     parse env event = Return (PDict d) /\
     (truthy (dict_get d "phone_number") = false \/
      truthy (dict_get d "message") = false) /\
     deliver env event w = (Return rejected, w)) \/
  (exists d phone message,
     parse env event = Return (PDict d) /\
     d !! "phone_number" = Some (PStr phone) /\
     d !! "message" = Some message /\
     ((exists e, deliver env event w = (Raise e, w ++ [EvSocialClient "us-east-1"])) \/
      (exists e, deliver env event w = (Raise e, w ++ delivery env phone message)) \/
      (exists response,
         send_whatsapp_message env
           (meta_message (LambdaSns.normalized_phone phone) message)
           (w ++ [EvSocialClient "us-east-1"]) = Return (PDict response) /\
         deliver env event w =
           (Return (sent (default (PStr "") (response !! "messageId"))
                         (LambdaSns.normalized_phone phone) message),
            w ++ delivery env phone message)))).
Proof.
  unfold deliver, bind, lift, ret.
  destruct (parse env event) as [parsed | e]; [| left; eexists; reflexivity].
  destruct (get parsed "phone_number" PNone) as [phone_number | e] eqn:Hphone;
    [| left; eexists; reflexivity].
  apply get_of_dict in Hphone as (d & -> & ->).
  change (get (PDict d) "message" PNone) with (Return (dict_get d "message")).
  cbv beta iota.
  destruct (truthy (dict_get d "phone_number")) eqn:Htp;
    [| right; left; exists d; split; [reflexivity |];
       split; [left; exact Htp | reflexivity]].
  destruct (truthy (dict_get d "message")) eqn:Htm;
    [| right; left; exists d; split; [reflexivity |];
       split; [right; exact Htm | reflexivity]].
  cbn [negb orb].
  pose proof (truthy_present _ _ Htp) as Hp.
  pose proof (truthy_present _ _ Htm) as Hm.
  destruct (dict_get d "phone_number") as [| | | | phone | |];
    try (left; eexists; reflexivity).
  simpl. rewrite LambdaSpec.clean_phone_normalized.
  right; right. exists d, phone, (dict_get d "message").
  split; [reflexivity |]. split; [exact Hp |]. split; [exact Hm |].
  unfold call, delivery.
  destruct (social_client env w); [| left; eexists; reflexivity].
  right.
  destruct (send_whatsapp_message env _ (w ++ [EvSocialClient "us-east-1"]))
    as [response | e] eqn:Hsend; simpl; rewrite <- app_assoc; simpl;
    [| left; eexists; reflexivity].
  destruct response; simpl; try (left; eexists; reflexivity).
  right. eexists. split; reflexivity.
Qed.

(** X16. A request without a number or without a message (absent,
    [None] or empty) is refused with 400, and nothing is done for it: no
    client is built and no message is sent. *)
Theorem incomplete_request_is_refused (env : Env) (error_text : exn -> string)
    (event : pyval) (client_context : option pyval) (d : gmap string pyval)
    (w : World) :
  readable client_context = true ->
  parse env event = Return (PDict d) ->
  truthy (dict_get d "phone_number") = false \/ truthy (dict_get d "message") = false ->
  lambda_handler env error_text event client_context w = (Return rejected, w) /\
  statusCode rejected = 400 /\
  body rejected !! "success" = Some (PBool false).
Proof.
  intros Hcontext Hparse Hmissing.
  split; [| split; reflexivity].
  unfold lambda_handler, bind at 1. rewrite read_client_context_cases, Hcontext.
  unfold try_except, deliver, bind, lift, ret. rewrite Hparse.
  change (get (PDict d) "phone_number" PNone) with (Return (dict_get d "phone_number")).
  change (get (PDict d) "message" PNone) with (Return (dict_get d "message")).
  cbv beta iota.
  destruct Hmissing as [-> | ->]; [reflexivity |].
  cbn [negb]. rewrite orb_true_r. reflexivity.
Qed.

Lemma incomplete_request_is_refused_witness :
  lambda_handler SendFixtures.messaging SendFixtures.text_of
    (PDict (<["phone_number" := PStr "+55 11 99999-0001"]> ∅)) None []
  = (Return rejected, []).
Proof.
  apply (incomplete_request_is_refused SendFixtures.messaging SendFixtures.text_of
           (PDict (<["phone_number" := PStr "+55 11 99999-0001"]> ∅)) None
           (<["phone_number" := PStr "+55 11 99999-0001"]> ∅) []).
  - reflexivity.
  - reflexivity.
  - right. reflexivity.
Defined.

(** X17. The tool reports success only for what it has sent: a
    response with status 200 means that the request had a number and a
    message, that the client was built and exactly one message was
    sent, a text with that message to [+] and the number without [+],
    [-] and spaces, from the configured number, and that the response
    names that recipient, that message and the id the service gave. *)
Theorem success_means_sent (env : Env) (error_text : exn -> string)
    (event : pyval) (client_context : option pyval) (w w' : World) (r : Response) :
  lambda_handler env error_text event client_context w = (Return r, w') ->
  statusCode r = 200 ->
  exists d phone message response,
    parse env event = Return (PDict d) /\
    d !! "phone_number" = Some (PStr phone) /\
    d !! "message" = Some message /\
    w' = w ++ delivery env phone message /\
    send_whatsapp_message env (meta_message (LambdaSns.normalized_phone phone) message)
                          (w ++ [EvSocialClient "us-east-1"]) = Return (PDict response) /\
    r = sent (default (PStr "") (response !! "messageId"))
             (LambdaSns.normalized_phone phone) message /\
    body r !! "recipient" = Some (PStr ("+" +:+ LambdaSns.normalized_phone phone)) /\
    body r !! "message_sent" = Some message /\
    meta_message (LambdaSns.normalized_phone phone) message !! "to"
      = Some (PStr ("+" +:+ LambdaSns.normalized_phone phone)) /\
    meta_message (LambdaSns.normalized_phone phone) message !! "text"
      = Some (PDict (<["preview_url" := PBool false]> (<["body" := message]> ∅))).
Proof.
  unfold lambda_handler, bind at 1. rewrite read_client_context_cases.
  destruct (readable client_context); [| discriminate].
  unfold try_except.
  destruct (deliver_cases env event w)
    as [(e & ->) | [(d & _ & _ & ->) | (d & phone & message & Hparse & Hp & Hm & Hrun)]].
  - intros [= <- _]. discriminate.
  - intros [= <- _]. discriminate.
  - destruct Hrun as [(e & ->) | [(e & ->) | (response & Hsend & ->)]].
    + intros [= <- _]. discriminate.
    + intros [= <- _]. discriminate.
    + intros [= <- <-] _. exists d, phone, message, response.
      split; [exact Hparse |]. split; [exact Hp |]. split; [exact Hm |].
      split; [reflexivity |]. split; [exact Hsend |]. split; [reflexivity |].
      unfold sent, meta_message. simpl.
      split; [do 2 (rewrite lookup_insert_ne by discriminate); apply lookup_insert_eq |].
      split; [do 3 (rewrite lookup_insert_ne by discriminate); apply lookup_insert_eq |].
      split; [rewrite lookup_insert_ne by discriminate; apply lookup_insert_eq |].
      do 3 (rewrite lookup_insert_ne by discriminate). apply lookup_insert_eq.
Qed.

Lemma success_means_sent_witness :
  exists d phone message response,
    parse SendFixtures.messaging (PDict SendFixtures.reply) = Return (PDict d) /\
    d !! "phone_number" = Some (PStr phone) /\
    d !! "message" = Some message /\
    snd (lambda_handler SendFixtures.messaging SendFixtures.text_of
           (PDict SendFixtures.reply) None [])
      = [] ++ delivery SendFixtures.messaging phone message /\
    send_whatsapp_message SendFixtures.messaging
      (meta_message (LambdaSns.normalized_phone phone) message)
      ([] ++ [EvSocialClient "us-east-1"]) = Return (PDict response) /\
    sent (PStr "wamid.2") "5511999990001" (PStr "Suas tarefas pendentes")
      = sent (default (PStr "") (response !! "messageId"))
             (LambdaSns.normalized_phone phone) message /\
    body (sent (PStr "wamid.2") "5511999990001" (PStr "Suas tarefas pendentes"))
      !! "recipient" = Some (PStr ("+" +:+ LambdaSns.normalized_phone phone)) /\
    body (sent (PStr "wamid.2") "5511999990001" (PStr "Suas tarefas pendentes"))
      !! "message_sent" = Some message /\
    meta_message (LambdaSns.normalized_phone phone) message !! "to"
      = Some (PStr ("+" +:+ LambdaSns.normalized_phone phone)) /\
    meta_message (LambdaSns.normalized_phone phone) message !! "text"
      = Some (PDict (<["preview_url" := PBool false]> (<["body" := message]> ∅))).
Proof.
  apply (success_means_sent SendFixtures.messaging SendFixtures.text_of
           (PDict SendFixtures.reply) None []
           (snd (lambda_handler SendFixtures.messaging SendFixtures.text_of
                   (PDict SendFixtures.reply) None []))
           (sent (PStr "wamid.2") "5511999990001" (PStr "Suas tarefas pendentes"))).
  - vm_compute. reflexivity.
  - reflexivity.
Defined.

(** X18. With no client context, or with one whose [custom] is a
    dict, the tool always answers, with status 200, 400 or 500, and
    never raises, whatever the event is and whatever the messaging
    service does. What it does is the beginning of one delivery: it
    builds at most one client and sends at most one message, and none
    when it answers 400. With a client context whose [custom] is not a
    dict it raises before the [try], and nothing is done. *)
Theorem tool_always_answers (env : Env) (error_text : exn -> string)
    (event : pyval) (client_context : option pyval) (w : World) :
  (readable client_context = true ->
   exists r new,
     lambda_handler env error_text event client_context w = (Return r, w ++ new) /\
     In (statusCode r) [200; 400; 500] /\
     (exists phone message, new `prefix_of` delivery env phone message) /\
     (statusCode r = 400 -> new = [])) /\
  (readable client_context = false ->
   lambda_handler env error_text event client_context w = (Raise AttributeError, w)).
Proof.
  unfold lambda_handler, bind at 1 2. rewrite read_client_context_cases.
  split; intros ->; [| reflexivity].
  unfold try_except.
  assert (Hnil : forall r, exists new : list Event,
            (Return r, w) = (Return r, w ++ new) /\
            (exists (phone : string) (message : pyval),
               new `prefix_of` delivery env phone message) /\
            (statusCode r = 400 -> new = [])).
  { intros r. exists []. rewrite app_nil_r. split; [reflexivity |].
    split; [exists "", PNone; apply prefix_nil | reflexivity]. }
  destruct (deliver_cases env event w)
    as [(e & ->) | [(d & _ & _ & ->) | (d & phone & message & _ & _ & _ & Hrun)]].
  - destruct (Hnil (failed (error_text e))) as (new & Hrun & Hnew & Hrefused).
    exists (failed (error_text e)), new. simpl. rewrite <- Hrun.
    split; [reflexivity |]. split; [auto |]. split; assumption.
  - destruct (Hnil rejected) as (new & Hrun & Hnew & Hrefused).
    exists rejected, new. rewrite <- Hrun.
    split; [reflexivity |]. split; [simpl; auto |]. split; assumption.
  - destruct Hrun as [(e & ->) | [(e & ->) | (response & _ & ->)]].
    + exists (failed (error_text e)), [EvSocialClient "us-east-1"].
      split; [reflexivity |]. split; [simpl; auto |].
      split; [| discriminate].
      exists phone, message. eexists. reflexivity.
    + exists (failed (error_text e)), (delivery env phone message).
      split; [reflexivity |]. split; [simpl; auto |].
      split; [| discriminate].
      exists phone, message. reflexivity.
    + eexists _, (delivery env phone message).
      split; [reflexivity |]. split; [simpl; auto |].
      split; [| discriminate].
      exists phone, message. reflexivity.
Qed.

Lemma tool_always_answers_witness :
  lambda_handler SendFixtures.messaging SendFixtures.text_of
    (PDict SendFixtures.reply) (Some PNone) []
  = (Raise AttributeError, []).
Proof.
  apply (proj2 (tool_always_answers SendFixtures.messaging SendFixtures.text_of
                  (PDict SendFixtures.reply) (Some PNone) [])).
  reflexivity.
Defined.

(** *** The reply and the directory *)

Lemma plain_normalized (digits : string) :
  LambdaMore.plain digits -> LambdaSns.normalized_phone digits = digits.
Proof.
  unfold LambdaMore.plain. induction digits as [| c digits IH]; [reflexivity |].
  simpl. intros (Hplus & Hminus & Hspace).
  apply orb_false_elim in Hplus as [-> Hplus].
  apply orb_false_elim in Hminus as [-> Hminus].
  apply orb_false_elim in Hspace as [-> Hspace].
  simpl. rewrite IH by (repeat split; assumption). reflexivity.
Qed.

Lemma plain_with_plus (digits : string) :
  LambdaMore.plain digits -> LambdaSns.with_plus digits = "+" +:+ digits.
Proof.
  unfold LambdaSns.with_plus. intros (Hplus & _).
  destruct digits as [| c digits]; [reflexivity |].
  cbn [LambdaMore.has_char] in Hplus. apply orb_false_elim in Hplus as [Hc _].
  cbn [String.prefix].
  destruct (ascii_dec "+" c) as [<- | _]; [| reflexivity].
  vm_compute in Hc. discriminate Hc.
Qed.

(** X19. The reply goes to the number under which the sender was
    looked up. When the tool is given the sender's number as the
    adapter forwards it, a number without [-] and spaces and with at
    most a leading [+], a message it reports as sent went to the very
    number, with its [+], that the directory lookup searched for. *)
Theorem reply_goes_to_sender (env : Env) (error_text : exn -> string)
    (d : gmap string pyval) (digits raw : string) (client_context : option pyval)
    (w w' : World) (r : Response) :
  LambdaMore.plain digits ->
  raw = digits \/ raw = "+" +:+ digits ->
  d !! "phone_number" = Some (PStr raw) ->
  lambda_handler env error_text (PDict d) client_context w = (Return r, w') ->
  statusCode r = 200 ->
  body r !! "recipient" = Some (PStr (LambdaSns.with_plus raw)) /\
  exists message,
    w' = w ++ delivery env raw message /\
    meta_message (LambdaSns.normalized_phone raw) message !! "to"
      = Some (PStr (LambdaSns.with_plus raw)).
Proof.
  intros Hplain Hraw Hphone.
  assert (Hsame : "+" +:+ LambdaSns.normalized_phone raw = LambdaSns.with_plus raw).
  { destruct Hraw as [-> | ->].
    - rewrite plain_normalized, plain_with_plus by exact Hplain. reflexivity.
    - change (LambdaSns.normalized_phone ("+" +:+ digits))
        with (LambdaSns.normalized_phone digits).
      rewrite plain_normalized by exact Hplain.
      unfold LambdaSns.with_plus. destruct digits; reflexivity. }
  unfold lambda_handler, bind at 1. rewrite read_client_context_cases.
  destruct (readable client_context); [| discriminate].
  unfold try_except.
  destruct (deliver_cases env (PDict d) w)
    as [(e & ->) | [(d' & _ & _ & ->) | (d' & phone & message & Hparse & Hp & Hm & Hrun)]].
  - intros [= <- _]. discriminate.
  - intros [= <- _]. discriminate.
  - injection Hparse as <-. rewrite Hphone in Hp. injection Hp as <-.
    destruct Hrun as [(e & ->) | [(e & ->) | (response & Hsend & ->)]].
    + intros [= <- _]. discriminate.
    + intros [= <- _]. discriminate.
    + intros [= <- <-] _. rewrite <- Hsame. unfold sent, meta_message. simpl.
      split; [do 2 (rewrite lookup_insert_ne by discriminate); apply lookup_insert_eq |].
      exists message. split; [reflexivity |].
      rewrite lookup_insert_ne by discriminate. apply lookup_insert_eq.
Qed.

Lemma reply_goes_to_sender_witness :
  body (sent (PStr "wamid.2") "5511999990001" (PStr "Suas tarefas pendentes"))
    !! "recipient" = Some (PStr (LambdaSns.with_plus "5511999990001")).
Proof.
  apply (reply_goes_to_sender SendFixtures.messaging SendFixtures.text_of
           (<["phone_number" := PStr "5511999990001"]>
            (<["message" := PStr "Suas tarefas pendentes"]> ∅))
           "5511999990001" "5511999990001" None []
           (snd (lambda_handler SendFixtures.messaging SendFixtures.text_of
                   (PDict (<["phone_number" := PStr "5511999990001"]>
                           (<["message" := PStr "Suas tarefas pendentes"]> ∅)))
                   None []))
           (sent (PStr "wamid.2") "5511999990001" (PStr "Suas tarefas pendentes"))).
  - repeat split.
  - left. reflexivity.
  - reflexivity.
  - vm_compute. reflexivity.
  - reflexivity.
Defined.

End SendToolSpec.

(** ** The other generators *)

Module MockDataMoreSpec.
Import MockData MockDataMore.

(** *** Rounded draws *)

Lemma round1_failing (x : Q) :
  (2 <= x)%Q -> (x <= float_4_9)%Q -> 20 <= round1 x <= 49.
Proof.
  destruct x as [n d]. unfold Qle, round1, float_4_9. simpl. intros Hlo Hhi.
  assert (Hd : 0 < Z.pos d) by lia.
  pose proof (Z.div_mod (10 * n) (Z.pos d) ltac:(lia)) as Hdm.
  pose proof (Z.mod_pos_bound (10 * n) (Z.pos d) Hd) as Hr.
  set (q := (10 * n) / Z.pos d) in *.
  set (r := (10 * n) mod Z.pos d) in *.
  assert (Hq1 : 20 <= q) by nia.
  assert (Hq2 : q <= 49) by nia.
  assert (Hq3 : q = 49 -> 2 * r < Z.pos d) by (intros ->; lia).
  destruct (Z.ltb_spec (2 * r) (Z.pos d)); [lia |].
  destruct (Z.ltb_spec (Z.pos d) (2 * r)); [lia |].
  destruct (Z.even q); lia.
Qed.

Lemma round1_percentage (x : Q) :
  (5 <= x)%Q -> (x <= 25)%Q -> 50 <= round1 x <= 250.
Proof.
  destruct x as [n d]. unfold Qle, round1. simpl. intros Hlo Hhi.
  assert (Hd : 0 < Z.pos d) by lia.
  pose proof (Z.div_mod (10 * n) (Z.pos d) ltac:(lia)) as Hdm.
  pose proof (Z.mod_pos_bound (10 * n) (Z.pos d) Hd) as Hr.
  set (q := (10 * n) / Z.pos d) in *.
  set (r := (10 * n) mod Z.pos d) in *.
  assert (Hq1 : 50 <= q) by nia.
  assert (Hq2 : q <= 250) by nia.
  assert (Hq3 : q = 250 -> r = 0) by nia.
  destruct (Z.ltb_spec (2 * r) (Z.pos d)); [lia |].
  destruct (Z.ltb_spec (Z.pos d) (2 * r)); [lia |].
  destruct (Z.even q); lia.
Qed.

Lemma low_grade_failing (e : Entropy) (He : entropy_ok e) (n : nat) :
  20 <= round1 (uniform e 2 float_4_9 n) <= 49.
Proof.
  apply round1_failing; apply (uniform_range e He 2 float_4_9);
    unfold Qle, float_4_9; simpl; lia.
Qed.

(** *** The sort *)

Lemma insert_Forall (P : LowPerformingStudent -> Prop) (x : LowPerformingStudent)
    (l : list LowPerformingStudent) :
  P x -> Forall P l -> Forall P (insert_by_grade x l).
Proof.
  intros Hx Hl. induction Hl as [| y l Hy Hl IH]; simpl.
  - constructor; [exact Hx | constructor].
  - destruct (lp_grade x <=? lp_grade y).
    + constructor; [exact Hx |]. constructor; assumption.
    + constructor; assumption.
Qed.

Lemma sort_Forall (P : LowPerformingStudent -> Prop) (l : list LowPerformingStudent) :
  Forall P l -> Forall P (sort_by_grade l).
Proof.
  intros Hl. induction Hl as [| x l Hx Hl IH]; simpl; [constructor |].
  apply insert_Forall; assumption.
Qed.

Lemma insert_permutation (x : LowPerformingStudent) (l : list LowPerformingStudent) :
  Permutation (insert_by_grade x l) (x :: l).
Proof.
  induction l as [| y l IH]; simpl; [reflexivity |].
  destruct (lp_grade x <=? lp_grade y); [reflexivity |].
  rewrite IH. apply perm_swap.
Qed.

Lemma sort_permutation (l : list LowPerformingStudent) :
  Permutation (sort_by_grade l) l.
Proof.
  induction l as [| x l IH]; simpl; [reflexivity |].
  rewrite insert_permutation, IH. reflexivity.
Qed.

Lemma insert_ascending (x : LowPerformingStudent) (l : list LowPerformingStudent) :
  ascending l -> ascending (insert_by_grade x l).
Proof.
  induction l as [| y l IH]; simpl.
  - intros _. split; constructor.
  - intros [Hy Hl]. destruct (Z.leb_spec (lp_grade x) (lp_grade y)) as [Hxy | Hxy].
    + split; [| split; assumption].
      constructor; [exact Hxy |].
      eapply Forall_impl; [exact Hy |]. simpl. intros z Hz. lia.
    + split; [| apply IH, Hl].
      apply insert_Forall; [lia | exact Hy].
Qed.

Lemma sort_ascending (l : list LowPerformingStudent) : ascending (sort_by_grade l).
Proof.
  induction l as [| x l IH]; simpl; [exact I |].
  apply insert_ascending, IH.
Qed.

(** *** A teacher's record *)

Ltac draw :=
  unfold gbind, gret, draw_choice, draw_student_id, draw_teacher_id, draw_today,
    draw_uniform, draw_sample, draw_randbelow, gbind, gret; simpl.

Lemma teacher_tasks_of_course (e : Entropy) (k : nat) (course_name course_id : string) :
  forall n,
    Forall (fun t => task_course_id t = course_id /\ task_course_name t = course_name)
           (fst (teacher_tasks e k course_name course_id n)) /\
    length (fst (teacher_tasks e k course_name course_id n)) = k.
Proof.
  induction k as [| k IH]; intros n; simpl; [split; [constructor | reflexivity] |].
  draw.
  match goal with
  | |- context [teacher_tasks e k course_name course_id ?m] =>
      destruct (IH m) as [Hall Hlen];
      destruct (teacher_tasks e k course_name course_id m) as [rest m']
  end.
  simpl in *. split; [| rewrite Hlen; reflexivity].
  constructor; [split; reflexivity | exact Hall].
Qed.

Lemma course_low_performers_of_course (e : Entropy) (He : entropy_ok e) (k : nat)
    (course_name course_id : string) :
  forall n,
    Forall (fun lp => failing lp /\ lp_course_id lp = course_id /\
                      lp_course_name lp = course_name)
           (fst (course_low_performers e k course_name course_id n)) /\
    length (fst (course_low_performers e k course_name course_id n)) = k.
Proof.
  induction k as [| k IH]; intros n; simpl; [split; [constructor | reflexivity] |].
  draw.
  match goal with
  | |- context [course_low_performers e k course_name course_id ?m] =>
      destruct (IH m) as [Hall Hlen];
      destruct (course_low_performers e k course_name course_id m) as [rest m']
  end.
  simpl in *. split; [| rewrite Hlen; reflexivity].
  constructor; [| exact Hall].
  split; [| split; reflexivity].
  unfold failing. simpl. apply low_grade_failing, He.
Qed.

Lemma of_course_more (courses : list TeacherCourseMetrics) (c : TeacherCourseMetrics)
    (course_id course_name : string) :
  of_course courses course_id course_name ->
  of_course (courses ++ [c]) course_id course_name.
Proof.
  intros (c' & Hin & Hid & Hname). exists c'.
  split; [apply in_or_app; left; exact Hin | split; assumption].
Qed.

Lemma of_course_last (courses : list TeacherCourseMetrics) (c : TeacherCourseMetrics) :
  of_course (courses ++ [c]) (tc_course_id c) (tc_course_name c).
Proof.
  exists c. split; [apply in_or_app; right; left; reflexivity | split; reflexivity].
Qed.

Lemma randbelow_nat (e : Entropy) (He : entropy_ok e) (bound : Z) (n : nat) :
  0 < bound -> (Z.to_nat (randbelow e bound n) <= Z.to_nat (bound - 1))%nat.
Proof.
  intros Hb. pose proof (randbelow_range e He bound n Hb). lia.
Qed.

Lemma teacher_courses_ok (e : Entropy) (He : entropy_ok e) (selected : list string) :
  forall (i : Z) (acc : TeacherData) (n : nat),
    teacher_ok acc ->
    teacher_ok (fst (teacher_courses e i selected acc n)) /\
    teacher_id (fst (teacher_courses e i selected acc n)) = teacher_id acc.
Proof.
  induction selected as [| course_name rest IH]; intros i acc n Hacc.
  - split; [exact Hacc | reflexivity].
  - simpl. draw.
    match goal with
    | |- context [teacher_tasks e ?k ?cn ?cid ?m] =>
        destruct (teacher_tasks_of_course e k cn cid m) as [Htasks Htlen];
        destruct (teacher_tasks e k cn cid m) as [tasks m1]
    end.
    simpl in *.
    match goal with
    | |- context [course_low_performers e ?k ?cn ?cid ?m] =>
        destruct (course_low_performers_of_course e He k cn cid m) as [Hlow Hllen];
        destruct (course_low_performers e k cn cid m) as [low m2]
    end.
    simpl in *.
    match goal with
    | |- context [teacher_courses e (i + 1) rest ?acc' ?m] =>
        destruct (IH (i + 1) acc' m) as [Hok Hid]; [| split; [exact Hok | exact Hid]]
    end.
    destruct Hacc as (Hf & Hlc & Htc & Hc & Hnl & Hnt).
    unfold teacher_ok; simpl.
    pose proof (randbelow_range e He 21 n ltac:(lia)) as Hcount.
    pose proof (randbelow_range e He 6 (S n) ltac:(lia)) as Hoverdue.
    pose proof (randbelow_nat e He 4 (S (S n)) ltac:(lia)) as Hpending.
    match type of Hllen with
    | _ = Z.to_nat (randbelow e 4 ?m) =>
        pose proof (randbelow_nat e He 4 m ltac:(lia)) as Hnlow
    end.
    repeat split.
    + apply Forall_app. split; [exact Hf |].
      eapply Forall_impl; [exact Hlow |]. intros lp (H & _). exact H.
    + apply Forall_app. split.
      * eapply Forall_impl; [exact Hlc |]. intros lp H. apply of_course_more, H.
      * eapply Forall_impl; [exact Hlow |]. intros lp (_ & <- & <-).
        apply (of_course_last (courses acc)
                 {| tc_course_id := _; tc_course_name := _;
                    student_count := _; overdue_tasks := _ |}).
    + apply Forall_app. split.
      * eapply Forall_impl; [exact Htc |]. intros t H. apply of_course_more, H.
      * eapply Forall_impl; [exact Htasks |]. intros t (<- & <-).
        apply (of_course_last (courses acc)
                 {| tc_course_id := _; tc_course_name := _;
                    student_count := _; overdue_tasks := _ |}).
    + apply Forall_app. split; [exact Hc |].
      constructor; [simpl; lia | constructor].
    + rewrite !List.length_app, Hllen. simpl. simpl in Hnlow. lia.
    + rewrite !List.length_app, Htlen. simpl. simpl in Hpending. lia.
Qed.

(** X20. In every record built by [generate_teacher_data], the low
    performers are in ascending order of grade, all with a grade
    between 2.0 and 4.9; each of them, and each pending task, carries
    the id and the name of one of the teacher's courses; a course has
    15 to 35 students and at most 5 overdue tasks; and there are at most
    three low performers and three pending tasks per course. The sort
    loses and adds nothing, and a teacher id that was given is kept. *)
Theorem teacher_data_is_consistent (e : Entropy) (He : entropy_ok e)
    (teacher : option string) (n : nat) :
  let data := fst (generate_teacher_data e teacher n) in
  ascending (low_performers data) /\
  teacher_ok data /\
  (forall s, teacher = Some s -> teacher_id data = s) /\
  (forall l, Permutation (sort_by_grade l) l).
Proof.
  intros data. subst data. unfold generate_teacher_data.
  destruct teacher as [given |]; draw;
    match goal with
    | |- context [teacher_courses e 0 ?sel ?acc ?m] =>
        destruct (teacher_courses_ok e He sel 0 acc m) as [Hok Hid];
          [unfold teacher_ok; simpl; repeat split; try constructor; lia |];
        destruct (teacher_courses e 0 sel acc m) as [data m']
    end;
    simpl in *;
    destruct Hok as (Hf & Hlc & Htc & Hc & Hnl & Hnt);
    (split; [apply sort_ascending |]);
    (split; [| split; [| apply sort_permutation]]);
    try (intros s H; first [discriminate H | injection H as <-; exact Hid]);
    unfold teacher_ok; simpl; repeat split; try assumption;
    try (apply sort_Forall; assumption);
    rewrite (Permutation_length (sort_permutation _)); exact Hnl.
Qed.

Lemma teacher_data_is_consistent_witness :
  let data := fst (generate_teacher_data Fixtures.least_entropy (Some "TEACH-007") 0%nat) in
  ascending (low_performers data) /\
  teacher_ok data /\
  (forall s, Some "TEACH-007" = Some s -> teacher_id data = s) /\
  (forall l, Permutation (sort_by_grade l) l).
Proof.
  apply (teacher_data_is_consistent Fixtures.least_entropy
           MockDataSpec.least_entropy_ok (Some "TEACH-007") 0%nat).
Defined.

(** *** A payment record *)

Lemma months_back_length (current_date i : Z) (k : nat) :
  length (months_back current_date i k) = k.
Proof.
  revert i. induction k as [| k IH]; intros i; simpl; [reflexivity |].
  rewrite IH. reflexivity.
Qed.

(** The two kinds of record [generate_payment_data] builds. *)
Lemma payment_cases (e : Entropy) (He : entropy_ok e) (student : option string)
    (n : nat) :
  let p := fst (generate_payment_data e student n) in
  (forall s, student = Some s -> pay_student_id p = s) /\
  ((exists k, 10000 <= k < 100000 /\
              unpaid_months p = [] /\ status p = "paid" /\ amount_due p = 0 /\
              receipt_id p = Some ("REC-" +:+ decimal k)) \/
   (exists m, (1 <= m <= 3)%nat /\
              length (unpaid_months p) = m /\ status p = "overdue" /\
              amount_due p = 600 * Z.of_nat m /\ receipt_id p = None)).
Proof.
  intros p. subst p. unfold generate_payment_data.
  destruct student as [given |]; draw;
    match goal with
    | |- context [0 <? randbelow e 4 ?m] =>
        pose proof (randbelow_range e He 4 m ltac:(lia)) as Hunpaid;
        destruct (Z.ltb_spec 0 (randbelow e 4 m)) as [Hpos | Hzero]; draw
    end;
    (split; [intros s H; first [discriminate H | injection H as <-; reflexivity] |]).
  - right. eexists. split; [| split; [apply months_back_length |]].
    + lia.
    + split; [reflexivity |]. split; [lia | reflexivity].
  - left. eexists. split; [| repeat split; reflexivity].
    match goal with
    | |- _ <= randbelow e 90000 ?m + 10000 < _ =>
        pose proof (randbelow_range e He 90000 m ltac:(lia)); lia
    end.
  - right. eexists. split; [| split; [apply months_back_length |]].
    + lia.
    + split; [reflexivity |]. split; [lia | reflexivity].
  - left. eexists. split; [| repeat split; reflexivity].
    match goal with
    | |- _ <= randbelow e 90000 ?m + 10000 < _ =>
        pose proof (randbelow_range e He 90000 m ltac:(lia)); lia
    end.
Qed.

(** X21. Every record built by [generate_payment_data] is either
    paid or overdue. A paid record has no unpaid month, nothing due,
    and a receipt [REC-] with a five-digit number. An overdue record has
    one to three unpaid months, 600 due for each, and no receipt. A
    student id that was given is kept. *)
Theorem payment_status_is_consistent (e : Entropy) (He : entropy_ok e)
    (student : option string) (n : nat) :
  let p := fst (generate_payment_data e student n) in
  billed p /\
  (length (unpaid_months p) <= 3)%nat /\
  (unpaid_months p = [] <-> status p = "paid") /\
  (unpaid_months p <> [] <-> status p = "overdue") /\
  (status p = "paid" ->
   amount_due p = 0 /\
   exists k, 10000 <= k < 100000 /\ receipt_id p = Some ("REC-" +:+ decimal k)) /\
  (status p = "overdue" -> 600 <= amount_due p <= 1800 /\ receipt_id p = None) /\
  (forall s, student = Some s -> pay_student_id p = s).
Proof.
  intros p. destruct (payment_cases e He student n) as [Hkept Hcases].
  fold p in Hkept, Hcases. unfold billed.
  destruct Hcases as [(k & Hk & Hu & Hs & Ha & Hr) | (m & Hm & Hu & Hs & Ha & Hr)].
  - rewrite Hu, Hs, Ha, Hr. simpl.
    split; [reflexivity |]. split; [lia |].
    split; [split; reflexivity |].
    split; [split; [intros H; contradiction | discriminate] |].
    split; [intros _; split; [reflexivity | exists k; split; [exact Hk | reflexivity]] |].
    split; [discriminate | exact Hkept].
  - assert (Hne : unpaid_months p <> []).
    { intros H. rewrite H in Hu. simpl in Hu. lia. }
    rewrite Hs, Ha, Hr, Hu.
    split; [reflexivity |]. split; [lia |].
    split; [split; [intros H; contradiction | discriminate] |].
    split; [split; [reflexivity | intros _; exact Hne] |].
    split; [discriminate |].
    split; [intros _; split; [lia | reflexivity] | exact Hkept].
Qed.

Lemma greatest_entropy_ok : entropy_ok MockFixtures.greatest_entropy.
Proof.
  split; simpl; intros.
  - lia.
  - split; [assumption | apply Qle_refl].
Qed.

Lemma payment_status_is_consistent_witness :
  let p := fst (generate_payment_data MockFixtures.greatest_entropy (Some "STU-001")
                  0%nat) in
  billed p /\
  (length (unpaid_months p) <= 3)%nat /\
  (unpaid_months p = [] <-> status p = "paid") /\
  (unpaid_months p <> [] <-> status p = "overdue") /\
  (status p = "paid" ->
   amount_due p = 0 /\
   exists k, 10000 <= k < 100000 /\ receipt_id p = Some ("REC-" +:+ decimal k)) /\
  (status p = "overdue" -> 600 <= amount_due p <= 1800 /\ receipt_id p = None) /\
  (forall s, Some "STU-001" = Some s -> pay_student_id p = s).
Proof.
  apply (payment_status_is_consistent MockFixtures.greatest_entropy greatest_entropy_ok
           (Some "STU-001") 0%nat).
Defined.

(** With the greatest draws on 2025-11-03 the record is three months
    overdue: the months are those of the days 30, 60 and 90 days back. *)
Example three_months_overdue :
  let p := fst (generate_payment_data MockFixtures.greatest_entropy (Some "STU-001")
                  0%nat) in
  unpaid_months p = ["October 2025"; "September 2025"; "August 2025"] /\
  amount_due p = 1800 /\
  payment_month p = "November 2025" /\
  status p = "overdue" /\
  receipt_id p = None.
Proof. vm_compute. repeat split; reflexivity. Qed.

(** *** The administrator's record *)

Lemma delinquents_overdue (e : Entropy) (He : entropy_ok e) (k : nat) :
  forall n,
    Forall delinquent (fst (delinquents e k n)) /\
    length (fst (delinquents e k n)) = k.
Proof.
  induction k as [| k IH]; intros n; simpl; [split; [constructor | reflexivity] |].
  unfold gbind.
  pose proof (payment_cases e He None n) as [_ Hcases].
  destruct (generate_payment_data e None n) as [p n1]. simpl in Hcases.
  destruct (IH n1) as [Hall Hlen].
  destruct (delinquents e k n1) as [rest n2]. unfold gret. simpl in *.
  split; [| rewrite Hlen; reflexivity].
  constructor; [| exact Hall].
  unfold delinquent, ensure_unpaid, billed.
  destruct Hcases as [(r & Hr & Hu & Hs & Ha & Hid) | (m & Hm & Hu & Hs & Ha & Hid)].
  - rewrite Hu. simpl. rewrite Hid.
    split; [reflexivity |]. split; [discriminate |]. split; [reflexivity |].
    split; [lia |]. split; [intros _; split; reflexivity |].
    intros H. discriminate H.
  - destruct (unpaid_months p) as [| month months] eqn:Hmonths;
      [simpl in Hu; lia |].
    cbv iota. rewrite Hmonths, Hs, Ha, Hid.
    split; [reflexivity |]. split; [discriminate |].
    split; [rewrite Hu; reflexivity |].
    split; [lia |]. split; [intros [x Hx]; discriminate Hx |].
    intros _. lia.
Qed.

Lemma admin_low_performers_failing (e : Entropy) (He : entropy_ok e) (k : nat) :
  forall n,
    Forall failing (fst (admin_low_performers e k n)) /\
    length (fst (admin_low_performers e k n)) = k.
Proof.
  induction k as [| k IH]; intros n; simpl; [split; [constructor | reflexivity] |].
  draw.
  match goal with
  | |- context [admin_low_performers e k ?m] =>
      destruct (IH m) as [Hall Hlen];
      destruct (admin_low_performers e k m) as [rest m']
  end.
  simpl in *. split; [| rewrite Hlen; reflexivity].
  constructor; [| exact Hall].
  unfold failing. simpl. apply low_grade_failing, He.
Qed.

Lemma teachers_metrics_measured (e : Entropy) (He : entropy_ok e) (k : nat) :
  forall n,
    Forall measured (fst (teachers_metrics e k n)) /\
    length (fst (teachers_metrics e k n)) = k.
Proof.
  induction k as [| k IH]; intros n; simpl; [split; [constructor | reflexivity] |].
  draw.
  match goal with
  | |- context [teachers_metrics e k ?m] =>
      destruct (IH m) as [Hall Hlen];
      destruct (teachers_metrics e k m) as [rest m']
  end.
  simpl in *. split; [| rewrite Hlen; reflexivity].
  constructor; [| exact Hall].
  unfold measured. simpl.
  pose proof (randbelow_range e He 6 (S (S n)) ltac:(lia)).
  pose proof (randbelow_range e He 16 (S (S (S n))) ltac:(lia)).
  split; [lia |]. split; [lia |]. split; [| reflexivity].
  apply round1_percentage; apply (uniform_range e He 5 25); unfold Qle; simpl; lia.
Qed.

(** X22. In every record built by [generate_admin_data] there are 3
    to 8 delinquent students, 5 to 12 low-performing students and 4 to 8
    teachers. Every delinquent student is overdue, with at least one
    unpaid month and 600 due for each; one that carries a receipt is
    a paid record that was patched, with the single unpaid month
    November 2025. Every low-performing student has a grade between 2.0
    and 4.9. Every teacher has 3 to 8 classes, 5 to 20 published grades,
    5.0 to 25.0 percent of students below average, and the insights of
    these three numbers. *)
Theorem admin_data_is_consistent (e : Entropy) (He : entropy_ok e) (n : nat) :
  let data := fst (generate_admin_data e n) in
  (3 <= length (delinquent_students data) <= 8)%nat /\
  Forall delinquent (delinquent_students data) /\
  (5 <= length (low_performing_students data) <= 12)%nat /\
  Forall failing (low_performing_students data) /\
  (4 <= length (teacher_performance data) <= 8)%nat /\
  Forall measured (teacher_performance data).
Proof.
  intros data. subst data.
  unfold generate_admin_data, gbind, draw_randbelow, gret. cbv beta iota.
  pose proof (randbelow_range e He 6 n ltac:(lia)) as H1.
  destruct (delinquents_overdue e He (Z.to_nat (randbelow e 6 n + 3)) (S n))
    as [Hd Hdlen].
  destruct (delinquents e (Z.to_nat (randbelow e 6 n + 3)) (S n)) as [ds n1].
  cbv beta iota.
  pose proof (randbelow_range e He 8 n1 ltac:(lia)) as H2.
  destruct (admin_low_performers_failing e He (Z.to_nat (randbelow e 8 n1 + 5)) (S n1))
    as [Hl Hllen].
  destruct (admin_low_performers e (Z.to_nat (randbelow e 8 n1 + 5)) (S n1))
    as [lps n2].
  cbv beta iota.
  pose proof (randbelow_range e He 5 n2 ltac:(lia)) as H3.
  destruct (teachers_metrics_measured e He (Z.to_nat (randbelow e 5 n2 + 4)) (S n2))
    as [Ht Htlen].
  destruct (teachers_metrics e (Z.to_nat (randbelow e 5 n2 + 4)) (S n2)) as [tms n3].
  simpl in *.
  split; [lia |]. split; [exact Hd |]. split; [lia |]. split; [exact Hl |].
  split; [lia | exact Ht].
Qed.

Lemma admin_data_is_consistent_witness :
  let data := fst (generate_admin_data Fixtures.least_entropy 0%nat) in
  (3 <= length (delinquent_students data) <= 8)%nat /\
  Forall delinquent (delinquent_students data) /\
  (5 <= length (low_performing_students data) <= 12)%nat /\
  Forall failing (low_performing_students data) /\
  (4 <= length (teacher_performance data) <= 8)%nat /\
  Forall measured (teacher_performance data).
Proof.
  apply (admin_data_is_consistent Fixtures.least_entropy MockDataSpec.least_entropy_ok
           0%nat).
Defined.

(** X23. What the insights of a teacher say about the week. There
    is always at least one. [Normal performance metrics] is given
    exactly when nothing else is: the share of students below average
    is between 10.0 and 20.0, at most 15 grades were published and at
    most 6 classes taught; and then it is the only insight. Each other
    insight is given exactly on its condition, so an excellent
    performance and a high share of struggling students never come
    together. *)
Theorem insights_follow_metrics (below_average_pct grades_published classes_taught : Z) :
  let l := teacher_insights below_average_pct grades_published classes_taught in
  l <> [] /\
  (In "Normal performance metrics" l <->
   100 <= below_average_pct <= 200 /\ grades_published <= 15 /\ classes_taught <= 6) /\
  (In "Normal performance metrics" l -> l = ["Normal performance metrics"]) /\
  (In "Excellent student performance" l <-> below_average_pct < 100) /\
  (In "High percentage of struggling students - may need support" l <->
   200 < below_average_pct) /\
  (In "Very active in grading" l <-> 15 < grades_published) /\
  (In "High teaching load" l <-> 6 < classes_taught).
Proof.
  unfold teacher_insights.
  destruct (Z.ltb_spec below_average_pct 100);
    [| destruct (Z.ltb_spec 200 below_average_pct)];
    destruct (Z.ltb_spec 15 grades_published);
    destruct (Z.ltb_spec 6 classes_taught);
    simpl;
    (split; [discriminate |]);
    repeat split; intros; repeat destruct_or!;
      try discriminate; try contradiction; try lia; auto 6.
Qed.

End MockDataMoreSpec.

(** ** The domain tools, continued *)

Module ToolsMoreSpec.
Import Tools ToolsMore.

Lemma answer_with_agent_served (env : Env) (generator : Generator)
    (id : option string) (tools : list string) (persona query : string) (w : World) :
  served env generator id tools persona query w
         (answer_with_agent env generator id tools persona query w).
Proof.
  unfold served, answer_with_agent, bind, call. simpl.
  destruct (agent_new env tools (w ++ [EvMockData generator id])); reflexivity.
Qed.

(** X24. A domain tool called with a persona of its allow-list serves
    the request: the administrator tool for administrator, the student
    tool for student and administrator, the teacher tool for teacher and
    administrator. It draws mock data once (the administrator tool for
    no id, the others for the id they were given), builds one agent (the
    student tool's with [retrieve]), and calls the model once; an
    exception of the agent or of the model leaves the tool. *)
Theorem accepted_persona_is_served (env : Env) (query : string)
    (persona_id : option string) (persona : string) (w : World) :
  (persona = "administrator" ->
   served env GenAdmin None [] persona query w
          (answer_admin_questions env query persona w)) /\
  (persona = "student" \/ persona = "administrator" ->
   served env GenStudent persona_id ["retrieve"] persona query w
          (answer_student_questions env query persona_id persona w)) /\
  (persona = "teacher" \/ persona = "administrator" ->
   served env GenTeacher persona_id [] persona query w
          (answer_teacher_questions env query persona_id persona w)).
Proof.
  split; [| split].
  - intros ->. apply answer_with_agent_served.
  - intros [-> | ->]; apply answer_with_agent_served.
  - intros [-> | ->]; apply answer_with_agent_served.
Qed.

Lemma accepted_persona_is_served_witness :
  served Fixtures.echo_tools GenStudent (Some "STU-001") ["retrieve"] "administrator"
         "Show my grades" []
         (answer_student_questions Fixtures.echo_tools "Show my grades" (Some "STU-001")
                                   "administrator" []).
Proof.
  apply (proj1 (proj2 (accepted_persona_is_served Fixtures.echo_tools "Show my grades"
                         (Some "STU-001") "administrator" []))).
  right. reflexivity.
Defined.

(** On the fixture the administrator is served by the student tool:
    the model's answer comes back and the three steps are logged. *)
Example administrator_reads_grades :
  answer_student_questions Fixtures.echo_tools "Show my grades" (Some "STU-001")
                           "administrator" []
  = (Return "administrator: Show my grades",
     [ EvMockData GenStudent (Some "STU-001"); EvAgent ["retrieve"];
       EvAgentCall "administrator: Show my grades" ]).
Proof. vm_compute. reflexivity. Qed.

End ToolsMoreSpec.
